(** * AI_project: retrieval core of the shipping-news assistant

    A shallow embedding of [category_mapper.py], [vector_store.py] and
    [rag_chain.py], with the properties of the specification that concern
    them.

    Conventions of the embedding.
    - A Python [str] is represented by its UTF-8 encoding, a [string] of
      bytes.  Code-point order and byte order coincide for UTF-8, so
      [String.compare] is Python's [<] on [str]; characters are counted
      and split off by their lead bytes.
    - A [float] is represented by the rational number it denotes, an [int]
      likewise; infinities and NaN have no representation.  What float32
      arithmetic does to a vector (its norm, its quotient by the norm) and
      how NumPy compares a float32 score with a Python float are left to
      the environment.
    - A Python [dict] with string keys is a [gmap string _]; [d.get(k)] is
      [d !! k].
    - A Python [set] of strings is a [gset string]; [list(s)] is
      [elements s].  Python's order depends on the history of the set and
      on the hash seed, so of a result that comes from [list(s)] only the
      members are meant, not their order.
    - The metadata file is a list of the lines that were written to it,
      each with the two readings the code makes of it: whole, when the
      file is iterated, and cut at Unicode line separators, when it is
      read by [f.read().splitlines()].
    - Code that may raise lives in the error monad [res]; a [try]/[except]
      block is [try_except].
    - External collaborators (embedding service, FAISS search, the LLM,
      the clock, library functions such as [strptime], and the faults of
      the file system) are fields of an environment record, so every
      theorem holds for any behaviour of theirs. *)

From Stdlib Require Import QArith OrderedTypeEx Ascii.
From stdpp Require Import gmap strings list pretty sorting.

Open Scope string_scope.
Open Scope list_scope.

(* ===================================================================== *)
(** * Python values and built-ins *)
(* ===================================================================== *)

Module Py.

(** Exceptions, by class name and message ([str(e)]). *)
Record exn := Exn { exn_class : string; exn_msg : string }.

Inductive res (A : Type) : Type :=
| Ok (a : A)
| Raise (e : exn).
Arguments Ok {A} a.
Arguments Raise {A} e.

Definition bind {A B} (c : res A) (k : A → res B) : res B :=
  match c with
  | Ok a => k a
  | Raise e => Raise e
  end.

(** [try: body  except Exception as e: handler(e)] *)
Definition try_except {A} (body : res A) (handler : exn → res A) : res A :=
  match body with
  | Ok a => Ok a
  | Raise e => handler e
  end.

Definition TypeError (msg : string) : exn := Exn "TypeError" msg.

(** The value shapes the pipeline produces and consumes: [None], numbers
    (compared by value, as Python compares [int] and [float]), [str] and
    lists of [str].  All of them are JSON-serialisable. *)
Inductive pyval :=
| PNone
| PNum (q : Q)
| PStr (s : string)
| PList (l : list string).

Abbreviation pydict := (gmap string pyval).

(** [bool(v)] *)
Definition truthy (v : pyval) : bool :=
  match v with
  | PNone => false
  | PNum q => negb (Qeq_bool q 0)
  | PStr s => negb (String.eqb s "")
  | PList l => match l with [] => false | _ => true end
  end.

(** [d.get(k)] is falsy *)
Definition get_truthy (d : pydict) (k : string) : bool :=
  match d !! k with
  | Some v => truthy v
  | None => false
  end.

(** [a < b] on floats *)
Definition float_lt (a b : Q) : bool := negb (Qle_bool b a).

(** [a == b] *)
Definition py_eq (a b : pyval) : bool :=
  match a, b with
  | PNone, PNone => true
  | PNum x, PNum y => Qeq_bool x y
  | PStr x, PStr y => String.eqb x y
  | PList x, PList y => bool_decide (x = y)
  | _, _ => false
  end.

(** ** Strings *)

Definition is_upper (c : ascii) : bool :=
  let n := Ascii.nat_of_ascii c in (65 <=? n)%nat && (n <=? 90)%nat.

Definition lower_char (c : ascii) : ascii :=
  if is_upper c then Ascii.ascii_of_nat (Ascii.nat_of_ascii c + 32) else c.

(** [s.lower()].  Exact on ASCII text and on caseless scripts such as
    Hangul; non-ASCII cased letters are left as they are. *)
Fixpoint lower (s : string) : string :=
  match s with
  | EmptyString => EmptyString
  | String c s' => String (lower_char c) (lower s')
  end.

(** The UTF-8 encodings of the code points for which [str.isspace] holds:
    U+0009..U+000D, U+001C..U+0020, U+0085, U+00A0, U+1680,
    U+2000..U+200A, U+2028, U+2029, U+202F, U+205F, U+3000. *)
Definition bytes (l : list nat) : string :=
  String.string_of_list_ascii (Ascii.ascii_of_nat <$> l).

Definition whitespace : list string :=
  (bytes <$> [[9]; [10]; [11]; [12]; [13]; [28]; [29]; [30]; [31]; [32];
              [194; 133]; [194; 160]; [225; 154; 128]])
  ++ ((λ b, bytes [226; 128; b]) <$> seq 128 11)
  ++ (bytes <$> [[226; 128; 168]; [226; 128; 169]; [226; 128; 175];
                 [226; 129; 159]; [227; 128; 128]]).

Fixpoint drop_bytes (n : nat) (s : string) : string :=
  match n, s with
  | S n', String _ s' => drop_bytes n' s'
  | _, _ => s
  end.

Fixpoint rev_string (s : string) : string :=
  match s with
  | EmptyString => EmptyString
  | String c s' => rev_string s' +:+ String c EmptyString
  end.

(** The first whitespace encoding of [ws] that starts [s], if any. *)
Definition leading (ws : list string) (s : string) : option string :=
  List.find (λ w, String.prefix w s) ws.

Fixpoint lstrip_with (ws : list string) (fuel : nat) (s : string) : string :=
  match fuel with
  | O => s
  | S fuel' =>
      match leading ws s with
      | Some w => lstrip_with ws fuel' (drop_bytes (String.length w) s)
      | None => s
      end
  end.

Definition lstrip (s : string) : string :=
  lstrip_with whitespace (String.length s) s.

Definition rstrip (s : string) : string :=
  rev_string
    (lstrip_with (rev_string <$> whitespace) (String.length s) (rev_string s)).

(** [s.strip()] *)
Definition strip (s : string) : string := rstrip (lstrip s).

(** [sub in s] for two [str] *)
Fixpoint contains (sub s : string) : bool :=
  String.prefix sub s
  || match s with
     | EmptyString => false
     | String _ s' => contains sub s'
     end.

(** [sep.join(l)] for a list of [str] *)
Fixpoint join (sep : string) (l : list string) : string :=
  match l with
  | [] => ""
  | [x] => x
  | x :: l' => x +:+ sep +:+ join sep l'
  end.

(** A byte that continues a UTF-8 sequence (10xxxxxx). *)
Definition is_continuation (c : ascii) : bool :=
  let n := Ascii.nat_of_ascii c in (128 <=? n)%nat && (n <? 192)%nat.

(** The characters (code points) of a [str], each as its own [str]. *)
Fixpoint chars_aux (cur : string) (s : string) : list string :=
  match s with
  | EmptyString => match cur with EmptyString => [] | _ => [cur] end
  | String c s' =>
      if is_continuation c then chars_aux (cur +:+ String c EmptyString) s'
      else match cur with
           | EmptyString => chars_aux (String c EmptyString) s'
           | _ => cur :: chars_aux (String c EmptyString) s'
           end
  end.

Definition chars (s : string) : list string := chars_aux "" s.

(** [s[:n]] *)
Definition slice_to (n : nat) (s : string) : string :=
  String.concat "" (take n (chars s)).

(** [sep.join(v)]: [v] must be an iterable of [str]. *)
Definition join_val (sep : string) (v : pyval) : res string :=
  match v with
  | PList l => Ok (join sep l)
  | PStr s => Ok (join sep (chars s))
  | PNone => Raise (TypeError "can only join an iterable")
  | PNum _ => Raise (TypeError "can only join an iterable")
  end.

End Py.

Export Py.

Notation "'let!' x ':=' c 'in' k" := (Py.bind c (λ x, k))
  (at level 10, x name, c at level 100, k at level 200, only parsing).

(* ===================================================================== *)
(** * category_mapper.py *)
(* ===================================================================== *)

Module CategoryMapper.

Definition steel_export_group := "steel_export_group".
Definition coal_import_group := "coal_import_group".
Definition container_group := "container_group".
Definition general_group := "general_group".

(** The keyword table, in the insertion order of the dict literal (the
    order in which [.items()] iterates). *)
Definition CATEGORY_TO_GROUP : list (string * string) :=
  [ ("handy", steel_export_group);
    ("handymax", steel_export_group);
    ("supramax", steel_export_group);
    ("bdi", steel_export_group);
    ("steel", steel_export_group);
    ("baltic", steel_export_group);
    ("panamax", coal_import_group);
    ("capesize", coal_import_group);
    ("coal", coal_import_group);
    ("iron ore", coal_import_group);
    ("ironore", coal_import_group);
    ("container", container_group);
    ("scfi", container_group);
    ("shipping schedule", container_group);
    ("boxship", container_group);
    ("teu", container_group);
    ("bulk", general_group);
    ("bulker", general_group);
    ("dry bulk", general_group);
    ("freight", general_group);
    ("rates", general_group);
    ("charter", general_group);
    ("tonnage", general_group);
    ("vessel", general_group);
    ("shipping", general_group);
    ("maritime", general_group);
    ("port", general_group);
    ("cargo", general_group);
    ("demand", general_group);
    ("supply", general_group) ].

(** [table[key]] when [key in table] *)
Definition lookup_key (table : list (string * string)) (key : string)
  : option string :=
  snd <$> List.find (λ kv, String.eqb (fst kv) key) table.

(** The inner [for category_key, group in ...items()] loop with its
    [break]: the group of the first entry whose key contains [key] or is
    contained in it. *)
Definition partial_match (table : list (string * string)) (key : string)
  : option string :=
  snd <$> List.find (λ kv, contains (fst kv) key || contains key (fst kv)) table.

(** What one iteration of the outer loop adds to [groups]. *)
Definition group_of (table : list (string * string)) (cat : string)
  : option string :=
  if String.eqb cat "" then None
  else
    let key := strip (lower cat) in
    match lookup_key table key with
    | Some g => Some g
    | None => partial_match table key
    end.

Definition add_group (groups : gset string) (cat : string) : gset string :=
  match group_of CATEGORY_TO_GROUP cat with
  | Some g => groups ∪ {[ g ]}
  | None => groups
  end.

Definition map_categories_to_groups (categories : list string) : list string :=
  match categories with
  | [] => [general_group]
  | _ =>
      let groups := foldl add_group ∅ categories in
      if decide (groups = ∅) then [general_group] else elements groups
  end.

(** [get_all_groups()] *)
Definition get_all_groups : list string :=
  [steel_export_group; coal_import_group; container_group; general_group].

End CategoryMapper.

(* ===================================================================== *)
(** * vector_store.py *)
(* ===================================================================== *)

Module VectorStore.

(** A piece of text of [metadata.jsonl] as [json.loads] sees it: not JSON
    at all, JSON that is not an object, or an object.  [json.loads] of the
    [json.dumps] of a dict gives the dict back, a [Rec]. *)
Inductive line :=
| Garbage (raw : string)
| NotDict
| Rec (m : pydict).

(** An element of the [docs] argument. *)
Inductive pyobj :=
| Dict (m : pydict)
| NotADict.

(** A value of the [filters] dict: a plain value, or the pair of
    [datetime.date]s of a ["date_range"] (as proleptic ordinals). *)
Inductive fval :=
| FVal (v : pyval)
| FDateRange (start_date end_date : Z).

Abbreviation filters_t := (gmap string fval).

(** What can go wrong in the [try] block that adds one batch. *)
Inductive batch_fault :=
| NoFault
| AddFails      (* np.vstack or idx.add_with_ids raises *)
| WriteFails.   (* the metadata file cannot be opened or written *)

(** The code points at which [str.splitlines] cuts a text and which
    [json.dumps(..., ensure_ascii=False)] writes as they are: U+0085,
    U+2028 and U+2029, in UTF-8.  (The others, [\n], [\r], [\v], [\f] and
    U+001C..U+001E, are below U+0020 and leave [json.dumps] escaped.) *)
Definition line_separators : list string :=
  bytes <$> [[194; 133]; [226; 128; 168]; [226; 128; 169]].

Definition one_line (s : string) : bool :=
  forallb (λ sep, negb (contains sep s)) line_separators.

Definition value_one_line (v : pyval) : bool :=
  match v with
  | PStr s => one_line s
  | PList l => forallb one_line l
  | PNone | PNum _ => true
  end.

(** The JSON text of the record holds no line separator. *)
Definition record_one_line (m : pydict) : bool :=
  forallb (λ kv, one_line (fst kv) && value_one_line (snd kv)) (map_to_list m).

(** The world around the module. *)
Record env {vec : Type} := Env {
  (** [EMBED.embed_query(text)], as a float32 array *)
  embed_query : string → res vec;
  (** [vector / norm] when [norm > 0], else [vector] *)
  l2_normalize : vec → vec;
  (** [idx.search(q[None, :], k)], as [zip(ids[0], scores[0])] *)
  index_search : list (Z * vec) → vec → Z → res (list (Z * Q));
  (** [score < similarity_threshold] for a [numpy.float32] score and a
      Python float: NumPy 1 compares the two in binary64, that is exactly;
      NumPy 2 rounds the threshold to float32 first *)
  score_below : Q → Q → bool;
  (** for a record whose JSON text holds line separators: what
      [json.loads] makes of each of the lines that [str.splitlines] cuts
      the text into *)
  split_pieces : pydict → list line;
  (** [str(v)] for a list or a number *)
  py_repr : pyval → string;
  (** [datetime.strptime(s, "%Y-%m-%d").date()]; [None] is ValueError *)
  strptime : string → option Z;
  (** [datetime.datetime.now().strftime('%Y-%m-%d')] *)
  today : string;
  read_index_fails : bool;
  read_meta_fails : bool;
  (** by the batch's start offset [i] *)
  batch_faults : nat → batch_fault;
  save_index_fails : bool;
  unlink_index_fails : bool;
  rename_meta_fails : bool;
  unlink_backup_fails : bool
}.
Arguments env : clear implicits.
Arguments Env {vec}.

Section Store.
Context {vec : Type}.

(** The index: an [IndexIDMap] over [IndexFlatIP], the vectors in the
    order they were added, each with its id. *)
Definition index := list (Z * vec).

(** A line of the metadata file, up to its newline, under the two
    readings the code makes of it. *)
Record entry := Entry {
  (** [json.loads(line.strip())] for [line] in [for line in f] *)
  whole : line;
  (** [json.loads] of the lines [f.read().splitlines()] makes of it *)
  pieces : list line
}.

(** A line without line separators reads the same both ways. *)
Definition plain (l : line) : entry := Entry l [l].

(** The files under [vector_store/]; [None] is a missing file. *)
Record store := Store {
  index_file : option index;       (* INDEX_PATH *)
  meta_file : option (list entry); (* META_PATH *)
  backup_file : option (list entry) (* META_PATH.with_suffix('.backup') *)
}.

(** [f.read().splitlines()] on the lines of a file *)
Definition splitlines (entries : list entry) : list line :=
  entries ≫= pieces.

Definition ntotal (idx : index) : nat := length idx.

(** [load_index()]: fails soft. *)
Definition load_index (E : env vec) (s : store) : index :=
  match index_file s with
  | Some idx => if read_index_fails E then [] else idx
  | None => []
  end.

(** [save_index(idx)]: fails hard. *)
Definition save_index (E : env vec) (s : store) (idx : index) : store * res unit :=
  if save_index_fails E then (s, Raise (Exn "RuntimeError" "write_index"))
  else (Store (Some idx) (meta_file s) (backup_file s), Ok tt).

(** [f.read().splitlines()] on [META_PATH] *)
Definition read_meta (E : env vec) (s : store) : res (list line) :=
  if read_meta_fails E then Raise (Exn "OSError" "metadata.jsonl")
  else Ok (splitlines (default [] (meta_file s))).

(** [for line in f] on [META_PATH], each line through [json.loads] *)
Definition iter_meta (E : env vec) (s : store) : res (list line) :=
  if read_meta_fails E then Raise (Exn "OSError" "metadata.jsonl")
  else Ok (whole <$> default [] (meta_file s)).

(** [json.dumps(clean_meta, ensure_ascii=False)] followed by a newline,
    as it stands in the file afterwards. *)
Definition written (E : env vec) (l : line) : entry :=
  match l with
  | Rec m => Entry l (if record_one_line m then [l] else split_pieces E m)
  | _ => plain l
  end.

(** ** validate_document *)

Definition placeholders : list pyval := [PStr "None"; PStr "none"; PStr ""].

(** [not doc.get(field) or doc[field] in ['None', 'none', '']] *)
Definition field_rejected (doc : pydict) (field : string) : bool :=
  negb (get_truthy doc field)
  || match doc !! field with
     | Some v => existsb (py_eq v) placeholders
     | None => false
     end.

Definition validate_dict (doc : pydict) : bool :=
  forallb (λ field, negb (field_rejected doc field)) ["title"; "summary"].

Definition validate_document (doc : pyobj) : res bool :=
  match doc with
  | Dict m => Ok (validate_dict m)
  | NotADict => Raise (Exn "AttributeError" "object has no attribute 'get'")
  end.

(** ** add_documents *)

(** [str(v)] *)
Definition py_str (E : env vec) (v : pyval) : string :=
  match v with
  | PStr s => s
  | PNone => "None"
  | _ => py_repr E v
  end.

(** The items of an iterable handed to [str.join], each of which must be
    a [str]. *)
Fixpoint str_items (parts : list pyval) : res (list string) :=
  match parts with
  | [] => Ok []
  | PStr s :: rest => let! r := str_items rest in Ok (s :: r)
  | _ :: _ => Raise (TypeError "sequence item: expected str instance")
  end.

Definition text_for_embed (doc : pydict) : res string :=
  let title := default (PStr "") (doc !! "title") in
  let summary := default (PStr "") (doc !! "summary") in
  let! events := join_val " " (default (PList []) (doc !! "events")) in
  let! category := join_val " " (default (PList []) (doc !! "category")) in
  let text_parts := [title; summary; PStr events; PStr category] in
  let! kept := str_items (List.filter truthy text_parts) in
  Ok (join " " kept).

Definition clean_meta (E : env vec) (doc : pydict) : pydict :=
  list_to_map
    [ ("title", PStr (py_str E (default (PStr "") (doc !! "title"))));
      ("summary", PStr (py_str E (default (PStr "") (doc !! "summary"))));
      ("category", default (PList []) (doc !! "category"));
      ("assigned_group", default (PList []) (doc !! "assigned_group"));
      ("events", default (PList []) (doc !! "events"));
      ("source_url", PStr (py_str E (default (PStr "") (doc !! "source_url"))));
      ("source", PStr (py_str E (default (PStr "") (doc !! "source"))));
      ("date", default (PStr (today E)) (doc !! "date"));
      ("keywords", default (PList []) (doc !! "keywords")) ].

(** The body of the inner [for j, doc in enumerate(batch_docs)] loop:
    [None] when the document is skipped ([continue]), otherwise what is
    appended to [batch_vectors], [batch_ids] and [batch_metas]. *)
Definition process_doc (E : env vec) (id : nat) (doc : pydict)
  : option (Z * vec * line) :=
  match text_for_embed doc with
  | Raise _ => None
  | Ok text =>
      if String.eqb (strip text) "" then None
      else match embed_query E text with
           | Raise _ => None
           | Ok vector =>
               Some (Z.of_nat id, l2_normalize E vector, Rec (clean_meta E doc))
           end
  end.

Definition process_batch (E : env vec) (first_id : nat) (batch_docs : list pydict)
  : list (Z * vec * line) :=
  omap (λ jd, process_doc E (first_id + fst jd) (snd jd))
       (imap (λ j doc, (j, doc)) batch_docs).

(** The in-memory index and the metadata file while batches are added. *)
Definition progress := (index * option (list entry))%type.

(** One iteration of [for i in range(0, len(valid_docs), batch_size)]. *)
Definition add_batch (E : env vec) (id_base i : nat) (batch_docs : list pydict)
    (p : progress) : progress :=
  let batch := process_batch E (id_base + i) batch_docs in
  match batch with
  | [] => p
  | _ =>
      match batch_faults E i with
      | AddFails => p
      | WriteFails => (fst p ++ (fst <$> batch), snd p)
      | NoFault =>
          (fst p ++ (fst <$> batch),
           Some (default [] (snd p) ++ (written E <$> (snd <$> batch))))
      end
  end.

(** The batch loop; [rest] is [valid_docs[i:]].  [fuel] bounds the number
    of iterations, [length valid_docs] being enough when [batch_size > 0]. *)
Fixpoint add_batches (E : env vec) (id_base batch_size : nat)
    (fuel i : nat) (rest : list pydict) (p : progress) : progress :=
  match fuel, rest with
  | S fuel', _ :: _ =>
      add_batches E id_base batch_size fuel' (i + batch_size)
        (drop batch_size rest)
        (add_batch E id_base i (take batch_size rest) p)
  | _, _ => p
  end.

(** [[doc for doc in docs if validate_document(doc)]] *)
Fixpoint valid_documents (docs : list pyobj) : res (list pydict) :=
  match docs with
  | [] => Ok []
  | doc :: rest =>
      let! ok := validate_document doc in
      let! r := valid_documents rest in
      Ok (match doc with
          | Dict m => if ok then m :: r else r
          | NotADict => r
          end)
  end.

Definition add_documents (E : env vec) (s : store) (docs : list pyobj)
    (batch_size : nat) : store * res unit :=
  match docs with
  | [] => (s, Ok tt)
  | _ =>
      match valid_documents docs with
      | Raise e => (s, Raise e)
      | Ok [] => (s, Ok tt)
      | Ok valid_docs =>
          let idx := load_index E s in
          match (match meta_file s with
                 | Some _ => read_meta E s
                 | None => Ok []
                 end) with
          | Raise e => (s, Raise e)
          | Ok existing_metas =>
              let id_base := length existing_metas in
              if (batch_size =? 0)%nat
              then (s, Raise (Exn "ValueError" "range() arg 3 must not be zero"))
              else
                let p := add_batches E id_base batch_size (length valid_docs)
                           0 valid_docs (idx, meta_file s) in
                save_index E (Store (index_file s) (snd p) (backup_file s)) (fst p)
          end
      end
  end.

(** ** _apply_filters *)

(** [x in c] for a [str] [x] *)
Definition member (x : string) (c : fval) : res bool :=
  match c with
  | FVal (PList l) => Ok (bool_decide (x ∈ l))
  | FVal (PStr s) => Ok (contains x s)
  | FVal PNone => Raise (TypeError "argument of type 'NoneType' is not iterable")
  | FVal (PNum _) => Raise (TypeError "argument of type 'int' is not iterable")
  | FDateRange _ _ => Ok false
  end.

(** [any(x in c for x in xs)] *)
Fixpoint any_member (xs : list string) (c : fval) : res bool :=
  match xs with
  | [] => Ok false
  | x :: rest =>
      let! b := member x c in
      if b then Ok true else any_member rest c
  end.

(** [bool(filters.get(key))] *)
Definition filter_active (filters : filters_t) (key : string) : bool :=
  match filters !! key with
  | Some (FVal v) => truthy v
  | Some (FDateRange _ _) => true
  | None => false
  end.

(** The three list filters share one shape; [Ok false] is [return False],
    [Ok true] falls through to the next filter. *)
Definition list_filter (meta : pydict) (filters : filters_t) (key : string)
  : res bool :=
  match filters !! key with
  | Some c =>
      if filter_active filters key then
        match default (PList []) (meta !! key) with
        | PList xs => any_member xs c
        | _ => Ok false
        end
      else Ok true
  | None => Ok true
  end.

Definition date_filter (E : env vec) (meta : pydict) (filters : filters_t)
  : bool :=
  match filters !! "date_range" with
  | Some c =>
      if filter_active filters "date_range" then
        let doc_date := default (PStr "") (meta !! "date") in
        if truthy doc_date then
          match doc_date, c with
          | PStr d, FDateRange start_date end_date =>
              match strptime E d with
              | Some doc_date_obj =>
                  (start_date <=? doc_date_obj)%Z && (doc_date_obj <=? end_date)%Z
              | None => false
              end
          | _, _ => false
          end
        else false
      else true
  | None => true
  end.

Definition apply_filters_body (E : env vec) (meta : pydict) (filters : filters_t)
  : res bool :=
  let! ev := list_filter meta filters "events" in
  if negb ev then Ok false else
  let! cat := list_filter meta filters "category" in
  if negb cat then Ok false else
  let! grp := list_filter meta filters "assigned_group" in
  if negb grp then Ok false else
  Ok (date_filter E meta filters).

Definition _apply_filters (E : env vec) (meta : pydict) (filters : filters_t)
  : bool :=
  match try_except (apply_filters_body E meta filters) (λ _, Ok false) with
  | Ok b => b
  | Raise _ => false
  end.

(** ** search_articles *)

(** Lists of [str] compare item by item, a proper prefix being smaller. *)
Fixpoint list_cmp (a b : list string) : comparison :=
  match a, b with
  | [], [] => Eq
  | [], _ :: _ => Lt
  | _ :: _, [] => Gt
  | x :: a', y :: b' =>
      match String.compare x y with
      | Eq => list_cmp a' b'
      | c => c
      end
  end.

(** [a < b], [a == b] and [a > b] on values; [None] is the TypeError of
    an unsupported [<] between values that are not equal. *)
Definition py_cmp (a b : pyval) : option comparison :=
  match a, b with
  | PNone, PNone => Some Eq
  | PNum x, PNum y => Some (x ?= y)%Q
  | PStr x, PStr y => Some (String.compare x y)
  | PList x, PList y => Some (list_cmp x y)
  | _, _ => None
  end.

(** Comparison of the 2-tuples the sort key builds. *)
Definition key_cmp (a b : pyval * pyval) : option comparison :=
  match py_cmp (fst a) (fst b) with
  | Some Eq => py_cmp (snd a) (snd b)
  | r => r
  end.

(** [lambda x: (x.get("date", ""), x["score"])] *)
Definition sort_key (x : pydict) : res (pyval * pyval) :=
  match x !! "score" with
  | Some sc => Ok (default (PStr "") (x !! "date"), sc)
  | None => Raise (Exn "KeyError" "score")
  end.

(** [hits.sort(key=..., reverse=True)]: the stable sort by descending
    key.  An element goes in front of the first one whose key is not
    greater than its own. *)
Fixpoint insert_desc (kx : pyval * pyval) (x : pydict)
    (l : list (pyval * pyval * pydict)) : res (list (pyval * pyval * pydict)) :=
  match l with
  | [] => Ok [(kx, x)]
  | (ky, y) :: l' =>
      match key_cmp kx ky with
      | None => Raise (TypeError "'<' not supported")
      | Some Lt => let! r := insert_desc kx x l' in Ok ((ky, y) :: r)
      | Some _ => Ok ((kx, x) :: (ky, y) :: l')
      end
  end.

Fixpoint sort_keyed (l : list pydict) : res (list (pyval * pyval * pydict)) :=
  match l with
  | [] => Ok []
  | x :: l' =>
      let! kx := sort_key x in
      let! r := sort_keyed l' in
      insert_desc kx x r
  end.

Definition sort_hits (hits : list pydict) : res (list pydict) :=
  let! r := sort_keyed hits in Ok (snd <$> r).

(** [l[doc_id]], negative positions counting from the end *)
Definition py_index {A} (l : list A) (i : Z) : option A :=
  if (0 <=? i)%Z then l !! Z.to_nat i
  else if (- Z.of_nat (length l) <=? i)%Z then l !! Z.to_nat (Z.of_nat (length l) + i)
  else None.

(** [l[:k]] *)
Definition slice_upto {A} (k : Z) (l : list A) : list A :=
  if (0 <=? k)%Z then take (Z.to_nat k) l
  else take (Z.to_nat (Z.of_nat (length l) + k)) l.

Definition annotate (meta : pydict) (score : Q) (doc_id : Z) : pydict :=
  <["doc_id" := PNum (inject_Z doc_id)]> (<["score" := PNum score]> meta).

Definition any_filter_active (filters : filters_t) : bool :=
  existsb (filter_active filters) ["events"; "category"; "assigned_group"; "date_range"].

(** The [for doc_id, score in zip(ids[0], scores[0])] loop. *)
Fixpoint collect_hits (E : env vec) (filters : filters_t) (top_k : Z)
    (similarity_threshold : Q) (meta_lines : list line)
    (candidates : list (Z * Q)) (hits : list pydict) : list pydict :=
  match candidates with
  | [] => hits
  | (doc_id, score) :: rest =>
      let continue := collect_hits E filters top_k similarity_threshold
                        meta_lines rest in
      if (doc_id =? -1)%Z || score_below E score similarity_threshold
      then continue hits
      else if (Z.of_nat (length meta_lines) <=? doc_id)%Z then continue hits
      else
        match py_index meta_lines doc_id with
        | None => continue hits                 (* IndexError *)
        | Some (Garbage _) => continue hits     (* JSONDecodeError *)
        | Some NotDict =>
            (* with no filter set, [meta["score"] = ...] raises and the
               [break] test is skipped; otherwise the filter rejects *)
            if any_filter_active filters
            then if (top_k <=? Z.of_nat (length hits))%Z then hits
                 else continue hits
            else continue hits
        | Some (Rec meta) =>
            let hits' :=
              if _apply_filters E meta filters
              then hits ++ [annotate meta score doc_id]
              else hits in
            if (top_k <=? Z.of_nat (length hits'))%Z then hits'
            else continue hits'
        end
  end.

Definition search_body (E : env vec) (s : store) (query : string)
    (filters : filters_t) (top_k : Z) (similarity_threshold : Q)
  : res (list pydict) :=
  let idx := load_index E s in
  if (ntotal idx =? 0)%nat then Ok [] else
  let! query_vector := embed_query E query in
  let query_vector := l2_normalize E query_vector in
  let search_k := Z.min (top_k * 5) (Z.of_nat (ntotal idx)) in
  let! candidates := index_search E idx query_vector search_k in
  match meta_file s with
  | None => Ok []
  | Some _ =>
      let! meta_lines := read_meta E s in
      let hits := collect_hits E filters top_k similarity_threshold
                    meta_lines candidates [] in
      let! hits := sort_hits hits in
      Ok (slice_upto top_k hits)
  end.

(** [similarity_threshold: float = 0.1], up to the rounding of the
    literal *)
Definition default_similarity_threshold : Q := 1 # 10.

(** The whole body sits in [try: ... except Exception: return []]. *)
Definition search_articles (E : env vec) (s : store) (query : string)
    (filters : filters_t) (top_k : Z) (similarity_threshold : Q)
  : res (list pydict) :=
  try_except (search_body E s query filters top_k similarity_threshold)
             (λ _, Ok []).

(** ** rebuild_index *)

(** The documents restored from the metadata file; a line that does not
    parse is skipped. *)
Definition restore_documents (lines : list line) : list pyobj :=
  omap (λ l, match l with
             | Garbage _ => None
             | NotDict => Some NotADict
             | Rec m => Some (Dict m)
             end) lines.

Definition rebuild_index (E : env vec) (s : store) : store * bool :=
  match meta_file s with
  | None => (s, false)
  | Some _ =>
      (* INDEX_PATH.unlink() *)
      if match index_file s with
         | Some _ => unlink_index_fails E
         | None => false
         end
      then (s, false) else
      let s1 := Store None (meta_file s) (backup_file s) in
      match iter_meta E s1 with
      | Raise _ => (s1, false)
      | Ok lines =>
          let documents := restore_documents lines in
          match documents with
          | [] => (s1, false)
          | _ =>
              (* META_PATH.rename(backup_path) *)
              if rename_meta_fails E then (s1, false) else
              let s2 := Store None None (meta_file s1) in
              match add_documents E s2 documents 50 with
              | (s3, Raise _) => (s3, false)
              | (s3, Ok _) =>
                  (* backup_path.unlink() *)
                  if unlink_backup_fails E then (s3, false)
                  else (Store (index_file s3) (meta_file s3) None, true)
              end
          end
      end
  end.

(** ** Vocabulary of the properties *)

(** The ids of the stored vectors, in the order they were added. *)
Definition stored_ids (s : store) : list Z := fst <$> default [] (index_file s).

(** The lines of the metadata log, as [f.read().splitlines()] gives
    them. *)
Definition meta_lines_of (s : store) : list line :=
  splitlines (default [] (meta_file s)).

(** ID alignment: as many vectors as metadata lines, and the Nth vector
    carries the id N, the position of its line. *)
Definition aligned (s : store) : Prop :=
  stored_ids s = Z.of_nat <$> seq 0 (length (meta_lines_of s)).

(** The document is not skipped by the inner loop: its embedding text can
    be built, is not blank, and the embedding service answers. *)
Definition embeddable (E : env vec) (doc : pydict) : Prop :=
  is_Some (process_doc E 0 doc).

(** What a run of batches adds when no batch fails. *)
Definition appended (E : env vec) (p : progress) (batch : list (Z * vec * line))
  : progress :=
  match batch with
  | [] => p
  | _ => (fst p ++ (fst <$> batch),
          Some (default [] (snd p) ++ (written E <$> (snd <$> batch))))
  end.

(** The record [add_documents] writes for the document holds no line
    separator: it is one line also for [f.read().splitlines()]. *)
Definition on_one_line (E : env vec) (doc : pydict) : Prop :=
  record_one_line (clean_meta E doc) = true.

(** No file operation of [add_documents] fails. *)
Definition storage_works (E : env vec) : Prop :=
  read_index_fails E = false ∧ read_meta_fails E = false
  ∧ save_index_fails E = false ∧ ∀ i, batch_faults E i = NoFault.

(** A field that [validate_document] refuses: missing or falsy ([None],
    the empty string, 0, the empty list), or one of the strings 'None' and
    'none'. *)
Definition refused_field (doc : pydict) (field : string) : Prop :=
  match doc !! field with
  | None => True
  | Some v => truthy v = false ∨ v = PStr "None" ∨ v = PStr "none"
  end.

End Store.

Arguments store : clear implicits.
Arguments index : clear implicits.

End VectorStore.

(* ===================================================================== *)
(** * rag_chain.py *)
(* ===================================================================== *)

Module RagChain.
Import VectorStore.

Definition nl : string := String (Ascii.ascii_of_nat 10) EmptyString.

(** [nl.join(lines)], for text written over several source lines *)
Definition text (lines : list string) : string := join nl lines.

(** What the answer path talks to besides the vector store. *)
Record services := Services {
  (** [client.chat.completions.create(...)] and the [content] of its
      first choice, [None] when the model returned no text *)
  chat_completion : string → string → res (option string);
  (** [langdetect.detect(text)] *)
  langdetect_detect : string → res string;
  (** [char.isalpha()] on one character *)
  isalpha : string → bool;
  (** [datetime.now()], in microseconds since ordinal day 0 *)
  now_us : Z
}.

Definition ENHANCED_SYSTEM_PROMPT : string :=
  nl +:+ text
  [ "당신은 해운/물류/철강 산업의 전문 AI 어시스턴트입니다.";
    "";
    "## 역할별 답변 가이드:";
    "- **사장/실장**: 전략적 관점, 핵심 포인트 중심, 간결하고 임팩트 있게";
    "- **그룹장**: 관리적 관점, 실행 가능한 액션 아이템 포함";
    "- **리더**: 팀 관리 + 실무 세부사항, 균형잡힌 상세도";
    "- **담당자**: 최대한 상세하고 친절하게, 용어 설명 포함";
    "";
    "## 답변 원칙:";
    "1. 제공된 최신 뉴스 정보를 우선적으로 활용";
    "2. 정보가 불충분한 경우 명시적으로 언급";
    "3. 전문 용어 사용시 간단한 설명 병행";
    "4. 다각도 분석 (기회 요소와 위험 요소 모두 언급)";
    "5. 출처가 불분명한 추측은 피하고 팩트 기반 답변";
    "";
    "## 특별 지침:";
    "- 수치나 데이터 언급시 출처 명시";
    "- 전망이나 예측시 불확실성 인정";
    "- 사용자의 비즈니스 그룹과 관련성 높은 정보 우선 제공" ] +:+ nl.

(** ** detect_language *)

Definition is_hangul (c : string) : bool :=
  String.leb "가" c && String.leb c "힣".

Definition detect_language (svc : services) (txt : string) : string :=
  let korean_chars := length (List.filter is_hangul (chars txt)) in
  let total_chars := length (List.filter (isalpha svc) (chars txt)) in
  (* [korean_chars / total_chars > 0.3] *)
  if (0 <? total_chars)%nat && (3 * total_chars <? 10 * korean_chars)%nat
  then "ko"
  else match langdetect_detect svc txt with
       | Ok detected => detected
       | Raise _ => "ko"
       end.

(** ** analyze_query_intent *)

Record intent := Intent {
  intent_type : string;
  urgency : string;
  scope : string;
  requires_recent_data : bool;
  technical_level : string
}.

(** [any(keyword in query_lower for keyword in keywords)] *)
Definition any_keyword (keywords : list string) (query_lower : string) : bool :=
  existsb (λ keyword, contains keyword query_lower) keywords.

(** [user_meta.get(key, default)] *)
Definition meta_get (user_meta : pyobj) (key : string) (dflt : pyval) : res pyval :=
  match user_meta with
  | Dict m => Ok (default dflt (m !! key))
  | NotADict => Raise (Exn "AttributeError" "object has no attribute 'get'")
  end.

Definition analyze_query_intent (query : string) (user_meta : pyobj) : res intent :=
  let query_lower := lower query in
  let urgency :=
    if any_keyword ["긴급"; "즉시"; "urgent"; "immediate"; "오늘"; "today"] query_lower
    then "high" else "normal" in
  let recent :=
    any_keyword ["최근"; "현재"; "지금"; "요즘"; "recent"; "current"; "latest"]
      query_lower in
  let type :=
    if any_keyword ["전망"; "예측"; "forecast"; "outlook"] query_lower then "forecast"
    else if any_keyword ["분석"; "영향"; "analysis"; "impact"] query_lower then "analysis"
    else if any_keyword ["무엇"; "뭐야"; "what is"; "explain"] query_lower then "definition"
    else if any_keyword ["어떻게"; "how to"; "방법"] query_lower then "how_to"
    else "general" in
  let! role := meta_get user_meta "role" (PStr "담당자") in
  let technical_level :=
    if existsb (py_eq role) [PStr "사장"; PStr "실장"] then "low"
    else if py_eq role (PStr "그룹장") then "medium"
    else "high" in
  Ok (Intent type urgency "general" recent technical_level).

(** ** build_context_from_search *)

(** [set(v)] for an iterable of [str] *)
Definition to_set (v : pyval) : res (gset string) :=
  match v with
  | PList l => Ok (list_to_set l)
  | PStr s => Ok (list_to_set (chars s))
  | PNone => Raise (TypeError "'NoneType' object is not iterable")
  | PNum _ => Raise (TypeError "'int' object is not iterable")
  end.

(** [score + n] where [score] came out of a dict *)
Definition add_num (score : pyval) (n : Q) : res Q :=
  match score with
  | PNum q => Ok (q + n)%Q
  | _ => Raise (TypeError "unsupported operand type(s) for +=")
  end.

Definition relevance_score (user_groups : pyval) (result : pydict) : res Q :=
  let score := default (PNum 0) (result !! "score") in
  match default (PList []) (result !! "assigned_group") with
  | PList result_groups =>
      let! ug := to_set user_groups in
      let group_match := size (ug ∩ list_to_set result_groups) in
      add_num score (inject_Z (Z.of_nat group_match) * (1 # 10))%Q
  | _ => add_num score 0
  end.

(** [sorted(..., key=relevance_score, reverse=True)] on numeric keys *)
Fixpoint insert_by_score (kx : Q) (x : pydict) (l : list (Q * pydict))
  : list (Q * pydict) :=
  match l with
  | [] => [(kx, x)]
  | (ky, y) :: l' =>
      if float_lt kx ky then (ky, y) :: insert_by_score kx x l'
      else (kx, x) :: (ky, y) :: l'
  end.

Fixpoint sort_by_relevance (user_groups : pyval) (l : list pydict)
  : res (list (Q * pydict)) :=
  match l with
  | [] => Ok []
  | x :: l' =>
      let! kx := relevance_score user_groups x in
      let! r := sort_by_relevance user_groups l' in
      Ok (insert_by_score kx x r)
  end.

Section Answer.
Context {vec : Type}.
Variable E : env vec.
Variable svc : services.

(** [result.get(key, "")] formatted inside an f-string *)
Definition fmt (result : pydict) (key : string) : string :=
  py_str E (default (PStr "") (result !! key)).

Definition context_part (i : nat) (result : pydict) : string :=
  strip (nl +:+ text
    [ "[뉴스 " +:+ pretty i +:+ "]";
      "제목: " +:+ fmt result "title";
      "요약: " +:+ fmt result "summary";
      "날짜: " +:+ fmt result "date";
      "출처: " +:+ fmt result "source" ] +:+ nl).

Definition build_context_from_search (search_results : list pydict)
    (user_meta : pyobj) : res string :=
  match search_results with
  | [] => Ok "관련된 최신 뉴스 정보가 없습니다."
  | _ =>
      let! user_groups := meta_get user_meta "groups" (PList []) in
      let! sorted_results := sort_by_relevance user_groups search_results in
      let shown := take 5 (snd <$> sorted_results) in
      Ok (join (nl +:+ nl)
            ("=== 관련 최신 뉴스 정보 ===" :: imap (λ i r, context_part (i + 1) r) shown))
  end.

(** ** build_system_message, build_user_message *)

Definition build_system_message (user_meta : pyobj) (query_intent : intent)
  : res string :=
  let! role := meta_get user_meta "role" (PStr "담당자") in
  let! groups := meta_get user_meta "groups" (PList []) in
  let! joined := join_val ", " groups in
  let system_msg :=
    ENHANCED_SYSTEM_PROMPT
    +:+ nl +:+ nl +:+ "## 현재 사용자 정보:"
    +:+ nl +:+ "- 직책: " +:+ py_str E role
    +:+ nl +:+ "- 소속 그룹: " +:+ joined in
  let system_msg :=
    if String.eqb (intent_type query_intent) "forecast" then
      system_msg +:+ nl +:+ nl +:+ "## 특별 지침 (전망/예측):"
      +:+ nl +:+ "- 과거 데이터와 현재 트렌드를 기반으로 분석"
      +:+ nl +:+ "- 불확실성과 리스크 요소 명시"
      +:+ nl +:+ "- 여러 시나리오 고려"
    else if String.eqb (intent_type query_intent) "analysis" then
      system_msg +:+ nl +:+ nl +:+ "## 특별 지침 (분석):"
      +:+ nl +:+ "- 다각도 분석 (기술적, 경제적, 정치적 요인)"
      +:+ nl +:+ "- 단기/중기/장기 영향 구분"
      +:+ nl +:+ "- 정량적 데이터와 정성적 분석 병행"
    else if String.eqb (intent_type query_intent) "definition" then
      system_msg +:+ nl +:+ nl +:+ "## 특별 지침 (정의/설명):"
      +:+ nl +:+ "- 기본 개념부터 차근차근 설명"
      +:+ nl +:+ "- 실제 사례나 예시 포함"
      +:+ nl +:+ "- 관련 용어나 개념도 함께 설명"
    else system_msg in
  Ok (if String.eqb (technical_level query_intent) "low"
      then system_msg +:+ nl +:+ "- 전문 용어 최소화, 핵심만 간단히"
      else if String.eqb (technical_level query_intent) "high"
      then system_msg +:+ nl +:+ "- 상세한 설명과 기술적 세부사항 포함"
      else system_msg).

Definition build_user_message (query context : string) (query_intent : intent)
  : string :=
  let language := detect_language svc query in
  let lang_instruction :=
    if String.eqb language "ko" then "[한국어로 답변]" else "[Answer in English]" in
  let user_msg :=
    lang_instruction +:+ nl +:+ nl
    +:+ "질문: " +:+ query +:+ nl +:+ nl
    +:+ "참고 정보:" +:+ nl +:+ context +:+ nl +:+ nl in
  let user_msg :=
    if String.eqb (urgency query_intent) "high"
    then user_msg +:+ "⚠️ 이 질문은 시급한 사안입니다. 핵심 포인트를 우선적으로 답변해주세요."
         +:+ nl +:+ nl
    else user_msg in
  if requires_recent_data query_intent
  then user_msg +:+ "📅 최신 정보가 중요한 질문입니다. 제공된 뉴스의 날짜를 확인하고 최신성을 고려해주세요."
       +:+ nl +:+ nl
  else user_msg.

(** ** format_sources *)

Definition source_line (i : nat) (result : pydict) : string :=
  let head :=
    pretty i +:+ ". **" +:+ fmt result "title" +:+ "** ("
    +:+ fmt result "source" +:+ ", " +:+ fmt result "date" +:+ ")" in
  if truthy (default (PStr "") (result !! "source_url"))
  then head +:+ " → [링크](" +:+ fmt result "source_url" +:+ ")"
  else head.

Definition format_sources (search_results : list pydict) : string :=
  match search_results with
  | [] => ""
  | _ =>
      nl +:+ nl +:+ "**📰 참고 기사:**" +:+ nl
      +:+ join nl (imap (λ i r, source_line (i + 1) r) search_results)
  end.

(** ** build_answer *)

Definition day_us : Z := 86400 * 1000000.

(** [datetime.strptime(result.get("date", "2020-01-01"), "%Y-%m-%d")] *)
Definition result_date (result : pydict) : res Z :=
  match default (PStr "2020-01-01") (result !! "date") with
  | PStr d =>
      match strptime E d with
      | Some o => Ok o
      | None => Raise (Exn "ValueError" "time data does not match format")
      end
  | _ => Raise (TypeError "strptime() argument 1 must be str")
  end.

(** [max(... for result in search_results)] on a non-empty list *)
Fixpoint latest_date (search_results : list pydict) : res Z :=
  match search_results with
  | [] => Raise (Exn "ValueError" "max() arg is an empty sequence")
  | [r] => result_date r
  | r :: rest =>
      let! d := result_date r in
      let! m := latest_date rest in
      Ok (Z.max d m)
  end.

(** The [try: ... except: pass] around the freshness check. *)
Definition stale_warning (search_results : list pydict) : list string :=
  match latest_date search_results with
  | Ok latest =>
      if (7 * day_us <? now_us svc - latest * day_us)%Z
      then ["⚠️ *최신 정보가 1주일 이상 오래되었습니다.*"]
      else []
  | Raise _ => []
  end.

Definition quality_warnings (query_intent : intent) (search_results : list pydict)
  : list string :=
  (if (length search_results =? 0)%nat
   then ["⚠️ *관련 최신 뉴스가 없어 일반적인 지식을 바탕으로 답변했습니다.*"]
   else if (length search_results <? 3)%nat
   then ["⚠️ *제한적인 정보를 바탕으로 작성된 답변입니다.*"]
   else [])
  ++ (if requires_recent_data query_intent
         && match search_results with [] => false | _ => true end
      then stale_warning search_results
      else []).

Definition fallback_head : string :=
  text
  [ "죄송합니다. 답변 생성 중 기술적 문제가 발생했습니다.";
    "";
    "**문제 해결 방법:**";
    "1. 잠시 후 다시 시도해보세요";
    "2. 질문을 더 구체적으로 바꿔보세요";
    "3. 시스템 관리자에게 문의하세요";
    "";
    "**오류 정보:** " ].

(** The [except Exception as e] branch: [str(e)[:100]] after the fixed text. *)
Definition fallback_answer (e : exn) : string :=
  fallback_head +:+ slice_to 100 (exn_msg e).

(** The [try] block of [build_answer]. *)
Definition build_answer_body (s : store vec) (query : string) (user_meta : pyobj)
  : res string :=
  let! query_intent := analyze_query_intent query user_meta in
  let! groups := meta_get user_meta "groups" (PList []) in
  let search_filters : filters_t := {[ "assigned_group" := FVal groups ]} in
  let top_k := if requires_recent_data query_intent then 7%Z else 5%Z in
  let! search_results :=
    search_articles E s query search_filters top_k default_similarity_threshold in
  let! context := build_context_from_search search_results user_meta in
  let! system_message := build_system_message user_meta query_intent in
  let user_message := build_user_message query context query_intent in
  let! content := chat_completion svc system_message user_message in
  let! answer :=
    match content with
    | Some c => Ok (strip c)
    | None => Raise (Exn "AttributeError" "'NoneType' object has no attribute 'strip'")
    end in
  let sources := format_sources search_results in
  let warnings := quality_warnings query_intent search_results in
  let final_answer := answer +:+ sources in
  Ok (match warnings with
      | [] => final_answer
      | _ => final_answer +:+ nl +:+ nl +:+ join nl warnings
      end).

Definition build_answer (s : store vec) (query : string) (user_meta : pyobj)
  : res string :=
  try_except (build_answer_body s query user_meta)
             (λ e, Ok (fallback_answer e)).

End Answer.

(** ** Vocabulary of the properties *)

(** User metadata as the chat front end builds it: a dict whose "groups",
    when present, is a list of group names. *)
Definition groups_listed (user_meta : pyobj) : Prop :=
  ∃ m, user_meta = Dict m
       ∧ (m !! "groups" = None ∨ ∃ g, m !! "groups" = Some (PList g)).

End RagChain.

(* ===================================================================== *)
(** * enhanced_rag_chain.py *)
(* ===================================================================== *)

Module EnhancedRagChain.
Import RagChain.

Definition apology : string := "죄송합니다. 일시적으로 답변을 생성할 수 없습니다.".

(** Step 6 of [build_enhanced_answer], the only [try] block of that
    function: the answer text before sources and warnings are appended.
    The steps before and after it run outside any handler. *)
Definition gpt_answer (svc : services) (system_prompt user_prompt : string)
  : string :=
  match chat_completion svc system_prompt user_prompt with
  | Ok (Some content) => strip content
  | Ok None => apology
  | Raise _ => apology
  end.

End EnhancedRagChain.

(* ===================================================================== *)
(** * category_mapper.py: descriptions *)
(* ===================================================================== *)

Module GroupDescriptions.
Import CategoryMapper.

Definition unknown_group : string := "알 수 없는 그룹".

(** The [descriptions] dict of [get_group_description]. *)
Definition descriptions : list (string * string) :=
  [ (steel_export_group, "철강 수출 관련 (소형 벌크선: Handy, Handymax, Supramax)");
    (coal_import_group, "석탄/철광석 수입 관련 (대형 벌크선: Panamax, Capesize)");
    (container_group, "컨테이너 운송 관련");
    (general_group, "일반 해운/물류 관련") ].

(** [descriptions.get(group_name, "알 수 없는 그룹")] *)
Definition get_group_description (group_name : string) : string :=
  default unknown_group (lookup_key descriptions group_name).

End GroupDescriptions.

(* ===================================================================== *)
(** * vector_store.py: the candidate loop, candidate by candidate *)
(* ===================================================================== *)

Module CandidateLoop.
Import VectorStore.

Section Loop.
Context {vec : Type}.

(** What one candidate of the index contributes to the hits when the loop
    of [search_articles] reaches it: nothing when the id is -1 or at or
    beyond the end of the log, when the score is below the threshold, when
    the line is not a JSON object, or when the filters reject the record;
    otherwise the record with its score and id. *)
Definition candidate_hit (E : env vec) (filters : filters_t)
    (similarity_threshold : Q) (meta_lines : list line) (c : Z * Q)
  : option pydict :=
  let doc_id := fst c in
  let score := snd c in
  if (doc_id =? -1)%Z || score_below E score similarity_threshold then None
  else if (Z.of_nat (length meta_lines) <=? doc_id)%Z then None
  else match py_index meta_lines doc_id with
       | Some (Rec meta) =>
           if _apply_filters E meta filters
           then Some (annotate meta score doc_id)
           else None
       | _ => None
       end.

End Loop.
End CandidateLoop.

(* ===================================================================== *)
(** * rag_chain.py: vocabulary of the warnings *)
(* ===================================================================== *)

Module Warnings.

(** The staleness warning of [build_answer]. *)
Definition stale_text : string := "⚠️ *최신 정보가 1주일 이상 오래되었습니다.*".

End Warnings.

(* ===================================================================== *)
(** * analyzer.py *)
(* ===================================================================== *)

Module Analyzer.
Import CategoryMapper.

(** The values an article or a decoded JSON document holds. *)
#[warnings="-register-all"] Inductive jval :=
| JNone
| JBool (b : bool)
| JNum (q : Q)
| JStr (s : string)
| JList (l : list jval)
| JDict (m : list (string * jval)).

Abbreviation jdict := (gmap string jval).

(** What [json.loads] returns: a dict, or some other value. *)
Inductive parsed :=
| ParsedDict (m : jdict)
| ParsedOther.

(** The world around the module. *)
Record services := Services {
  (** [client.chat.completions.create(...)] for the given user prompt, at
      the given attempt, and the [content] of its first choice ([None]
      when the model returned no text) *)
  gpt_content : string → nat → res (option string);
  (** [json.loads(text)]; a failure is [JSONDecodeError] *)
  json_loads : string → res parsed;
  (** [str(v)] for a number, a list or a dict *)
  repr : jval → string
}.

Definition MAX_RETRIES : nat := 3.

Definition jtruthy (v : jval) : bool :=
  match v with
  | JNone => false
  | JBool b => b
  | JNum q => negb (Qeq_bool q 0)
  | JStr s => negb (String.eqb s "")
  | JList l => match l with [] => false | _ => true end
  | JDict m => match m with [] => false | _ => true end
  end.

(** [str(v)] *)
Definition to_str (svc : services) (v : jval) : string :=
  match v with
  | JStr s => s
  | JNone => "None"
  | JBool true => "True"
  | JBool false => "False"
  | _ => repr svc v
  end.

(** [len(v)] *)
Definition py_len (v : jval) : res nat :=
  match v with
  | JStr s => Ok (length (chars s))
  | JList l => Ok (length l)
  | JDict m => Ok (length m)
  | _ => Raise (TypeError "object has no len()")
  end.

(** [v[:n]] is defined: [v] is a [str] or a list. *)
Definition sliceable (v : jval) : bool :=
  match v with
  | JStr _ | JList _ => true
  | _ => false
  end.

Definition str_list (l : list string) : jval := JList (JStr <$> l).

(** ** validate_article_input *)

Definition field_ok (svc : services) (article : jdict) (field : string) : bool :=
  match article !! field with
  | Some v =>
      jtruthy v
      && negb (bool_decide (strip (to_str svc v) ∈ [""; "None"; "none"]))
  | None => false
  end.

Definition validate_article_input (svc : services) (article : jdict) : bool :=
  forallb (field_ok svc article) ["title"; "content"].

(** ** clean_gpt_response *)

(** [s.find(sub)] on the text from offset [pos] on, as a byte offset *)
Fixpoint find_at (sub s : string) (pos : nat) : option nat :=
  if String.prefix sub s then Some pos
  else match s with
       | EmptyString => None
       | String _ s' => find_at sub s' (S pos)
       end.

(** [s.find(sub, start)] *)
Definition find_from (sub s : string) (start : nat) : option nat :=
  find_at sub (drop_bytes start s) start.

(** [s.rfind(sub)] *)
Fixpoint rfind_at (sub s : string) (pos : nat) : option nat :=
  match s with
  | EmptyString => if String.prefix sub s then Some pos else None
  | String _ s' =>
      match rfind_at sub s' (S pos) with
      | Some i => Some i
      | None => if String.prefix sub s then Some pos else None
      end
  end.

(** [s[a:b]] for offsets within the text *)
Definition slice (a b : nat) (s : string) : string :=
  String.substring a (b - a) s.

Definition fence : string := "```json".

Definition clean_gpt_response (gpt_output : string) : string :=
  let gpt_output := strip gpt_output in
  let fenced :=
    match find_from fence gpt_output 0 with
    | Some i =>
        let json_start := (i + 7)%nat in
        match find_from "```" gpt_output json_start with
        | Some json_end => Some (strip (slice json_start json_end gpt_output))
        | None => None
        end
    | None => None
    end in
  match fenced with
  | Some r => r
  | None =>
      match find_from "{" gpt_output 0, rfind_at "}" gpt_output 0 with
      | Some json_start, Some last =>
          slice json_start (last + 1) gpt_output
      | _, _ => gpt_output
      end
  end.

(** ** parse_gpt_output *)

(** The dict both [parse_gpt_output] and [create_fallback_result] build:
    its four keys are fixed, the group is whatever value was found. *)
Record analysis := Analysis {
  summary : string;
  category : list string;
  assigned_group : jval;
  events : list string
}.

(** [[x for x in l if isinstance(x, str) and x.strip()
      and x.strip().lower() not in ['none', '']]] *)
Definition keep_names (l : list jval) : list string :=
  omap (λ v, match v with
             | JStr x =>
                 if negb (String.eqb (strip x) "")
                    && negb (bool_decide (lower (strip x) ∈ ["none"; ""]))
                 then Some x else None
             | _ => None
             end) l.

(** [result.get(key, []) if isinstance(result.get(key), list) else []] *)
Definition list_field (result : jdict) (key : string) : list jval :=
  match result !! key with
  | Some (JList l) => l
  | _ => []
  end.

Definition parse_gpt_output (svc : services) (gpt_output : string)
  : option analysis :=
  match json_loads svc (clean_gpt_response gpt_output) with
  | Raise _ => None
  | Ok ParsedOther => None
  | Ok (ParsedDict result) =>
      let cleaned_summary :=
        strip (to_str svc (default (JStr "") (result !! "summary"))) in
      if (length (chars cleaned_summary) <? 10)%nat
         || bool_decide (lower cleaned_summary ∈ ["none"; "n/a"; "not available"])
      then None
      else Some
        {| summary := cleaned_summary;
           category := keep_names (list_field result "category");
           assigned_group :=
             default (JStr "general_group") (result !! "assigned_group");
           events := keep_names (list_field result "events") |}
  end.

(** ** create_fallback_result *)

Definition keywords : list string :=
  [ "bulk"; "handy"; "handymax"; "supramax"; "panamax"; "capesize";
    "steel"; "iron ore"; "coal"; "container"; "freight"; "rates" ].

(** The keywords found in the lowered text. *)
Definition basic_categories (title content : string) : list string :=
  List.filter (λ keyword, contains keyword (lower (title +:+ " " +:+ content)))
              keywords.

(** The first 200 characters, stripped, cut to 197 and an ellipsis when
    more than 197 are left. *)
Definition fallback_summary (content : string) : string :=
  let first := strip (slice_to 200 content) in
  if (197 <? length (chars first))%nat
  then slice_to 197 first +:+ "..."
  else first.

Definition create_fallback_result (article : jdict) : res analysis :=
  match default (JStr "") (article !! "title"),
        default (JStr "") (article !! "content") with
  | JStr title, JStr content =>
      let basic := basic_categories title content in
      Ok {| summary := fallback_summary content;
            category := take 5 basic;
            assigned_group := str_list (map_categories_to_groups basic);
            events := [] |}
  | _, _ => Raise (TypeError "unsupported operand type(s) for +")
  end.

(** ** analyze_article_with_retry *)

Definition build_prompt (svc : services) (article : jdict) : string :=
  "Title: " +:+ to_str svc (default (JStr "") (article !! "title"))
  +:+ RagChain.nl +:+ RagChain.nl
  +:+ "Content: " +:+ to_str svc (default (JStr "") (article !! "content")).

(** One pass of the [try] block: [None] when an exception was logged or
    the response did not parse. *)
Definition attempt_once (svc : services) (article : jdict) (attempt : nat)
  : option analysis :=
  if negb (sliceable (default (JStr "") (article !! "title"))) then None
  else match gpt_content svc (build_prompt svc article) attempt with
       | Ok (Some content) => parse_gpt_output svc (strip content)
       | Ok None => None
       | Raise _ => None
       end.

(** [for attempt in range(MAX_RETRIES)], from [attempt] on *)
Fixpoint retry_from (svc : services) (article : jdict) (remaining attempt : nat)
  : option analysis :=
  match remaining with
  | O => None
  | S remaining' =>
      match attempt_once svc article attempt with
      | Some parsed_result => Some parsed_result
      | None => retry_from svc article remaining' (S attempt)
      end
  end.

Definition analyze_article_with_retry (svc : services) (article : jdict)
  : option analysis :=
  retry_from svc article MAX_RETRIES 0.

(** ** analyze_article *)

(** The fields copied from the article. *)
Definition article_fields (article : jdict) : list (string * jval) :=
  [ ("source_url", default (JStr "") (article !! "url"));
    ("source", default (JStr "") (article !! "source"));
    ("date", default (JStr "") (article !! "date"));
    ("keywords", default (JList []) (article !! "keywords")) ].

(** The [try] block. *)
Definition analyze_article_body (svc : services) (article : jdict) : res jdict :=
  if negb (validate_article_input svc article)
  then Raise (Exn "ValueError" "유효하지 않은 기사 데이터")
  else
    let title := default (JStr "") (article !! "title") in
    if negb (sliceable title)
    then Raise (TypeError "object is not subscriptable")
    else
      let! gpt_result :=
        match analyze_article_with_retry svc article with
        | Some r => Ok r
        | None => create_fallback_result article
        end in
      let assigned_groups :=
        if negb (jtruthy (assigned_group gpt_result))
        then str_list (map_categories_to_groups (category gpt_result))
        else match assigned_group gpt_result with
             | JStr name => JList [JStr name]
             | g => g
             end in
      Ok (list_to_map
        ([ ("title", title);
           ("category", str_list (category gpt_result));
           ("assigned_group", assigned_groups);
           ("events", str_list (events gpt_result));
           ("summary", JStr (summary gpt_result)) ]
         ++ article_fields article)).

(** The result built in the [except] branch. *)
Definition minimal_result (article : jdict) : res jdict :=
  let content := default (JStr "") (article !! "content") in
  let! n := py_len content in
  let! shown :=
    if (200 <? n)%nat
    then match content with
         | JStr c => Ok (JStr (slice_to 200 c +:+ "..."))
         | _ => Raise (TypeError "unsupported operand type(s) for +")
         end
    else Ok content in
  Ok (list_to_map
    ([ ("title", default (JStr "") (article !! "title"));
       ("category", JList []);
       ("assigned_group", str_list [general_group]);
       ("events", JList []);
       ("summary", shown) ]
     ++ article_fields article)).

Definition analyze_article (svc : services) (article : jdict) : res jdict :=
  match analyze_article_body svc article with
  | Ok result => Ok result
  | Raise _ => minimal_result article
  end.

(** ** batch_analyze_articles *)

(** The inner loop over one batch, whose first article is the [i]-th of
    the call: an article whose analysis raises is left out.  Every
    article is analysed in a world of its own, [svc_of k] for the [k]-th. *)
Definition analyze_batch (svc_of : nat → services) (i : nat) (batch : list jdict)
  : list jdict :=
  omap (λ ja, match analyze_article (svc_of (i + fst ja)) (snd ja) with
              | Ok result => Some result
              | Raise _ => None
              end)
       (imap (λ j article, (j, article)) batch).

(** [for i in range(0, total_articles, batch_size)]; [rest] is
    [articles[i:]]. *)
Fixpoint analyze_batches (svc_of : nat → services) (batch_size : nat)
    (fuel i : nat) (rest : list jdict) (results : list jdict) : list jdict :=
  match fuel, rest with
  | S fuel', _ :: _ =>
      analyze_batches svc_of batch_size fuel' (i + batch_size)
        (drop batch_size rest)
        (results ++ analyze_batch svc_of i (take batch_size rest))
  | _, _ => results
  end.

Definition batch_analyze_articles (svc_of : nat → services)
    (articles : list jdict) (batch_size : nat) : res (list jdict) :=
  if (batch_size =? 0)%nat
  then Raise (Exn "ValueError" "range() arg 3 must not be zero")
  else Ok (analyze_batches svc_of batch_size (length articles) 0 articles []).

(** ** analyze_article_quality *)

Record quality := Quality {
  quality_score : Z;
  issues : list string;
  grade : string
}.

(** [groups != ["general_group"]] *)
Definition only_general (groups : jval) : bool :=
  match groups with
  | JList [JStr name] => String.eqb name general_group
  | _ => false
  end.

(** One check: 25 points, or an issue. *)
Definition check (passed : bool) (issue : string) (q : Z * list string)
  : Z * list string :=
  if passed then (fst q + 25, snd q)%Z else (fst q, snd q ++ [issue]).

Definition analyze_article_quality (result : jdict) : res quality :=
  let! summary_len := py_len (default (JStr "") (result !! "summary")) in
  let q := check (50 <=? summary_len)%nat "요약이 너무 짧음" (0%Z, []) in
  let! category_len := py_len (default (JList []) (result !! "category")) in
  let q := check (1 <=? category_len)%nat "카테고리 없음" q in
  let! events_len := py_len (default (JList []) (result !! "events")) in
  let q := check (1 <=? events_len)%nat "이벤트 없음" q in
  let groups := default (JList []) (result !! "assigned_group") in
  let q := check (jtruthy groups && negb (only_general groups))
                 "일반 그룹으로만 분류됨" q in
  Ok (Quality (fst q) (snd q)
        (if (75 <=? fst q)%Z then "A" else if (50 <=? fst q)%Z then "B" else "C")).

(** ** Vocabulary of the properties *)

(** The nine keys of a result, whichever branch built it. *)
Definition result_of (title cats group evs summ : jval) (article : jdict)
  : jdict :=
  list_to_map
    ([ ("title", title); ("category", cats); ("assigned_group", group);
       ("events", evs); ("summary", summ) ] ++ article_fields article).

(** A name that [parse_gpt_output] keeps in a category or event list. *)
Definition kept_name (x : string) : Prop :=
  strip x ≠ "" ∧ lower (strip x) ≠ "none".

(** The number of characters of a text, counted on its bytes: every byte
    that does not continue a UTF-8 sequence starts a character, and
    continuation bytes at the very start make one more. *)
Fixpoint lead_bytes (s : string) : nat :=
  match s with
  | EmptyString => 0
  | String c s' => (if is_continuation c then 0 else 1) + lead_bytes s'
  end.

Definition starts_inside (s : string) : nat :=
  match s with
  | String c _ => if is_continuation c then 1 else 0
  | EmptyString => 0
  end.

Definition char_count (s : string) : nat := lead_bytes s + starts_inside s.

(** One article of a batch run: its result, or nothing when its analysis
    raised. *)
Definition analyzed (svc_of : nat → services) (k : nat) (article : jdict)
  : option jdict :=
  match analyze_article (svc_of k) article with
  | Ok r => Some r
  | Raise _ => None
  end.

End Analyzer.

(* ===================================================================== *)
(** * Concrete worlds and documents for the examples *)
(* ===================================================================== *)

Module Demo.
Import VectorStore RagChain.

(** A world in which every service answers and no file operation fails.
    A vector is a natural number here: the embedding of a text is its
    length, and the index returns its first [k] vectors, each with score
    1.  Scores are compared exactly, and a record with a line separator
    in it reads back as two lines that are not JSON. *)
Definition healthy : env nat :=
  {| embed_query := λ t, Ok (String.length t);
     l2_normalize := λ v, v;
     index_search := λ idx _ k, Ok ((λ p, (fst p, 1%Q)) <$> take (Z.to_nat k) idx);
     score_below := float_lt;
     split_pieces := λ _, [Garbage "{"; Garbage "}"];
     py_repr := λ _, "<repr>";
     strptime := λ _, None;
     today := "2025-08-01";
     read_index_fails := false;
     read_meta_fails := false;
     batch_faults := λ _, NoFault;
     save_index_fails := false;
     unlink_index_fails := false;
     rename_meta_fails := false;
     unlink_backup_fails := false |}.

(** The same world with the embedding service down. *)
Definition embedding_down : env nat :=
  {| embed_query := λ _, Raise (Exn "APIConnectionError" "Connection error.");
     l2_normalize := l2_normalize healthy;
     index_search := index_search healthy;
     score_below := score_below healthy;
     split_pieces := split_pieces healthy;
     py_repr := py_repr healthy;
     strptime := strptime healthy;
     today := today healthy;
     read_index_fails := false;
     read_meta_fails := false;
     batch_faults := λ _, NoFault;
     save_index_fails := false;
     unlink_index_fails := false;
     rename_meta_fails := false;
     unlink_backup_fails := false |}.

(** The healthy world with an index that answers a fixed candidate list. *)
Definition answering (candidates : list (Z * Q)) : env nat :=
  {| embed_query := embed_query healthy;
     l2_normalize := l2_normalize healthy;
     index_search := λ _ _ _, Ok candidates;
     score_below := score_below healthy;
     split_pieces := split_pieces healthy;
     py_repr := py_repr healthy;
     strptime := strptime healthy;
     today := today healthy;
     read_index_fails := false;
     read_meta_fails := false;
     batch_faults := λ _, NoFault;
     save_index_fails := false;
     unlink_index_fails := false;
     rename_meta_fails := false;
     unlink_backup_fails := false |}.

Definition empty_store : store nat := Store None None None.

(** [{"title": t, "summary": s}] *)
Definition article (t s : string) : pydict :=
  <["title" := PStr t]> (<["summary" := PStr s]> ∅).

(** An article with a date, as a metadata record. *)
Definition dated (t s d : string) : pydict :=
  <["date" := PStr d]> (article t s).

(** A validated document whose embedding text is blank. *)
Definition blank_doc : pydict := article " " " ".

Definition rates_doc : pydict := article "Supramax rates surge" "Rates rose due to demand.".

(** A summary that is a placeholder in the words of the specification. *)
Definition na_doc : pydict := article "Capesize market" "n/a".

(** Ten documents, the fourth with an empty title. *)
Definition ten_docs : list pydict :=
  (λ i : nat, article (if (i =? 3)%nat then "" else "Title " +:+ pretty i)
                      ("Summary of article " +:+ pretty i)) <$> seq 0 10.

(** A store holding one vector and its metadata line. *)
Definition one_doc_store : store nat :=
  fst (add_documents healthy empty_store [Dict rates_doc] 50).

(** Two hits as the specification's ranking example has them. *)
Definition january : pydict := dated "Older" "More similar." "2024-01-01".
Definition february : pydict := dated "Newer" "Less similar." "2024-02-01".

Definition two_doc_store : store nat :=
  Store (Some [(0%Z, 1%nat); (1%Z, 2%nat)])
        (Some [plain (Rec january); plain (Rec february)]) None.

(** Three metadata records: one tagged steel, one tagged coal, and one
    whose category is a string instead of a list. *)
Definition steel_meta : pydict :=
  <["category" := PList ["steel"; "bdi"]]> (dated "Steel exports" "Up." "2025-07-01").
Definition coal_meta : pydict :=
  <["category" := PList ["coal"]]> (dated "Coal imports" "Down." "2025-07-02").
Definition odd_meta : pydict :=
  <["category" := PStr "steel"]> (dated "Odd record" "Category is a str." "2025-07-03").

Definition category_store : store nat :=
  Store (Some [(0%Z, 1%nat); (1%Z, 2%nat); (2%Z, 3%nat)])
        (Some [plain (Rec steel_meta); plain (Rec coal_meta); plain (Rec odd_meta)])
        None.

Definition steel_filter : filters_t := {[ "category" := FVal (PList ["steel"]) ]}.

(** A user of the chat. *)
Definition analyst : pyobj :=
  Dict (<["role" := PStr "담당자"]> (<["groups" := PList ["steel_export_group"]]> ∅)).

(** An LLM that is down, with a long error message. *)
Definition llm_down : services :=
  {| chat_completion := λ _ _, Raise (Exn "APITimeoutError" "Request timed out.");
     langdetect_detect := λ _, Ok "en";
     isalpha := λ _, true;
     now_us := 0 |}.

End Demo.

(* ===================================================================== *)
(** * Further worlds and records for the examples *)
(* ===================================================================== *)

Module DemoWorlds.
Import VectorStore Demo.

(** The healthy world, except that the metadata file cannot be written. *)
Definition meta_write_failing : env nat :=
  {| embed_query := embed_query healthy;
     l2_normalize := l2_normalize healthy;
     index_search := index_search healthy;
     score_below := score_below healthy;
     split_pieces := split_pieces healthy;
     py_repr := py_repr healthy;
     strptime := strptime healthy;
     today := today healthy;
     read_index_fails := false;
     read_meta_fails := false;
     batch_faults := λ _, WriteFails;
     save_index_fails := false;
     unlink_index_fails := false;
     rename_meta_fails := false;
     unlink_backup_fails := false |}.

(** A world in which every file operation fails. *)
Definition all_failing : env nat :=
  {| embed_query := embed_query healthy;
     l2_normalize := l2_normalize healthy;
     index_search := index_search healthy;
     score_below := score_below healthy;
     split_pieces := split_pieces healthy;
     py_repr := py_repr healthy;
     strptime := strptime healthy;
     today := today healthy;
     read_index_fails := true;
     read_meta_fails := true;
     batch_faults := λ _, AddFails;
     save_index_fails := true;
     unlink_index_fails := true;
     rename_meta_fails := true;
     unlink_backup_fails := true |}.

(** The world of [answering], with a date parser that knows the first
    days of July 2025, counted from the first of January. *)
Definition calendar (candidates : list (Z * Q)) : env nat :=
  {| embed_query := embed_query healthy;
     l2_normalize := l2_normalize healthy;
     index_search := λ _ _ _, Ok candidates;
     score_below := score_below healthy;
     split_pieces := split_pieces healthy;
     py_repr := py_repr healthy;
     strptime := λ d, if String.eqb d "2025-07-01" then Some 182%Z
                      else if String.eqb d "2025-07-02" then Some 183%Z
                      else if String.eqb d "2025-07-03" then Some 184%Z
                      else None;
     today := today healthy;
     read_index_fails := false;
     read_meta_fails := false;
     batch_faults := λ _, NoFault;
     save_index_fails := false;
     unlink_index_fails := false;
     rename_meta_fails := false;
     unlink_backup_fails := false |}.

(** The records of [category_store], the first two assigned to a group. *)
Definition steel_group_meta : pydict :=
  <["assigned_group" := PList ["steel_export_group"]]> steel_meta.
Definition coal_group_meta : pydict :=
  <["assigned_group" := PList ["coal_import_group"]]> coal_meta.

Definition grouped_store : store nat :=
  Store (Some [(0%Z, 1%nat); (1%Z, 2%nat); (2%Z, 3%nat)])
        (Some [plain (Rec steel_group_meta); plain (Rec coal_group_meta);
               plain (Rec odd_meta)]) None.

Definition three_candidates : list (Z * Q) :=
  [(0%Z, 9 # 10); (1%Z, 8 # 10); (2%Z, 7 # 10)].

Definition coal_group_filter : filters_t :=
  {[ "assigned_group" := FVal (PList ["coal_import_group"]) ]}.

(** From the second to the third of July 2025. *)
Definition july_filter : filters_t := {[ "date_range" := FDateRange 183 184 ]}.

(** Filters that are set but falsy. *)
Definition idle_filter : filters_t :=
  <["category" := FVal (PList [])]> {[ "assigned_group" := FVal PNone ]}.

(** An LLM that answers every prompt with the same text. *)
Definition llm_up : RagChain.services :=
  {| RagChain.chat_completion := λ _ _, Ok (Some " BDI is the Baltic Dry Index. ");
     RagChain.langdetect_detect := λ _, Ok "en";
     RagChain.isalpha := λ _, true;
     RagChain.now_us := 0 |}.

(** The same LLM on the 200th day of 2025. *)
Definition late_clock : RagChain.services :=
  {| RagChain.chat_completion := RagChain.chat_completion llm_up;
     RagChain.langdetect_detect := RagChain.langdetect_detect llm_up;
     RagChain.isalpha := RagChain.isalpha llm_up;
     RagChain.now_us := 200 * RagChain.day_us |}.

(** A document with U+2028 in its title. *)
Definition separator_doc : pydict :=
  article ("Rates" +:+ bytes [226; 128; 168] +:+ "surge") "Rates rose due to demand.".

End DemoWorlds.

(* ===================================================================== *)
(** * Articles and LLM worlds for the examples of the analyzer *)
(* ===================================================================== *)

Module DemoArticles.
Import Analyzer.

(** A world in which the LLM times out and nothing decodes as JSON. *)
Definition gpt_down : services :=
  {| gpt_content := λ _ _, Raise (Exn "APITimeoutError" "Request timed out.");
     json_loads := λ _, Raise (Exn "JSONDecodeError" "Expecting value");
     repr := λ _, "<repr>" |}.

(** What the decoder of [gpt_flaky] makes of the text [{analysis}]: a
    category list with a blank, a [None] and the word None in it. *)
Definition decoded : jdict :=
  list_to_map
    [ ("summary", JStr "  Rates rose on strong steel demand.  ");
      ("category", JList [JStr "rates"; JStr " "; JNone; JStr "None"; JStr "steel"]);
      ("assigned_group", JStr "steel_export_group");
      ("events", JStr "rate increase") ].

(** A world in which the first call of the LLM fails and every later one
    answers with a fenced block. *)
Definition gpt_flaky : services :=
  {| gpt_content := λ _ attempt,
       if (attempt =? 0)%nat
       then Raise (Exn "RateLimitError" "429")
       else Ok (Some "Here it is: ```json {analysis} ``` Done.");
     json_loads := λ text,
       if String.eqb text "{analysis}" then Ok (ParsedDict decoded)
       else Raise (Exn "JSONDecodeError" "Expecting value");
     repr := λ _, "<repr>" |}.

(** An article that names six of the keywords. *)
Definition news : jdict :=
  list_to_map
    [ ("title", JStr "Bulk and container markets");
      ("content", JStr "Handy, Handymax, Supramax and Panamax owners and container lines met.");
      ("url", JStr "https://example.com/a");
      ("source", JStr "Test News") ].

(** An article whose content is [None]. *)
Definition no_content : jdict :=
  list_to_map [ ("title", JStr "Bulk and container markets"); ("content", JNone) ].

End DemoArticles.

(* ===================================================================== *)
(** * Properties of the string built-ins *)
(* ===================================================================== *)

Section StripProps.

Lemma prefix_length (w s : string) :
  String.prefix w s = true → (String.length w ≤ String.length s)%nat.
Proof.
  revert s. induction w as [|c w IH]; intros s; simpl; [lia|].
  destruct s as [|d s]; [done|]. simpl.
  destruct (Ascii.ascii_dec c d); [|done]. intros H%IH. lia.
Qed.

Lemma drop_bytes_length (n : nat) (s : string) :
  String.length (drop_bytes n s) = (String.length s - n)%nat.
Proof.
  revert s. induction n as [|n IH]; intros s; simpl; [lia|].
  destruct s as [|c s]; simpl; [done|apply IH].
Qed.

Lemma leading_Some (ws : list string) (s w : string) :
  leading ws s = Some w → w ∈ ws ∧ String.prefix w s = true.
Proof.
  unfold leading. intros H. apply List.find_some in H as [Hin Hp].
  split; [by apply list_elem_of_In|done].
Qed.

(** Stripping runs until no whitespace is left in front: the fuel, the
    length of the string, is enough because every whitespace encoding has
    at least one byte. *)
Lemma lstrip_with_done (ws : list string) :
  Forall (λ w, w ≠ "") ws →
  ∀ (fuel : nat) (s : string),
    (String.length s ≤ fuel)%nat →
    leading ws (lstrip_with ws fuel s) = None.
Proof.
  intros Hws. induction fuel as [|fuel IH]; intros s Hlen; simpl.
  - destruct s; [|simpl in Hlen; lia].
    destruct (leading ws "") as [w|] eqn:Hl; [|done].
    apply leading_Some in Hl as [Hin Hp]. rewrite Forall_forall in Hws.
    destruct w; [by destruct (Hws _ Hin)|done].
  - destruct (leading ws s) as [w|] eqn:Hl; [|done].
    apply IH. apply leading_Some in Hl as [Hin Hp].
    rewrite Forall_forall in Hws. specialize (Hws _ Hin).
    apply prefix_length in Hp. rewrite drop_bytes_length.
    destruct w; [done|]. simpl in *. lia.
Qed.

Lemma whitespace_nonempty : Forall (λ w, w ≠ "") whitespace.
Proof. vm_compute. repeat (constructor; [discriminate|]). constructor. Qed.

Lemma lstrip_done (s : string) : leading whitespace (lstrip s) = None.
Proof. apply lstrip_with_done; [apply whitespace_nonempty|done]. Qed.

End StripProps.

(* ===================================================================== *)
(** * Properties of the category mapper *)
(* ===================================================================== *)

Section CategoryMapperProps.
Import CategoryMapper.

Lemma find_some_in {A} (f : A → bool) (l : list A) (x : A) :
  List.find f l = Some x → x ∈ l.
Proof.
  intros H. apply List.find_some in H. apply list_elem_of_In. tauto.
Qed.

Lemma lookup_key_in table key g :
  lookup_key table key = Some g → g ∈ table.*2.
Proof.
  unfold lookup_key. destruct (List.find _ table) as [kv|] eqn:Hf; [|done].
  intros [= <-]. apply list_elem_of_fmap. exists kv. split; [done|].
  by eapply find_some_in.
Qed.

Lemma partial_match_in table key g :
  partial_match table key = Some g → g ∈ table.*2.
Proof.
  unfold partial_match. destruct (List.find _ table) as [kv|] eqn:Hf; [|done].
  intros [= <-]. apply list_elem_of_fmap. exists kv. split; [done|].
  by eapply find_some_in.
Qed.

Lemma group_of_in table cat g :
  group_of table cat = Some g → g ∈ table.*2.
Proof.
  unfold group_of. destruct (String.eqb cat ""); [done|].
  destruct (lookup_key table _) eqn:Hl.
  - intros [= <-]. by eapply lookup_key_in.
  - apply partial_match_in.
Qed.

(** Every value of the table is one of the four groups. *)
Lemma table_values_known g :
  g ∈ CATEGORY_TO_GROUP.*2 → g ∈ get_all_groups.
Proof.
  revert g. apply Forall_forall. vm_compute.
  repeat (constructor; [set_solver|]). constructor.
Qed.

Lemma add_group_known groups cat :
  (∀ g, g ∈ groups → g ∈ get_all_groups) →
  ∀ g, g ∈ add_group groups cat → g ∈ get_all_groups.
Proof.
  intros Hg g. unfold add_group.
  destruct (group_of CATEGORY_TO_GROUP cat) as [g'|] eqn:Hc; [|by auto].
  rewrite elem_of_union, elem_of_singleton. intros [?| ->]; [by auto|].
  apply table_values_known. by eapply group_of_in.
Qed.

Lemma foldl_add_group_known cats groups :
  (∀ g, g ∈ groups → g ∈ get_all_groups) →
  ∀ g, g ∈ foldl add_group groups cats → g ∈ get_all_groups.
Proof.
  revert groups. induction cats as [|cat cats IH]; intros groups Hg; [done|].
  simpl. apply IH. by apply add_group_known.
Qed.

(** C10: whatever the input list, [map_categories_to_groups] returns a
    non-empty list without duplicates whose elements all are among
    steel_export_group, coal_import_group, container_group and
    general_group. *)
Theorem map_categories_to_groups_codomain (categories : list string) :
  map_categories_to_groups categories ≠ []
  ∧ NoDup (map_categories_to_groups categories)
  ∧ ∀ g, g ∈ map_categories_to_groups categories →
      g ∈ [steel_export_group; coal_import_group; container_group; general_group].
Proof.
  unfold map_categories_to_groups.
  destruct categories as [|cat cats].
  { split; [done|]. split; [apply NoDup_singleton|].
    intros g ->%list_elem_of_singleton. apply list_elem_of_In. simpl. tauto. }
  set (groups := foldl add_group ∅ (cat :: cats)).
  destruct (decide (groups = ∅)) as [He|Hne].
  { split; [done|]. split; [apply NoDup_singleton|].
    intros g ->%list_elem_of_singleton. apply list_elem_of_In. simpl. tauto. }
  split; [|split].
  - intros Hnil. apply Hne. by apply elements_empty_inv in Hnil as ->%leibniz_equiv.
  - apply NoDup_elements.
  - intros g Hg. apply elem_of_elements in Hg.
    apply (foldl_add_group_known (cat :: cats) ∅); [set_solver|done].
Qed.

Lemma exact_match_wins cat g :
  cat ≠ "" →
  lookup_key CATEGORY_TO_GROUP (strip (lower cat)) = Some g →
  group_of CATEGORY_TO_GROUP cat = Some g
  ∧ map_categories_to_groups [cat] = [g].
Proof.
  intros Hne Hl.
  assert (Hg : group_of CATEGORY_TO_GROUP cat = Some g).
  { unfold group_of. apply String.eqb_neq in Hne. by rewrite Hne, Hl. }
  split; [done|].
  unfold map_categories_to_groups. simpl. unfold add_group. rewrite Hg.
  rewrite (left_id_L ∅ (∪)).
  destruct (decide _) as [He|_].
  - exfalso. set_solver.
  - apply elements_singleton.
Qed.

(** C4: the four examples of the specification, and the priority of an
    exact key over a substring match: a category whose normalised form is a
    key of the table is mapped to that key's group alone; "shipping" is
    mapped to general_group although the first substring match,
    "shipping schedule", belongs to container_group. *)
Theorem group_mapping_determinism :
  map_categories_to_groups ["supramax"] = [steel_export_group]
  ∧ map_categories_to_groups ["panamax"; "coal"] = [coal_import_group]
  ∧ map_categories_to_groups [] = [general_group]
  ∧ map_categories_to_groups ["unknown_term_xyz"] = [general_group]
  ∧ (∀ cat g, cat ≠ "" →
       lookup_key CATEGORY_TO_GROUP (strip (lower cat)) = Some g →
       group_of CATEGORY_TO_GROUP cat = Some g
       ∧ map_categories_to_groups [cat] = [g])
  ∧ partial_match CATEGORY_TO_GROUP "shipping" = Some container_group
  ∧ map_categories_to_groups ["shipping"] = [general_group].
Proof.
  split; [by vm_compute|]. split; [by vm_compute|]. split; [done|].
  split; [by vm_compute|]. split; [apply exact_match_wins|].
  split; by vm_compute.
Qed.

Lemma group_mapping_determinism_witness :
  map_categories_to_groups ["SCFI "] = [container_group].
Proof.
  apply (proj1 (proj2 (proj2 (proj2 (proj2 group_mapping_determinism))))
           "SCFI " container_group); [discriminate | vm_compute; reflexivity].
Defined.

End CategoryMapperProps.

(* ===================================================================== *)
(** * Properties of the vector store: ingestion *)
(* ===================================================================== *)

Section IngestionProps.
Import VectorStore.
Context {vec : Type}.
Implicit Types (E : env vec) (s : store vec) (doc : pydict).

(** [process_doc] uses the id only to label the vector. *)
Lemma process_doc_id E id doc :
  process_doc E id doc
  = (λ x, (Z.of_nat id, snd (fst x), snd x)) <$> process_doc E 0 doc.
Proof.
  unfold process_doc. destruct (text_for_embed doc); [|done].
  destruct (String.eqb _ _); [done|]. by destruct (embed_query E a).
Qed.

Lemma process_batch_nil E n : process_batch E n [] = [].
Proof. done. Qed.

Lemma process_batch_shift E (l : list pydict) : ∀ n k,
  omap (λ jd, process_doc E (n + fst jd) (snd jd)) (imap (λ j doc, (k + j, doc)) l)
  = process_batch E (n + k) l.
Proof.
  induction l as [|d l IH]; intros n k; [done|].
  unfold process_batch. rewrite !imap_cons.
  rewrite (imap_ext _ (λ j doc, (S k + j, doc)) l)
    by (intros; simpl; f_equal; lia).
  rewrite (imap_ext ((λ j doc, (j, doc)) ∘ S) (λ j doc, (1 + j, doc)) l)
    by (intros; simpl; f_equal; lia).
  cbn [omap list_omap fst snd].
  rewrite (IH n (S k)), (IH (n + k) 1).
  replace (n + (k + 0)) with (n + k) by lia.
  replace (n + k + 0) with (n + k) by lia.
  replace (n + S k) with (n + k + 1) by lia.
  done.
Qed.

Lemma process_batch_cons E n d (l : list pydict) :
  process_batch E n (d :: l)
  = option_list (process_doc E n d) ++ process_batch E (S n) l.
Proof.
  unfold process_batch at 1. rewrite imap_cons.
  rewrite (imap_ext ((λ j doc, (j, doc)) ∘ S) (λ j doc, (1 + j, doc)) l)
    by (intros; simpl; f_equal; lia).
  cbn [omap list_omap fst snd]. rewrite process_batch_shift.
  replace (n + 0) with n by lia. replace (n + 1) with (S n) by lia.
  by destruct (process_doc E n d).
Qed.

Lemma process_batch_app E (l1 l2 : list pydict) : ∀ n,
  process_batch E n (l1 ++ l2)
  = process_batch E n l1 ++ process_batch E (n + length l1) l2.
Proof.
  induction l1 as [|d l1 IH]; intros n; simpl.
  - by rewrite Nat.add_0_r.
  - rewrite !process_batch_cons, IH, <- app_assoc.
    by replace (S n + length l1) with (n + S (length l1)) by lia.
Qed.

(** Ids are assigned by position: an entry of the batch comes from the
    document at some position [j] and carries the id [first_id + j],
    whether or not documents before it were skipped. *)
Lemma process_batch_ids E (l : list pydict) : ∀ n x,
  x ∈ process_batch E n l →
  ∃ j doc, l !! j = Some doc
           ∧ process_doc E (n + j) doc = Some x
           ∧ fst (fst x) = Z.of_nat (n + j).
Proof.
  induction l as [|d l IH]; intros n x Hx.
  { by apply elem_of_nil in Hx. }
  rewrite process_batch_cons in Hx. apply elem_of_app in Hx as [Hx|Hx].
  - destruct (process_doc E n d) as [y|] eqn:Hd; simpl in Hx;
      [|by apply elem_of_nil in Hx].
    apply list_elem_of_singleton in Hx as ->.
    exists 0%nat, d. rewrite Nat.add_0_r. split; [done|]. split; [done|].
    rewrite process_doc_id in Hd.
    destruct (process_doc E 0 d); [|done]. by injection Hd as <-.
  - destruct (IH (S n) x Hx) as (j & doc & Hj & Hp & Hid).
    exists (S j), doc. replace (n + S j)%nat with (S n + j)%nat by lia. done.
Qed.

(** When nothing is skipped, the batch is the documents themselves, with
    consecutive ids. *)
Lemma process_batch_embeddable E (l : list pydict) : ∀ n,
  Forall (embeddable E) l →
  snd <$> process_batch E n l = (λ doc, Rec (clean_meta E doc)) <$> l
  ∧ fst <$> (fst <$> process_batch E n l) = Z.of_nat <$> seq n (length l).
Proof.
  induction l as [|d l IH]; intros n Hall; [done|].
  apply Forall_cons in Hall as [[x Hd] Hall].
  rewrite process_batch_cons, process_doc_id, Hd.
  cbn [fmap option_fmap option_map].
  change (option_list (Some ?a) ++ ?r) with (a :: r).
  rewrite !fmap_cons. cbn [fst snd seq length].
  destruct (IH (S n) Hall) as [-> ->]. split; [|done].
  f_equal. revert Hd. unfold process_doc.
  destruct (text_for_embed d); [|done].
  destruct (String.eqb _ _); [done|].
  destruct (embed_query E a); [|done]. by intros [= <-].
Qed.

Lemma appended_app E p (a b : list (Z * vec * line)) :
  appended E (appended E p a) b = appended E p (a ++ b).
Proof.
  destruct a as [|x a]; [done|]. destruct b as [|y b].
  - by rewrite app_nil_r.
  - simpl. by rewrite !fmap_app, <- !app_assoc.
Qed.

(** The fuel of the batch loop is never what stops it: with a positive
    batch size, any amount from the number of remaining documents on gives
    the same run. *)
Lemma add_batches_fuel E id_base batch_size :
  batch_size ≠ 0%nat →
  ∀ (fuel i : nat) (rest : list pydict) p,
    (length rest ≤ fuel)%nat →
    add_batches E id_base batch_size fuel i rest p
    = add_batches E id_base batch_size (length rest) i rest p.
Proof.
  intros Hbs fuel. induction fuel as [fuel IH] using lt_wf_ind.
  intros i rest p Hlen. destruct rest as [|d rest].
  { by destruct fuel. }
  destruct fuel as [|fuel]; [simpl in Hlen; lia|].
  cbn [add_batches length].
  assert (Hdrop : (length (drop batch_size (d :: rest)) ≤ length rest)%nat).
  { rewrite length_drop. simpl. lia. }
  rewrite (IH fuel) by (simpl in Hlen; lia).
  by rewrite (IH (length rest)) by (simpl in Hlen; lia).
Qed.

Lemma add_batch_no_fault E id_base i batch_docs p :
  batch_faults E i = NoFault →
  add_batch E id_base i batch_docs p
  = appended E p (process_batch E (id_base + i) batch_docs).
Proof.
  intros Hf. unfold add_batch, appended. rewrite Hf.
  by destruct (process_batch _ _ _).
Qed.

Lemma add_batches_no_fault E id_base batch_size :
  batch_size ≠ 0%nat →
  (∀ i, batch_faults E i = NoFault) →
  ∀ (fuel i : nat) (rest : list pydict) p,
    (length rest ≤ fuel)%nat →
    add_batches E id_base batch_size fuel i rest p
    = appended E p (process_batch E (id_base + i) rest).
Proof.
  intros Hbs Hf. induction fuel as [|fuel IH]; intros i rest p Hlen.
  - destruct rest; [done|simpl in Hlen; lia].
  - destruct rest as [|d rest]; [done|].
    cbn [add_batches]. rewrite IH.
    2:{ rewrite length_drop. simpl in *. lia. }
    rewrite add_batch_no_fault by done. rewrite appended_app. f_equal.
    rewrite <- (take_drop batch_size (d :: rest)) at 3.
    rewrite process_batch_app.
    destruct (decide (batch_size ≤ length (d :: rest))%nat) as [Hle|Hgt].
    + rewrite length_take, Nat.min_l by done. f_equal. f_equal. lia.
    + rewrite (drop_ge (d :: rest)) by lia. done.
Qed.

Lemma valid_documents_dicts (docs : list pydict) :
  valid_documents (Dict <$> docs) = Ok (List.filter validate_dict docs).
Proof.
  induction docs as [|d docs IH]; [done|].
  cbn [fmap list_fmap valid_documents validate_document bind List.filter].
  change (list_fmap _ _ Dict docs) with (Dict <$> docs). rewrite IH.
  by destruct (validate_dict d).
Qed.

(** [add_documents] in closed form when the storage works. *)
Lemma add_documents_no_fault E s (docs : list pydict) batch_size :
  batch_size ≠ 0%nat → storage_works E →
  add_documents E s (Dict <$> docs) batch_size
  = match List.filter validate_dict docs with
    | [] => (s, Ok tt)
    | valid =>
        let p := appended E (default [] (index_file s), meta_file s)
                   (process_batch E (length (meta_lines_of s)) valid) in
        (Store (Some (fst p)) (snd p) (backup_file s), Ok tt)
    end.
Proof.
  intros Hbs (Hri & Hrm & Hsv & Hbf). unfold add_documents.
  destruct docs as [|d docs]; [done|].
  rewrite valid_documents_dicts. cbn [fmap list_fmap].
  destruct (List.filter validate_dict (d :: docs)) as [|v valid] eqn:Hv; [done|].
  unfold load_index, read_meta, save_index, meta_lines_of.
  rewrite Hri, Hrm, Hsv.
  apply Nat.eqb_neq in Hbs. 
  assert (Hex : match meta_file s with
                | Some _ => Ok (splitlines (default [] (meta_file s)))
                | None => Ok []
                end = Ok (splitlines (default [] (meta_file s))))
    by by destruct (meta_file s).
  rewrite Hex, Hbs. apply Nat.eqb_neq in Hbs.
  rewrite add_batches_no_fault by done.
  rewrite Nat.add_0_r.
  by destruct (index_file s).
Qed.

Lemma field_rejected_spec doc field :
  field_rejected doc field = true ↔ refused_field doc field.
Proof.
  unfold field_rejected, refused_field, get_truthy.
  destruct (doc !! field) as [v|]; [|done].
  destruct v as [|q|x|l]; simpl;
    rewrite ?orb_false_r, ?orb_true_iff, ?negb_true_iff, ?negb_false_iff,
      ?String.eqb_eq.
  - intuition.
  - intuition congruence.
  - intuition congruence.
  - destruct l; intuition congruence.
Qed.

(** Which documents validation drops. *)
Lemma validate_dict_spec doc :
  validate_dict doc = false
  ↔ refused_field doc "title" ∨ refused_field doc "summary".
Proof.
  unfold validate_dict. simpl. rewrite andb_true_r, andb_false_iff.
  rewrite !negb_false_iff, !field_rejected_spec. done.
Qed.

Lemma splitlines_app (a b : list entry) :
  splitlines (a ++ b) = splitlines a ++ splitlines b.
Proof. apply bind_app. Qed.

(** Lines without separators come back from the file as they were
    written. *)
Lemma splitlines_written E (lines : list line) :
  Forall (λ l, ∃ m, l = Rec m ∧ record_one_line m = true) lines →
  splitlines (written E <$> lines) = lines.
Proof.
  induction 1 as [|l lines (m & -> & Hm) _ IH]; [done|].
  rewrite fmap_cons. unfold splitlines in *. cbn [mbind list_bind written pieces].
  rewrite Hm. cbn [app]. f_equal. exact IH.
Qed.

(** Every line of a batch is the cleaned record of one of its documents. *)
Lemma process_batch_records E (l : list pydict) n x :
  x ∈ process_batch E n l → ∃ doc, doc ∈ l ∧ snd x = Rec (clean_meta E doc).
Proof.
  intros (j & doc & Hj & Hp & _)%process_batch_ids.
  exists doc. split; [by eapply list_elem_of_lookup_2|].
  revert Hp. unfold process_doc.
  destruct (text_for_embed doc); [|done].
  destruct (String.eqb _ _); [done|].
  destruct (embed_query E a); [|done]. by intros [= <-].
Qed.

Lemma process_batch_one_line E (l : list pydict) n :
  Forall (on_one_line E) l →
  splitlines (written E <$> (snd <$> process_batch E n l))
  = snd <$> process_batch E n l.
Proof.
  intros Hone. apply splitlines_written. apply Forall_fmap, Forall_forall.
  intros x (doc & Hdoc & Hx)%process_batch_records. simpl.
  exists (clean_meta E doc). split; [done|].
  rewrite Forall_forall in Hone. by apply Hone.
Qed.

(** The log after a call without faults, as [splitlines] reads it. *)
Lemma appended_lines E p (batch : list (Z * vec * line)) :
  splitlines (default [] (snd (appended E p batch)))
  = splitlines (default [] (snd p)) ++ splitlines (written E <$> (snd <$> batch)).
Proof.
  destruct batch as [|x b]; [by rewrite app_nil_r|].
  unfold appended. cbn [snd]. change (default [] (Some ?x)) with x.
  apply splitlines_app.
Qed.

(** Without faults, and with every record on one line, the two stores
    grow by the same number of entries. *)
Lemma add_documents_counts E s (docs : list pydict) batch_size :
  batch_size ≠ 0%nat → storage_works E →
  Forall (on_one_line E) (List.filter validate_dict docs) →
  length (stored_ids s) = length (meta_lines_of s) →
  let s' := fst (add_documents E s (Dict <$> docs) batch_size) in
  length (stored_ids s') = length (meta_lines_of s').
Proof.
  intros Hbs Hw Hone Hlen. rewrite add_documents_no_fault by done.
  destruct (List.filter validate_dict docs) as [|v valid]; [done|].
  cbv zeta. unfold stored_ids, meta_lines_of in *. cbn [fst index_file meta_file].
  rewrite appended_lines, process_batch_one_line by done.
  change (default [] (Some ?x)) with x. cbn [snd].
  destruct (process_batch _ _ _) as [|x b];
    [cbn [appended fst]; by rewrite app_nil_r|].
  cbn [appended fst]. rewrite fmap_app, !length_app, !length_fmap in *. lia.
Qed.

(** When moreover no valid document is skipped, alignment is kept. *)
Lemma add_documents_aligned E s (docs : list pydict) batch_size :
  batch_size ≠ 0%nat → storage_works E →
  Forall (embeddable E) (List.filter validate_dict docs) →
  Forall (on_one_line E) (List.filter validate_dict docs) →
  aligned s →
  aligned (fst (add_documents E s (Dict <$> docs) batch_size)).
Proof.
  intros Hbs Hw Hemb Hone Hal. rewrite add_documents_no_fault by done.
  destruct (List.filter validate_dict docs) as [|v valid] eqn:Hv; [done|].
  destruct (process_batch_embeddable E (v :: valid) (length (meta_lines_of s)) Hemb)
    as [Hm Hi].
  cbv zeta. unfold aligned, stored_ids, meta_lines_of in *.
  cbn [fst index_file meta_file].
  rewrite appended_lines, process_batch_one_line by done.
  change (default [] (Some ?x)) with x. cbn [snd].
  destruct (process_batch _ _ _) as [|x b] eqn:Hpb; [done|].
  cbn [appended fst].
  rewrite fmap_app, Hm, Hi, Hal.
  rewrite length_app, length_fmap, seq_app, fmap_app. done.
Qed.

(** Every vector [process_doc] hands on is the normalised embedding of the
    document's text. *)
Lemma process_doc_normalizes E id doc i v l :
  process_doc E id doc = Some (i, v, l) →
  ∃ text raw, text_for_embed doc = Ok text
              ∧ embed_query E text = Ok raw
              ∧ v = l2_normalize E raw.
Proof.
  unfold process_doc. destruct (text_for_embed doc) as [text|]; [|done].
  destruct (String.eqb _ _); [done|].
  destruct (embed_query E text) as [raw|] eqn:He; [|done].
  intros [= _ <- _]. by exists text, raw.
Qed.

(** A check of [embeddable] that computes. *)
Lemma embeddable_forallb E (l : list pydict) :
  forallb (λ doc, bool_decide (is_Some (process_doc E 0 doc))) l = true →
  Forall (embeddable E) l.
Proof.
  intros H. apply Forall_forall. intros doc Hin.
  apply list_elem_of_In in Hin.
  rewrite forallb_forall in H. specialize (H doc Hin).
  by apply bool_decide_eq_true in H.
Qed.

(** A check of [on_one_line] that computes. *)
Lemma on_one_line_forallb E (l : list pydict) :
  forallb (λ doc, record_one_line (clean_meta E doc)) l = true →
  Forall (on_one_line E) l.
Proof.
  intros H. apply Forall_forall. intros doc Hin.
  apply list_elem_of_In in Hin.
  rewrite forallb_forall in H. exact (H doc Hin).
Qed.

(** C7 (amended): [add_documents] drops exactly the documents whose title
    or summary is missing, falsy or one of the strings 'None' and 'none';
    "n/a" is not among them.  It does not raise whatever the documents
    are, and when the storage works, each remaining document can be
    embedded and none of the records written holds a line separator
    (U+0085, U+2028, U+2029), all of them are stored, in order, one
    metadata line and one vector each. *)
Theorem ingestion_fault_isolation E s (docs : list pydict) (batch_size : nat) :
  batch_size ≠ 0%nat →
  storage_works E →
  let valid := List.filter validate_dict docs in
  let s' := fst (add_documents E s (Dict <$> docs) batch_size) in
  (∀ doc, validate_dict doc = false
          ↔ refused_field doc "title" ∨ refused_field doc "summary")
  ∧ snd (add_documents E s (Dict <$> docs) batch_size) = Ok tt
  ∧ (Forall (embeddable E) valid → Forall (on_one_line E) valid →
       meta_lines_of s'
       = meta_lines_of s ++ ((λ doc, Rec (clean_meta E doc)) <$> valid)
       ∧ length (stored_ids s') = (length (stored_ids s) + length valid)%nat).
Proof.
  intros Hbs Hw valid s'. split; [apply validate_dict_spec|].
  subst s'. rewrite add_documents_no_fault by done. fold valid.
  split; [by destruct valid|].
  intros Hemb Hone. destruct valid as [|v valid'] eqn:Hv.
  { simpl. rewrite app_nil_r. split; [done|lia]. }
  destruct (process_batch_embeddable E (v :: valid') (length (meta_lines_of s)) Hemb)
    as [Hm Hi].
  cbv zeta. unfold stored_ids, meta_lines_of in *. cbn [fst index_file meta_file].
  rewrite appended_lines, process_batch_one_line by done.
  change (default [] (Some ?x)) with x. cbn [snd].
  rewrite Hm. split; [done|].
  destruct (process_batch _ _ _) as [|x b] eqn:Hpb; [done|].
  cbn [appended fst].
  rewrite fmap_app, length_app, Hi, !length_fmap, length_seq. done.
Qed.

End IngestionProps.

Section IngestionExamples.
Import VectorStore Demo.

(** Ten documents, one with an empty title: nine are stored. *)
Lemma ingestion_fault_isolation_witness :
  let s' := fst (add_documents healthy empty_store (Dict <$> ten_docs) 50) in
  length (List.filter validate_dict ten_docs) = 9%nat
  ∧ length (meta_lines_of s') = 9%nat
  ∧ length (stored_ids s') = 9%nat.
Proof.
  assert (Hbs : 50%nat ≠ 0%nat) by discriminate.
  assert (Hw : storage_works healthy) by (by repeat split).
  destruct (ingestion_fault_isolation healthy empty_store ten_docs 50 Hbs Hw)
    as (_ & _ & Hall).
  destruct Hall as [Hm Hi].
  { apply embeddable_forallb. by vm_compute. }
  { apply on_one_line_forallb. vm_compute. reflexivity. }
  assert (Hlen : length (List.filter validate_dict ten_docs) = 9%nat)
    by (vm_compute; reflexivity).
  cbv zeta. rewrite Hm, Hi, length_app, length_fmap, Hlen.
  repeat split; reflexivity.
Defined.

(** C7, as stated, fails: a document whose summary is "n/a" passes
    validation and is stored. *)
Lemma placeholder_na_is_stored :
  let r := add_documents healthy empty_store [Dict na_doc] 50 in
  na_doc !! "summary" = Some (PStr "n/a")
  ∧ validate_dict na_doc = true
  ∧ snd r = Ok tt
  ∧ meta_lines_of (fst r) = [Rec (clean_meta healthy na_doc)]
  ∧ stored_ids (fst r) = [0%Z].
Proof. vm_compute. repeat split; reflexivity. Qed.

(** C1 at a failing input: in an empty store, a call with a validated
    document whose embedding text is blank, followed by an ordinary one,
    returns normally and leaves one vector with id 1 beside one metadata
    line at position 0.  The store is no longer aligned, and the document
    cannot be found again: the search looks for line 1. *)
Theorem skipped_document_breaks_alignment :
  let r := add_documents healthy empty_store [Dict blank_doc; Dict rates_doc] 50 in
  aligned empty_store
  ∧ validate_dict blank_doc = true
  ∧ process_doc healthy 0 blank_doc = None
  ∧ snd r = Ok tt
  ∧ stored_ids (fst r) = [1%Z]
  ∧ meta_lines_of (fst r) = [Rec (clean_meta healthy rates_doc)]
  ∧ ¬ aligned (fst r)
  ∧ search_articles healthy (fst r) "supramax rates" ∅ 5 (1 # 10) = Ok [].
Proof.
  split; [reflexivity|]. split; [reflexivity|].
  split; [vm_compute; reflexivity|]. split; [reflexivity|].
  split; [vm_compute; reflexivity|]. split; [vm_compute; reflexivity|].
  split; [|vm_compute; reflexivity].
  unfold aligned. vm_compute. discriminate.
Qed.

(** The same happens when the embedding service fails for one document:
    the ids of the documents after it are shifted against their lines. *)
Lemma failed_embedding_breaks_alignment :
  let flaky : env nat :=
    {| embed_query := λ t, if String.prefix "Supramax" t
                           then Raise (Exn "RateLimitError" "429") else Ok 0%nat;
       l2_normalize := l2_normalize healthy;
       index_search := index_search healthy;
       score_below := score_below healthy;
       split_pieces := split_pieces healthy;
       py_repr := py_repr healthy;
       strptime := strptime healthy;
       today := today healthy;
       read_index_fails := false;
       read_meta_fails := false;
       batch_faults := λ _, NoFault;
       save_index_fails := false;
       unlink_index_fails := false;
       rename_meta_fails := false;
       unlink_backup_fails := false |} in
  let r := add_documents flaky empty_store [Dict rates_doc; Dict na_doc] 50 in
  snd r = Ok tt
  ∧ stored_ids (fst r) = [1%Z]
  ∧ length (meta_lines_of (fst r)) = 1%nat.
Proof. vm_compute. repeat split; reflexivity. Qed.

End IngestionExamples.

(* ===================================================================== *)
(** * Properties of the vector store: retrieval *)
(* ===================================================================== *)

Section Comparisons.
Import VectorStore.

(** A three-way comparison that may be undefined is an order on each of
    its classes when it is antisymmetric, transitive and compatible with
    its own equality. *)
Record ordering {A} (cmp : A → A → option comparison) : Prop := {
  cmp_opp : ∀ a b, cmp b a = CompOpp <$> cmp a b;
  cmp_lt_trans : ∀ a b c, cmp a b = Some Lt → cmp b c = Some Lt → cmp a c = Some Lt;
  cmp_eq_l : ∀ a b c, cmp a b = Some Eq → cmp a c = cmp b c
}.

Lemma cmp_eq_r {A} (cmp : A → A → option comparison) (a b c : A) :
  ordering cmp → cmp b c = Some Eq → cmp a b = cmp a c.
Proof.
  intros O H.
  assert (Hcb : cmp c b = Some Eq) by (rewrite (cmp_opp _ O), H; done).
  rewrite (cmp_opp _ O b a), (cmp_opp _ O c a).
  by rewrite (cmp_eq_l _ O c b a Hcb).
Qed.

(** [a >= b]: the comparison is defined and is not [Lt]. *)
Definition not_below {A} (cmp : A → A → option comparison) (a b : A) : Prop :=
  cmp a b = Some Gt ∨ cmp a b = Some Eq.

Lemma not_below_trans {A} (cmp : A → A → option comparison) (a b c : A) :
  ordering cmp → not_below cmp a b → not_below cmp b c → not_below cmp a c.
Proof.
  intros O [Hab|Hab] [Hbc|Hbc]; unfold not_below.
  - left. 
    assert (Hba : cmp b a = Some Lt) by (rewrite (cmp_opp _ O), Hab; done).
    assert (Hcb : cmp c b = Some Lt) by (rewrite (cmp_opp _ O), Hbc; done).
    rewrite (cmp_opp _ O c a), (cmp_lt_trans _ O c b a Hcb Hba). done.
  - left. by rewrite <- (cmp_eq_r cmp a b c O Hbc).
  - left. by rewrite (cmp_eq_l _ O a b c Hab).
  - right. by rewrite (cmp_eq_l _ O a b c Hab).
Qed.

Lemma list_cmp_opp (a b : list string) : list_cmp b a = CompOpp (list_cmp a b).
Proof.
  revert b. induction a as [|x a IH]; intros [|y b]; simpl; try done.
  rewrite (String.compare_antisym x y).
  destruct (String.compare y x); simpl; [apply IH|done|done].
Qed.

Lemma list_cmp_eq (a b : list string) : list_cmp a b = Eq → a = b.
Proof.
  revert b. induction a as [|x a IH]; intros [|y b]; simpl; try done.
  destruct (String.compare x y) eqn:Hc; try done.
  apply String.compare_eq_iff in Hc as ->. by intros ->%IH.
Qed.

Lemma string_lt_trans (a b c : string) :
  String.compare a b = Lt → String.compare b c = Lt → String.compare a c = Lt.
Proof.
  intros H1 H2. apply String_as_OT.cmp_lt.
  apply String_as_OT.cmp_lt in H1, H2. by eapply String_as_OT.lt_trans.
Qed.

Lemma list_cmp_lt_trans (a b c : list string) :
  list_cmp a b = Lt → list_cmp b c = Lt → list_cmp a c = Lt.
Proof.
  revert b c. induction a as [|x a IH]; intros [|y b] [|z c]; simpl; try done.
  destruct (String.compare x y) eqn:Hxy; try done;
    destruct (String.compare y z) eqn:Hyz; try done.
  - apply String.compare_eq_iff in Hxy as ->. rewrite Hyz. apply IH.
  - apply String.compare_eq_iff in Hxy as ->. by rewrite Hyz.
  - apply String.compare_eq_iff in Hyz as <-. by rewrite Hxy.
  - by rewrite (string_lt_trans x y z).
Qed.

Lemma py_cmp_ordering : ordering py_cmp.
Proof.
  split.
  - intros [|x|x|x] [|y|y|y]; simpl; try done.
    + by rewrite <- Qcompare_antisym.
    + by rewrite (String.compare_antisym y x).
    + by rewrite list_cmp_opp.
  - intros [|x|x|x] [|y|y|y] [|z|z|z]; simpl; try done; intros [= H1] [= H2]; f_equal.
    + apply Qlt_alt. apply Qlt_alt in H1, H2. by eapply Qlt_trans.
    + by eapply string_lt_trans.
    + by eapply list_cmp_lt_trans.
  - intros [|x|x|x] [|y|y|y] c; simpl; try done; intros [= H].
    + destruct c; try done. f_equal. apply Qeq_alt in H. by rewrite H.
    + by apply String.compare_eq_iff in H as ->.
    + by apply list_cmp_eq in H as ->.
Qed.

Lemma key_cmp_ordering : ordering key_cmp.
Proof.
  pose proof py_cmp_ordering as O.
  split.
  - intros [a1 a2] [b1 b2]. unfold key_cmp. simpl.
    rewrite (cmp_opp _ O a1 b1).
    destruct (py_cmp a1 b1) as [[]|]; simpl; try done. apply (cmp_opp _ O).
  - intros [a1 a2] [b1 b2] [c1 c2]. unfold key_cmp. simpl.
    destruct (py_cmp a1 b1) as [[]|] eqn:Hab; try done;
      destruct (py_cmp b1 c1) as [[]|] eqn:Hbc; try done; intros H1 H2.
    + rewrite (cmp_eq_l _ O a1 b1 c1 Hab), Hbc. by eapply (cmp_lt_trans _ O).
    + by rewrite (cmp_eq_l _ O a1 b1 c1 Hab), Hbc.
    + by rewrite <- (cmp_eq_r _ a1 b1 c1 O Hbc), Hab.
    + by rewrite (cmp_lt_trans _ O a1 b1 c1 Hab Hbc).
  - intros [a1 a2] [b1 b2] [c1 c2]. unfold key_cmp. simpl.
    destruct (py_cmp a1 b1) as [[]|] eqn:Hab; try done. intros H2.
    rewrite (cmp_eq_l _ O a1 b1 c1 Hab).
    destruct (py_cmp b1 c1) as [[]|]; try done. by apply (cmp_eq_l _ O).
Qed.

End Comparisons.

Section SortProps.
Import VectorStore.

Definition keyed := (pyval * pyval * pydict)%type.

(** The order the sort establishes between an earlier and a later entry. *)
Definition before (x y : keyed) : Prop := not_below key_cmp (fst x) (fst y).

Lemma before_trans (x y z : keyed) : before x y → before y z → before x z.
Proof. apply (not_below_trans key_cmp), key_cmp_ordering. Qed.

Lemma insert_desc_spec kx x (l r : list keyed) :
  StronglySorted before l →
  insert_desc kx x l = Ok r →
  StronglySorted before r ∧ r ≡ₚ (kx, x) :: l.
Proof.
  revert r. induction l as [|[ky y] l IH]; intros r Hs; simpl.
  { intros [= <-]. split; [|done]. repeat constructor. }
  apply StronglySorted_inv in Hs as [Hs Hy].
  destruct (key_cmp kx ky) as [[]|] eqn:Hc; try done.
  - intros [= <-]. split; [|done]. constructor; [by constructor|].
    constructor; [by right|].
    eapply Forall_impl; [exact Hy|]. intros z Hz.
    eapply before_trans; [|exact Hz]. by right.
  - destruct (insert_desc kx x l) as [r'|] eqn:Hi; [|done].
    intros [= <-]. destruct (IH r' Hs eq_refl) as [Hs' Hp].
    split.
    + constructor; [done|]. rewrite Hp. constructor; [|done].
      left. unfold before. simpl.
      by rewrite (cmp_opp _ key_cmp_ordering kx ky), Hc.
    + rewrite Hp. apply perm_swap.
  - intros [= <-]. split; [|done]. constructor; [by constructor|].
    constructor; [by left|].
    eapply Forall_impl; [exact Hy|]. intros z Hz.
    eapply before_trans; [|exact Hz]. by left.
Qed.

Lemma sort_keyed_spec (l : list pydict) (r : list keyed) :
  sort_keyed l = Ok r →
  StronglySorted before r
  ∧ snd <$> r ≡ₚ l
  ∧ Forall (λ p, sort_key (snd p) = Ok (fst p)) r.
Proof.
  revert r. induction l as [|x l IH]; intros r; simpl.
  { intros [= <-]. split; [constructor|]. split; [done|constructor]. }
  destruct (sort_key x) as [kx|] eqn:Hk; [|done]. simpl.
  destruct (sort_keyed l) as [r'|]; [|done]. simpl. intros Hi.
  destruct (IH r' eq_refl) as (Hs & Hp & Hf).
  destruct (insert_desc_spec kx x r' r Hs Hi) as [Hs' Hp'].
  split; [done|]. split.
  - rewrite Hp'. simpl. by rewrite Hp.
  - rewrite Hp'. by constructor.
Qed.

Lemma StronglySorted_lookup {A} (R : A → A → Prop) (l : list A) (i j : nat) x y :
  StronglySorted R l → (i < j)%nat → l !! i = Some x → l !! j = Some y → R x y.
Proof.
  intros Hs. revert i j. induction Hs as [|a l Hs IH Ha]; intros i j Hij Hi Hj.
  { done. }
  destruct i as [|i], j as [|j]; try lia; simpl in *.
  - injection Hi as <-. rewrite Forall_forall in Ha. apply Ha.
    by eapply list_elem_of_lookup_2.
  - eapply (IH i j); [lia|done..].
Qed.

Lemma slice_upto_lookup {A} (k : Z) (l : list A) (i : nat) x :
  slice_upto k l !! i = Some x → l !! i = Some x.
Proof.
  unfold slice_upto. destruct (0 <=? k)%Z; intros H;
    by apply lookup_take_Some in H as [? _].
Qed.

Lemma slice_upto_length {A} (k : Z) (l : list A) :
  (0 ≤ k)%Z → (Z.of_nat (length (slice_upto k l)) ≤ k)%Z.
Proof.
  intros Hk. unfold slice_upto.
  destruct (Z.leb_spec 0 k); [|lia]. rewrite length_take. lia.
Qed.

End SortProps.

Section RetrievalProps.
Import VectorStore.
Context {vec : Type}.
Implicit Types (E : env vec) (s : store vec) (meta : pydict)
  (filters : filters_t) (hits : list pydict).

Lemma any_member_true (xs : list string) (c : fval) :
  any_member xs c = Ok true → ∃ x, x ∈ xs ∧ member x c = Ok true.
Proof.
  induction xs as [|x xs IH]; simpl; [done|].
  destruct (member x c) as [[]|] eqn:Hm; simpl; [| |done].
  - intros _. exists x. split; [left|done].
  - intros (y & Hy & Hmy)%IH. exists y. split; [by right|done].
Qed.

(** A record that passes [_apply_filters] under an active list filter
    holds, under that key, a list that meets the filter's. *)
Lemma list_filter_true meta filters key (wanted : list string) :
  filters !! key = Some (FVal (PList wanted)) → wanted ≠ [] →
  list_filter meta filters key = Ok true →
  ∃ l, meta !! key = Some (PList l) ∧ ∃ x, x ∈ l ∧ x ∈ wanted.
Proof.
  intros Hf Hne. unfold list_filter, filter_active. rewrite Hf.
  destruct wanted as [|w wanted]; [done|]. cbn [truthy].
  destruct (meta !! key) as [[| | |l]|]; simpl; try done.
  intros (x & Hx & Hm)%any_member_true. exists l. split; [done|].
  exists x. split; [done|]. simpl in Hm. injection Hm as Hm.
  by apply bool_decide_eq_true in Hm.
Qed.

Lemma apply_filters_category E meta filters (wanted : list string) :
  filters !! "category" = Some (FVal (PList wanted)) → wanted ≠ [] →
  _apply_filters E meta filters = true →
  ∃ l, meta !! "category" = Some (PList l) ∧ ∃ x, x ∈ l ∧ x ∈ wanted.
Proof.
  intros Hf Hne. unfold _apply_filters, apply_filters_body.
  destruct (list_filter meta filters "events") as [[]|]; simpl; try done.
  destruct (list_filter meta filters "category") as [[]|] eqn:Hc; simpl; try done.
  intros _. by eapply list_filter_true.
Qed.

Lemma annotate_lookup meta score doc_id key :
  key ≠ "score" → key ≠ "doc_id" →
  annotate meta score doc_id !! key = meta !! key.
Proof.
  intros H1 H2. unfold annotate. by rewrite !lookup_insert_ne.
Qed.

Lemma annotate_score meta score doc_id :
  annotate meta score doc_id !! "score" = Some (PNum score).
Proof.
  unfold annotate. rewrite lookup_insert_ne by done. apply lookup_insert_eq.
Qed.

(** Every hit the loop collects is a metadata record that passed the
    filters, annotated. *)
Lemma collect_hits_elem E filters top_k threshold (meta_lines : list line)
    (candidates : list (Z * Q)) : ∀ hits x,
  x ∈ collect_hits E filters top_k threshold meta_lines candidates hits →
  x ∈ hits
  ∨ ∃ meta score doc_id,
      x = annotate meta score doc_id ∧ _apply_filters E meta filters = true.
Proof.
  induction candidates as [|[doc_id score] rest IH]; intros hits x; simpl.
  { by left. }
  destruct ((doc_id =? -1)%Z || score_below E score threshold); [apply IH|].
  destruct (Z.of_nat (length meta_lines) <=? doc_id)%Z; [apply IH|].
  destruct (py_index meta_lines doc_id) as [[raw| |meta]|]; try apply IH.
  { destruct (any_filter_active filters); [|apply IH].
    destruct (top_k <=? Z.of_nat (length hits))%Z; [by left|apply IH]. }
  destruct (_apply_filters E meta filters) eqn:Hf.
  - assert (Hnew : ∀ y, y ∈ hits ++ [annotate meta score doc_id] →
                        y ∈ hits ∨ ∃ meta score doc_id,
                          y = annotate meta score doc_id
                          ∧ _apply_filters E meta filters = true).
    { intros y [Hy|Hy%list_elem_of_singleton]%elem_of_app; [by left|].
      right. by exists meta, score, doc_id. }
    destruct (top_k <=? Z.of_nat (length (hits ++ _)))%Z; [apply Hnew|].
    intros [Hx|Hx]%IH; [by apply Hnew|by right].
  - destruct (top_k <=? Z.of_nat (length hits))%Z; [by left|apply IH].
Qed.

(** The shape of every result of [search_articles]. *)
Lemma search_articles_shape E s query filters top_k threshold hits :
  search_articles E s query filters top_k threshold = Ok hits →
  hits = []
  ∨ ∃ candidates meta_lines r,
      sort_keyed (collect_hits E filters top_k threshold meta_lines candidates [])
      = Ok r
      ∧ hits = slice_upto top_k (snd <$> r).
Proof.
  unfold search_articles, search_body.
  destruct (ntotal (load_index E s) =? 0)%nat; simpl; [intros [= <-]; by left|].
  destruct (embed_query E query) as [qv|]; simpl; [|intros [= <-]; by left].
  destruct (index_search E _ _ _) as [candidates|]; simpl; [|intros [= <-]; by left].
  destruct (meta_file s); simpl; [|intros [= <-]; by left].
  destruct (read_meta E s) as [meta_lines|]; simpl; [|intros [= <-]; by left].
  unfold sort_hits.
  destruct (sort_keyed _) as [r|] eqn:Hs; simpl; [|intros [= <-]; by left].
  intros [= <-]. right. by exists candidates, meta_lines, r.
Qed.

Lemma slice_upto_elem {A} (k : Z) (l : list A) (x : A) :
  x ∈ slice_upto k l → x ∈ l.
Proof.
  intros (i & Hi)%list_elem_of_lookup_1. eapply list_elem_of_lookup_2.
  by eapply slice_upto_lookup.
Qed.

(** Every hit returned is an annotated record that passed the filters. *)
Lemma search_articles_hit E s query filters top_k threshold hits x :
  search_articles E s query filters top_k threshold = Ok hits →
  x ∈ hits →
  ∃ meta score doc_id,
    x = annotate meta score doc_id ∧ _apply_filters E meta filters = true.
Proof.
  intros [->|(candidates & meta_lines & r & Hs & ->)]%search_articles_shape Hx.
  { by apply elem_of_nil in Hx. }
  apply slice_upto_elem in Hx.
  destruct (sort_keyed_spec _ _ Hs) as (_ & Hp & _).
  rewrite Hp in Hx.
  apply collect_hits_elem in Hx as [Hx|Hx]; [by apply elem_of_nil in Hx|done].
Qed.

(** C3: under a filter with a non-empty category list, every hit that
    [search_articles] returns has a category field that is a list sharing
    an element with the filter's list; a record whose category is not a
    list, or is disjoint from the filter's, is not among the hits. *)
Theorem category_filter_correct E s query filters top_k threshold hits
    (wanted : list string) :
  filters !! "category" = Some (FVal (PList wanted)) →
  wanted ≠ [] →
  search_articles E s query filters top_k threshold = Ok hits →
  ∀ hit, hit ∈ hits →
    ∃ l, hit !! "category" = Some (PList l) ∧ ∃ c, c ∈ l ∧ c ∈ wanted.
Proof.
  intros Hf Hne Hs hit Hin.
  destruct (search_articles_hit _ _ _ _ _ _ _ _ Hs Hin)
    as (meta & score & doc_id & -> & Hpass).
  rewrite annotate_lookup by done.
  by eapply apply_filters_category.
Qed.

Lemma search_articles_returns E s query filters top_k threshold :
  ∃ hits, search_articles E s query filters top_k threshold = Ok hits.
Proof.
  unfold search_articles, try_except.
  destruct (search_body _ _ _ _ _ _); eauto.
Qed.

(** C6 (amended): [search_articles] never raises.  A failure of the
    embedding service is absorbed: the result is the empty list, the same
    as for an empty index. *)
Theorem search_articles_absorbs_failures E s query filters top_k threshold :
  (∃ hits, search_articles E s query filters top_k threshold = Ok hits)
  ∧ (∀ e, ntotal (load_index E s) ≠ 0%nat →
          embed_query E query = Raise e →
          search_articles E s query filters top_k threshold = Ok [])
  ∧ (ntotal (load_index E s) = 0%nat →
     search_articles E s query filters top_k threshold = Ok []).
Proof.
  split; [|split].
  - apply search_articles_returns.
  - intros e Hn He. unfold search_articles, search_body.
    apply Nat.eqb_neq in Hn. by rewrite Hn, He.
  - intros Hn. unfold search_articles, search_body. by rewrite Hn.
Qed.

End RetrievalProps.

Section RankingProps.
Import VectorStore Demo.

Lemma sort_key_dated (x : pydict) k (d : string) (sc : Q) :
  sort_key x = Ok k →
  default (PStr "") (x !! "date") = PStr d →
  x !! "score" = Some (PNum sc) →
  k = (PStr d, PNum sc).
Proof.
  unfold sort_key. intros Hk Hd Hs. rewrite Hs, Hd in Hk. by injection Hk.
Qed.

(** In a sorted result, of two hits with string dates the one that stands
    later is not newer, and at equal dates does not score higher. *)
Lemma sorted_pair (r : list keyed) (i j : nat) (a b : pydict)
    (da db : string) (sa sb : Q) :
  StronglySorted before r →
  Forall (λ p, sort_key (snd p) = Ok (fst p)) r →
  (i < j)%nat →
  (snd <$> r) !! i = Some a → (snd <$> r) !! j = Some b →
  default (PStr "") (a !! "date") = PStr da →
  default (PStr "") (b !! "date") = PStr db →
  a !! "score" = Some (PNum sa) → b !! "score" = Some (PNum sb) →
  String.compare da db ≠ Lt ∧ (da = db → ¬ (sa < sb)%Q).
Proof.
  intros Hs Hk Hij Hi Hj Hda Hdb Hsa Hsb.
  rewrite list_lookup_fmap in Hi, Hj.
  apply fmap_Some in Hi as ([ka a'] & Hri & ->).
  apply fmap_Some in Hj as ([kb b'] & Hrj & ->).
  simpl in Hda, Hdb, Hsa, Hsb.
  pose proof (StronglySorted_lookup before r i j _ _ Hs Hij Hri Hrj) as Hb.
  rewrite Forall_forall in Hk.
  pose proof (Hk _ (list_elem_of_lookup_2 _ _ _ Hri)) as Hka.
  pose proof (Hk _ (list_elem_of_lookup_2 _ _ _ Hrj)) as Hkb.
  simpl in Hka, Hkb.
  rewrite (sort_key_dated a' ka da sa Hka Hda Hsa) in Hb.
  rewrite (sort_key_dated b' kb db sb Hkb Hdb Hsb) in Hb.
  unfold before, not_below, key_cmp in Hb. cbn [fst snd py_cmp] in Hb.
  split.
  - intros Hlt. rewrite Hlt in Hb. by destruct Hb.
  - intros -> Hlt.
    assert (Heq : String.compare db db = Eq).
    { destruct (String.compare db db) eqn:Hc; [done| |].
      - pose proof (String.compare_antisym db db) as Ha. rewrite Hc in Ha. done.
      - pose proof (String.compare_antisym db db) as Ha. rewrite Hc in Ha. done. }
    rewrite Heq in Hb. pose proof (proj1 (Qlt_alt sa sb) Hlt) as Hc.
    rewrite Hc in Hb. by destruct Hb.
Qed.

(** C2: in every result of [search_articles], a hit with a later date
    string stands before any hit with an earlier one, whatever their
    scores, and of two hits with the same date the one with the higher
    score stands first; the result has at most [top_k] hits.  The hits
    dated 2024-01-01 (score 0.9) and 2024-02-01 (score 0.5) come out with
    the second first. *)
Theorem ranking_order :
  (∀ vec (E : env vec) s query filters top_k threshold hits,
     search_articles E s query filters top_k threshold = Ok hits →
     (∀ (i j : nat) a b da db sa sb,
        hits !! i = Some a → hits !! j = Some b →
        default (PStr "") (a !! "date") = PStr da →
        default (PStr "") (b !! "date") = PStr db →
        a !! "score" = Some (PNum sa) → b !! "score" = Some (PNum sb) →
        (String.compare da db = Gt → (i < j)%nat)
        ∧ (da = db → (sb < sa)%Q → (i < j)%nat))
     ∧ ((0 ≤ top_k)%Z → (Z.of_nat (length hits) ≤ top_k)%Z))
  ∧ search_articles (answering [(0%Z, 9 # 10); (1%Z, 5 # 10)]) two_doc_store
      "freight" ∅ 5 (1 # 10)
    = Ok [annotate february (5 # 10) 1; annotate january (9 # 10) 0].
Proof.
  split; [|vm_compute; reflexivity].
  intros vec E s query filters top_k threshold hits Hsearch.
  apply search_articles_shape in Hsearch
    as [->|(candidates & meta_lines & r & Hs & ->)].
  { split; [intros i j a b da db sa sb Hi; done|simpl; lia]. }
  destruct (sort_keyed_spec _ _ Hs) as (Hsorted & _ & Hkeys).
  split; [|apply slice_upto_length].
  intros i j a b da db sa sb Hi Hj Hda Hdb Hsa Hsb.
  apply slice_upto_lookup in Hi, Hj.
  split.
  - intros Hgt. destruct (Nat.lt_trichotomy i j) as [?|[->|Hji]]; [done| |].
    + rewrite Hi in Hj. injection Hj as ->. rewrite Hda in Hdb.
      injection Hdb as ->.
      pose proof (String.compare_antisym db db) as Ha. rewrite Hgt in Ha. done.
    + destruct (sorted_pair r j i b a db da sb sa) as [Hnlt _]; try done.
      rewrite (String.compare_antisym db da), Hgt in Hnlt. done.
  - intros -> Hlt. destruct (Nat.lt_trichotomy i j) as [?|[->|Hji]]; [done| |].
    + rewrite Hi in Hj. injection Hj as ->. rewrite Hsa in Hsb.
      injection Hsb as ->. by apply Qlt_irrefl in Hlt.
    + destruct (sorted_pair r j i b a db db sb sa) as [_ Hsc]; try done.
      by destruct (Hsc eq_refl).
Qed.

(** The example's search returns within the bound of five hits. *)
Lemma ranking_order_witness :
  ∃ hits,
    search_articles (answering [(0%Z, 9 # 10); (1%Z, 5 # 10)]) two_doc_store
      "freight" ∅ 5 (1 # 10) = Ok hits
    ∧ (Z.of_nat (length hits) ≤ 5)%Z.
Proof.
  exists [annotate february (5 # 10) 1; annotate january (9 # 10) 0].
  split; [exact (proj2 ranking_order)|].
  refine (proj2 (proj1 ranking_order nat _ _ _ _ _ _ _ (proj2 ranking_order)) _).
  done.
Defined.

(** C6, as stated, fails: with a non-empty index and the embedding
    service down, [search_articles] returns the empty list, which is also
    what it returns on an empty index; no error reaches the caller. *)
Lemma embedding_failure_is_absorbed :
  ntotal (load_index embedding_down one_doc_store) = 1%nat
  ∧ embed_query embedding_down "supramax rates"
    = Raise (Exn "APIConnectionError" "Connection error.")
  ∧ search_articles embedding_down one_doc_store "supramax rates" ∅ 5 (1 # 10)
    = Ok []
  ∧ search_articles healthy empty_store "supramax rates" ∅ 5 (1 # 10) = Ok []
  ∧ (∀ e, search_articles embedding_down one_doc_store "supramax rates" ∅ 5 (1 # 10)
          ≠ Raise e).
Proof.
  split; [vm_compute; reflexivity|]. split; [reflexivity|].
  split; [vm_compute; reflexivity|]. split; [vm_compute; reflexivity|].
  intros e. vm_compute. discriminate.
Qed.

(** Of a steel, a coal and a malformed record, all three candidates, a
    search filtered on steel returns the first alone. *)
Lemma category_filter_correct_witness :
  ∃ hits,
    search_articles (answering [(0%Z, 9 # 10); (1%Z, 8 # 10); (2%Z, 7 # 10)])
      category_store "steel" steel_filter 5 (1 # 10) = Ok hits
    ∧ hits = [annotate steel_meta (9 # 10) 0]
    ∧ Forall (λ hit, ∃ l, hit !! "category" = Some (PList l)
                          ∧ ∃ c, c ∈ l ∧ c ∈ ["steel"]) hits.
Proof.
  exists [annotate steel_meta (9 # 10) 0].
  assert (Hs : search_articles
                 (answering [(0%Z, 9 # 10); (1%Z, 8 # 10); (2%Z, 7 # 10)])
                 category_store "steel" steel_filter 5 (1 # 10)
               = Ok [annotate steel_meta (9 # 10) 0])
    by (vm_compute; reflexivity).
  split; [exact Hs|]. split; [reflexivity|].
  apply Forall_forall. intros hit Hin.
  refine (category_filter_correct _ _ _ steel_filter _ _ _ ["steel"] _ _ Hs hit Hin).
  - reflexivity.
  - discriminate.
Defined.

(** The amended C6 at the store with one document. *)
Lemma search_articles_absorbs_failures_witness :
  search_articles embedding_down one_doc_store "supramax rates" ∅ 5 (1 # 10)
  = Ok [].
Proof.
  refine (proj1 (proj2 (search_articles_absorbs_failures embedding_down
                          one_doc_store "supramax rates" ∅ 5 (1 # 10)))
            (Exn "APIConnectionError" "Connection error.") _ _).
  - vm_compute. discriminate.
  - reflexivity.
Defined.

(** With the service up, the same call finds the document. *)
Lemma healthy_search_finds_document :
  ∃ hit, search_articles healthy one_doc_store "supramax rates" ∅ 5 (1 # 10)
         = Ok [hit]
         ∧ hit !! "title" = Some (PStr "Supramax rates surge").
Proof.
  exists (annotate (clean_meta healthy rates_doc) 1 0).
  split; vm_compute; reflexivity.
Qed.

End RankingProps.

(* ===================================================================== *)
(** * Properties of the vector store: rebuild *)
(* ===================================================================== *)

Section RebuildProps.
Import VectorStore.
Context {vec : Type}.
Implicit Types (E : env vec) (s : store vec).

(** [add_documents] never touches the backup file. *)
Lemma add_documents_backup E s (docs : list pyobj) (batch_size : nat) :
  backup_file (fst (add_documents E s docs batch_size)) = backup_file s.
Proof.
  unfold add_documents. destruct docs as [|d docs]; [done|].
  destruct (valid_documents (d :: docs)) as [[|v valid]|]; [done| |done].
  destruct (match meta_file s with Some _ => read_meta E s | None => Ok [] end);
    [|done].
  destruct (batch_size =? 0)%nat; [done|].
  unfold save_index. by destruct (save_index_fails E).
Qed.

Lemma valid_documents_ok (docs : list pyobj) :
  Forall (λ d, d ≠ NotADict) docs → ∃ valid, valid_documents docs = Ok valid.
Proof.
  induction docs as [|d docs IH]; intros Hall; [by exists []|].
  apply Forall_cons in Hall as [Hd Hall]. destruct (IH Hall) as [valid Hv].
  destruct d as [m|]; [|done]. simpl. rewrite Hv. simpl. eauto.
Qed.

(** Into a store without metadata file, [add_documents] returns normally
    unless a document is not a dict or the index cannot be saved: what
    the embedding service and the batch writes do plays no part. *)
Lemma add_documents_fresh_ok E s (docs : list pyobj) :
  meta_file s = None →
  save_index_fails E = false →
  Forall (λ d, d ≠ NotADict) docs →
  snd (add_documents E s docs 50) = Ok tt.
Proof.
  intros Hm Hsv Hall. unfold add_documents. destruct docs as [|d docs]; [done|].
  destruct (valid_documents_ok _ Hall) as [valid ->].
  destruct valid as [|v valid]; [done|]. rewrite Hm. simpl.
  unfold save_index. by rewrite Hsv.
Qed.

Lemma restore_documents_dicts (lines : list line) :
  Forall (λ l, l ≠ NotDict) lines →
  Forall (λ d, d ≠ NotADict) (restore_documents lines).
Proof.
  induction 1 as [|l lines Hl _ IH]; [constructor|].
  unfold restore_documents. simpl. destruct l; try done; by constructor.
Qed.

(** What validation makes of a list of documents. *)
Lemma valid_documents_spec (docs : list pyobj) :
  match valid_documents docs with
  | Raise _ => NotADict ∈ docs
  | Ok valid =>
      (NotADict ∉ docs)
      ∧ ∀ m, m ∈ valid ↔ Dict m ∈ docs ∧ validate_dict m = true
  end.
Proof.
  induction docs as [|d docs IH]; simpl.
  { split; [by intros ?%elem_of_nil|]. intros m. split.
    - by intros ?%elem_of_nil.
    - by intros [?%elem_of_nil _]. }
  destruct d as [m0|]; simpl; [|left].
  destruct (valid_documents docs) as [valid|e]; simpl; [|by right].
  destruct IH as [Hnot Hvalid]. split.
  { intros [|]%elem_of_cons; done. }
  intros m. destruct (validate_dict m0) eqn:Hm0.
  - rewrite elem_of_cons, Hvalid, elem_of_cons. split.
    + intros [->|[? ?]]; [split; [by left|done]|split; [by right|done]].
    + intros [[[= ->]|?] ?]; [by left|by right].
  - rewrite Hvalid, elem_of_cons. split.
    + intros [? ?]. split; [by right|done].
    + intros [[[= ->]|?] ?]; [congruence|done].
Qed.

(** Into a store without metadata file, [add_documents] raises in two
    cases only: a document is not a dict, or some document is valid and
    the index cannot be saved. *)
Lemma add_documents_fresh E s (docs : list pyobj) :
  meta_file s = None →
  snd (add_documents E s docs 50) = Ok tt
  ↔ (NotADict ∉ docs)
    ∧ ¬ ((∃ m, Dict m ∈ docs ∧ validate_dict m = true)
         ∧ save_index_fails E = true).
Proof.
  intros Hm. unfold add_documents. destruct docs as [|d docs].
  { split; [|done]. intros _. split; [by intros ?%elem_of_nil|].
    by intros [(m & ?%elem_of_nil & _) _]. }
  pose proof (valid_documents_spec (d :: docs)) as Hv.
  destruct (valid_documents (d :: docs)) as [[|v valid]|e].
  - destruct Hv as [Hnot Hvalid]. split; [|done]. intros _. split; [done|].
    intros [(m & Hin & Hok) _].
    by apply (elem_of_nil m), Hvalid.
  - destruct Hv as [Hnot Hvalid]. rewrite Hm. cbn [Nat.eqb].
    unfold save_index. destruct (save_index_fails E) eqn:Hsv; cbn [snd].
    + split; [done|]. intros [_ Hno]. exfalso. apply Hno. split; [|done].
      exists v. apply Hvalid. left.
    + split; [|done]. intros _. split; [done|]. by intros [_ ?].
  - cbn [snd]. split; [done|]. by intros [? _].
Qed.

(** A path of [rebuild_index] that ends in [return False]: the original
    lines are still the log ([stopped_with_log]) or the backup
    ([stopped_with_backup]), and one of the conditions of success fails. *)
Ltac stopped where_ :=
  split; [by where_|]; split; [|done]; split; [done|];
  let H := fresh in
  intros (H & ? & ? & ? & ? & ?); first [done | by destruct H].
Ltac stopped_with_log := stopped ltac:(left).
Ltac stopped_with_backup := stopped ltac:(right).

(** The outcome of [rebuild_index], step by step. *)
Lemma rebuild_index_outcome E s (entries : list entry) :
  meta_file s = Some entries →
  let r := rebuild_index E s in
  let s2 := Store None None (Some entries) in
  let documents := restore_documents (whole <$> entries) in
  (snd r = false →
     meta_file (fst r) = Some entries ∨ backup_file (fst r) = Some entries)
  ∧ (snd r = true ↔
       (index_file s = None ∨ unlink_index_fails E = false)
       ∧ read_meta_fails E = false
       ∧ documents ≠ []
       ∧ rename_meta_fails E = false
       ∧ snd (add_documents E s2 documents 50) = Ok tt
       ∧ unlink_backup_fails E = false)
  ∧ (snd r = true →
       let s3 := fst (add_documents E s2 documents 50) in
       fst r = Store (index_file s3) (meta_file s3) None).
Proof.
  intros Hm r s2 documents.
  subst r s2 documents. unfold rebuild_index. rewrite Hm.
  destruct (index_file s) as [idx|] eqn:Hidx;
    [destruct (unlink_index_fails E) eqn:Hu; [stopped_with_log|]|];
    unfold iter_meta; simpl.
  all: destruct (read_meta_fails E) eqn:Hr; [stopped_with_log|].
  all: destruct (restore_documents (whole <$> entries)) as [|d docs] eqn:Hd;
         [stopped_with_log|].
  all: destruct (rename_meta_fails E) eqn:Hn; [stopped_with_log|].
  all: pose proof (add_documents_backup E (Store None None (Some entries))
                     (d :: docs) 50) as Hb.
  all: destruct (add_documents E _ (d :: docs) 50) as [s3 [[]|e]] eqn:Ha;
         simpl in Hb; [|stopped_with_backup].
  all: destruct (unlink_backup_fails E) eqn:Hub; [stopped_with_backup|].
  all: split; [done|]; split; [|done]; split; [|done]; intros _.
  all: repeat split; try done; first [by left|by right].
Qed.

(** C9 (amended): [rebuild_index] moves the log to a backup before it
    re-adds the documents and removes the backup only after
    [add_documents] has returned.  When an exception reaches it or a guard
    stops it (the old index cannot be removed, the log cannot be read,
    holds no document or cannot be renamed, a restored line is not a JSON
    object, the index cannot be saved, the backup cannot be removed) it
    returns False and the original lines are still there, as the log or
    as the backup; in every other case it returns True, the backup removed.
    A document whose embedding fails is skipped: with working storage the
    rebuild succeeds whatever the embedding service does. *)
Theorem rebuild_recoverable E s (entries : list entry) :
  meta_file s = Some entries →
  let r := rebuild_index E s in
  let s2 := Store None None (Some entries) in
  let documents := restore_documents (whole <$> entries) in
  let stopped :=
    (index_file s ≠ None ∧ unlink_index_fails E = true)
    ∨ read_meta_fails E = true
    ∨ documents = []
    ∨ rename_meta_fails E = true
    ∨ NotADict ∈ documents
    ∨ ((∃ m, Dict m ∈ documents ∧ validate_dict m = true)
       ∧ save_index_fails E = true)
    ∨ unlink_backup_fails E = true in
  (stopped →
     snd r = false
     ∧ (meta_file (fst r) = Some entries ∨ backup_file (fst r) = Some entries))
  ∧ (¬ stopped →
     snd r = true
     ∧ let s3 := fst (add_documents E s2 documents 50) in
       fst r = Store (index_file s3) (meta_file s3) None)
  ∧ (read_meta_fails E = false → rename_meta_fails E = false →
     save_index_fails E = false → unlink_index_fails E = false →
     unlink_backup_fails E = false →
     Forall (λ e, whole e ≠ NotDict) entries → documents ≠ [] →
     snd r = true).
Proof.
  intros Hm r s2 documents stopped.
  destruct (rebuild_index_outcome E s entries Hm) as (Hrec & Hiff & Hres).
  fold r s2 documents in Hrec, Hiff, Hres.
  pose proof (add_documents_fresh E s2 documents eq_refl) as Hadd.
  assert (Hfalse : stopped → snd r = false).
  { intros Hst. destruct (snd r) eqn:Hr; [|done]. exfalso.
    destruct (proj1 Hiff eq_refl) as (Hu & Hrd & Hdocs & Hrn & Ha & Hub).
    apply Hadd in Ha as [Hnot Hsave].
    destruct Hst as [[Hi Hu']|[?|[?|[?|[?|[?|?]]]]]]; try congruence; try done.
    destruct Hu as [?|?]; congruence. }
  split; [|split].
  - intros Hst. split; [by apply Hfalse|]. by apply Hrec, Hfalse.
  - intros Hgo.
    assert (Htrue : snd r = true).
    { apply Hiff. unfold stopped in Hgo.
      split.
      { destruct (index_file s); [|by left]. right.
        destruct (unlink_index_fails E); [|done]. exfalso. apply Hgo. by left. }
      split.
      { destruct (read_meta_fails E); [|done]. exfalso. apply Hgo. right. by left. }
      split.
      { intros Hnil. apply Hgo. right. right. by left. }
      split.
      { destruct (rename_meta_fails E); [|done]. exfalso. apply Hgo.
        right. right. right. by left. }
      split.
      { apply Hadd. split.
        - intros Hin. apply Hgo. right. right. right. right. by left.
        - intros Hsv. apply Hgo. right. right. right. right. right. by left. }
      destruct (unlink_backup_fails E); [|done]. exfalso. apply Hgo.
      by repeat right. }
    split; [done|]. by apply Hres.
  - intros Hr Hn Hsv Hu Hub Hlines Hdocs. apply Hiff.
    repeat split; try done; [by right|].
    apply add_documents_fresh_ok; [done|done|].
    apply restore_documents_dicts. by apply Forall_fmap.
Qed.

End RebuildProps.

Section RebuildExamples.
Import VectorStore Demo DemoWorlds.

(** A rebuild of the one-document store in the healthy world. *)
Lemma rebuild_recoverable_witness :
  snd (rebuild_index healthy one_doc_store) = true.
Proof.
  assert (Hm : meta_file one_doc_store
               = Some [plain (Rec (clean_meta healthy rates_doc))])
    by (vm_compute; reflexivity).
  apply (proj2 (proj2 (rebuild_recoverable healthy one_doc_store _ Hm)));
    try reflexivity.
  - repeat constructor. discriminate.
  - discriminate.
Defined.

(** What skipping means for the data: when the embedding service is down
    during a rebuild, every document is skipped, the rebuild still
    reports success, and neither the log nor the backup is left. *)
Lemma rebuild_with_embedding_down :
  rebuild_index embedding_down one_doc_store = (Store (Some []) None None, true).
Proof. vm_compute. reflexivity. Qed.

(** A save that fails makes the rebuild fail, and the backup stays. *)
Lemma rebuild_with_failing_save :
  let E : env nat :=
    {| embed_query := embed_query healthy;
       l2_normalize := l2_normalize healthy;
       index_search := index_search healthy;
       score_below := score_below healthy;
       split_pieces := split_pieces healthy;
       py_repr := py_repr healthy;
       strptime := strptime healthy;
       today := today healthy;
       read_index_fails := false;
       read_meta_fails := false;
       batch_faults := λ _, NoFault;
       save_index_fails := true;
       unlink_index_fails := false;
       rename_meta_fails := false;
       unlink_backup_fails := false |} in
  snd (rebuild_index E one_doc_store) = false
  ∧ backup_file (fst (rebuild_index E one_doc_store)) = meta_file one_doc_store.
Proof. vm_compute. split; reflexivity. Qed.

(** C9, as stated, fails: when the metadata file cannot be written while
    the documents are re-added, the failure of the batch is absorbed
    inside [add_documents]; the rebuild returns True and removes the
    backup, and the line the log held is neither in the log nor in a
    backup. *)
Lemma absorbed_failure_loses_the_log :
  batch_faults meta_write_failing 0 = WriteFails
  ∧ meta_lines_of one_doc_store = [Rec (clean_meta healthy rates_doc)]
  ∧ snd (rebuild_index meta_write_failing one_doc_store) = true
  ∧ meta_file (fst (rebuild_index meta_write_failing one_doc_store)) = None
  ∧ backup_file (fst (rebuild_index meta_write_failing one_doc_store)) = None
  ∧ length (stored_ids (fst (rebuild_index meta_write_failing one_doc_store)))
    = 1%nat.
Proof.
  split; [reflexivity|]. split; [vm_compute; reflexivity|].
  repeat split; vm_compute; reflexivity.
Qed.

End RebuildExamples.

(* ===================================================================== *)
(** * Properties of the answer path *)
(* ===================================================================== *)

Section StringProps.

Lemma append_cons (x : ascii) (a b : string) :
  String x a +:+ b = String x (a +:+ b).
Proof. reflexivity. Qed.

Lemma append_assoc (a b c : string) : (a +:+ b) +:+ c = a +:+ (b +:+ c).
Proof.
  induction a as [|x a IH]; [done|]. by rewrite !append_cons, IH.
Qed.

Lemma append_empty_r (a : string) : a +:+ "" = a.
Proof. induction a as [|x a IH]; [done|]. by rewrite append_cons, IH. Qed.

Lemma concat_cons_nonempty (x : string) (l : list string) :
  String.concat "" (x :: l) = x +:+ String.concat "" l.
Proof. destruct l; simpl; [by rewrite append_empty_r|done]. Qed.

Lemma concat_app (l1 l2 : list string) :
  String.concat "" (l1 ++ l2) = String.concat "" l1 +:+ String.concat "" l2.
Proof.
  induction l1 as [|x l1 IH]; [done|].
  rewrite <- app_comm_cons, !concat_cons_nonempty, IH.
  symmetry. apply append_assoc.
Qed.

(** The characters of a string, put together again, are the string. *)
Lemma concat_chars_aux (s cur : string) :
  String.concat "" (chars_aux cur s) = cur +:+ s.
Proof.
  revert cur. induction s as [|c s IH]; intros cur.
  - simpl. destruct cur; [done|]. simpl. by rewrite append_empty_r.
  - simpl. destruct (is_continuation c).
    + rewrite IH. by rewrite append_assoc.
    + destruct cur as [|d cur]; [apply IH|].
      rewrite concat_cons_nonempty, IH. done.
Qed.

Lemma concat_chars (s : string) : String.concat "" (chars s) = s.
Proof. apply concat_chars_aux. Qed.

(** [s[:n]] is the start of [s], made of at most [n] of its characters,
    and all of [s] when [s] has no more than [n]. *)
Lemma slice_to_prefix (n : nat) (s : string) :
  (∃ rest, s = slice_to n s +:+ rest)
  ∧ (∃ cs, slice_to n s = String.concat "" cs ∧ (length cs ≤ n)%nat
           ∧ cs = take n (chars s))
  ∧ ((length (chars s) ≤ n)%nat → slice_to n s = s).
Proof.
  unfold slice_to. split; [|split].
  - exists (String.concat "" (drop n (chars s))).
    by rewrite <- concat_app, take_drop, concat_chars.
  - exists (take n (chars s)). split; [done|]. split; [|done].
    rewrite length_take. lia.
  - intros Hn. by rewrite take_ge, concat_chars.
Qed.

End StringProps.

Section AnswerProps.
Import VectorStore RagChain.
Context {vec : Type}.
Variable E : env vec.
Variable svc : services.
Implicit Types (s : store vec) (user_meta : pyobj).

(** A hit of [search_articles] carries the score it was found with. *)
Lemma search_hit_score s query filters top_k threshold hits x :
  search_articles E s query filters top_k threshold = Ok hits →
  x ∈ hits → ∃ sc, x !! "score" = Some (PNum sc).
Proof.
  intros Hs Hx.
  destruct (search_articles_hit _ _ _ _ _ _ _ _ Hs Hx) as (meta & sc & id & -> & _).
  exists sc. apply annotate_score.
Qed.

Lemma relevance_score_ok (groups : list string) (x : pydict) sc :
  x !! "score" = Some (PNum sc) →
  ∃ q, relevance_score (PList groups) x = Ok q.
Proof.
  intros Hsc. unfold relevance_score. rewrite Hsc. simpl.
  destruct (default (PList []) (x !! "assigned_group")); simpl; eauto.
Qed.

Lemma sort_by_relevance_ok (groups : list string) (hits : list pydict) :
  (∀ x, x ∈ hits → ∃ sc, x !! "score" = Some (PNum sc)) →
  ∃ r, sort_by_relevance (PList groups) hits = Ok r.
Proof.
  induction hits as [|x hits IH]; intros Hsc; [by exists []|].
  destruct (Hsc x) as [sc Hx]; [left|].
  destruct (relevance_score_ok groups x sc Hx) as [q Hq].
  destruct IH as [r Hr]. { intros y Hy. apply Hsc. by right. }
  simpl. rewrite Hq, Hr. simpl. eauto.
Qed.

(** For a user whose groups are a list, everything before the LLM call
    goes through, so a failure of that call is the failure of the body. *)
Lemma body_fails_with_llm s query user_meta e :
  groups_listed user_meta →
  (∀ system_message user_message,
     chat_completion svc system_message user_message = Raise e) →
  build_answer_body E svc s query user_meta = Raise e.
Proof.
  intros (m & -> & Hg) Hllm. unfold build_answer_body.
  unfold analyze_query_intent, meta_get. simpl.
  set (groups := default (PList []) (m !! "groups")).
  assert (Hgl : ∃ g, groups = PList g).
  { subst groups. destruct Hg as [->|[g ->]]; simpl; eauto. }
  destruct Hgl as [g Hgl].
  match goal with |- context [search_articles E s query ?f ?k ?t] =>
    destruct (search_articles_returns E s query f k t) as [hits Hs];
    rewrite Hs
  end.
  cbn [bind].
  assert (Hctx : ∃ c, build_context_from_search E hits (Dict m) = Ok c).
  { unfold build_context_from_search. destruct hits as [|h hits]; [eauto|].
    unfold meta_get. cbn [bind]. fold groups. rewrite Hgl.
    destruct (sort_by_relevance_ok g (h :: hits)) as [r ->]; [|simpl; eauto].
    intros x Hx. by eapply search_hit_score. }
  destruct Hctx as [c ->]. cbn [bind].
  unfold build_system_message, meta_get. cbn [bind]. fold groups. rewrite Hgl.
  cbn [join_val bind]. by rewrite Hllm.
Qed.

(** C8 (amended): [build_answer] of [rag_chain.py] returns a string for
    every query and every user metadata.  When the LLM call fails the answer is the fallback text:
    the fixed lines followed by the start of the error message, at most
    its first 100 characters; for a user whose groups are a list the
    message is that of the LLM failure itself. *)
Theorem build_answer_total s query user_meta :
  (∃ answer, build_answer E svc s query user_meta = Ok answer)
  ∧ (∀ e,
       (∀ system_message user_message,
          chat_completion svc system_message user_message = Raise e) →
       ∃ e', build_answer E svc s query user_meta = Ok (fallback_answer e')
             ∧ (groups_listed user_meta → e' = e))
  ∧ (∀ e, fallback_answer e = fallback_head +:+ slice_to 100 (exn_msg e)
          ∧ (∃ rest, exn_msg e = slice_to 100 (exn_msg e) +:+ rest)
          ∧ slice_to 100 (exn_msg e)
            = String.concat "" (take 100 (chars (exn_msg e)))).
Proof.
  split; [|split].
  - unfold build_answer, try_except.
    destruct (build_answer_body _ _ _ _ _); eauto.
  - intros e Hllm. unfold build_answer, try_except.
    destruct (build_answer_body E svc s query user_meta) as [a|e'] eqn:Hb.
    + exfalso. revert Hb. unfold build_answer_body.
      destruct (analyze_query_intent _ _); [|done]. cbn [bind].
      destruct (meta_get _ _ _); [|done]. cbn [bind].
      destruct (search_articles _ _ _ _ _ _); [|done]. cbn [bind].
      destruct (build_context_from_search _ _ _); [|done]. cbn [bind].
      destruct (build_system_message _ _ _); [|done]. cbn [bind].
      by rewrite Hllm.
    + exists e'. split; [done|]. intros Hwf.
      rewrite (body_fails_with_llm s query user_meta e Hwf Hllm) in Hb.
      by injection Hb.
  - intros e. split; [done|]. split; [apply slice_to_prefix|done].
Qed.

End AnswerProps.

Section AnswerExamples.
Import VectorStore RagChain Demo.

(** The LLM times out for a steel-export analyst. *)
Lemma build_answer_total_witness :
  build_answer healthy llm_down one_doc_store "최근 supramax 운임 동향은?" analyst
  = Ok (fallback_head +:+ "Request timed out.").
Proof.
  destruct (proj1 (proj2 (build_answer_total healthy llm_down one_doc_store
                            "최근 supramax 운임 동향은?" analyst))
              (Exn "APITimeoutError" "Request timed out.") (λ _ _, eq_refl))
    as (e' & -> & He').
  rewrite He'; [reflexivity|].
  eexists. split; [reflexivity|]. right. eexists. vm_compute. reflexivity.
Defined.

(** The enhanced chain's LLM step answers a failure with its fixed
    apology, which does not quote the error. *)
Lemma enhanced_llm_fallback (system_prompt user_prompt : string) :
  EnhancedRagChain.gpt_answer llm_down system_prompt user_prompt
  = EnhancedRagChain.apology.
Proof. reflexivity. Qed.

(** User metadata that is not a dict ends in the fallback as well. *)
Lemma build_answer_on_malformed_user :
  build_answer healthy llm_down one_doc_store "BDI?" NotADict
  = Ok (fallback_head +:+ "object has no attribute 'get'").
Proof. vm_compute. reflexivity. Qed.

(** C8, as stated, fails for the second code place it names: in
    [enhanced_rag_chain.py] the step that calls the LLM (lines 139-153)
    answers a failure with a fixed apology, and the error text does not
    occur in it. *)
Lemma enhanced_fallback_omits_the_error :
  chat_completion llm_down "system prompt" "user prompt"
  = Raise (Exn "APITimeoutError" "Request timed out.")
  ∧ EnhancedRagChain.gpt_answer llm_down "system prompt" "user prompt"
    = EnhancedRagChain.apology
  ∧ slice_to 100 "Request timed out." = "Request timed out."
  ∧ contains "Request timed out." EnhancedRagChain.apology = false.
Proof. repeat split; vm_compute; reflexivity. Qed.

End AnswerExamples.

(* ===================================================================== *)
(** * Further properties of the category mapper *)
(* ===================================================================== *)

Section MapperMore.
Import CategoryMapper GroupDescriptions.

(** The set the loop builds: the groups of the categories that have one. *)
Lemma foldl_add_group_set (cats : list string) (groups : gset string) :
  foldl add_group groups cats
  = groups ∪ list_to_set (omap (group_of CATEGORY_TO_GROUP) cats).
Proof.
  revert groups. induction cats as [|cat cats IH]; intros groups; simpl.
  { by rewrite (right_id_L ∅ (∪)). }
  rewrite IH. unfold add_group.
  destruct (group_of CATEGORY_TO_GROUP cat) as [g|]; simpl; [|done].
  by rewrite (assoc_L (∪)).
Qed.

Lemma map_categories_to_groups_unfold (cats : list string) :
  map_categories_to_groups cats
  = let groups : gset string :=
      list_to_set (omap (group_of CATEGORY_TO_GROUP) cats) in
    if decide (groups = ∅) then [general_group] else elements groups.
Proof.
  unfold map_categories_to_groups. destruct cats as [|cat cats]; [done|].
  by rewrite foldl_add_group_set, (left_id_L ∅ (∪)).
Qed.

(** X1: the result holds exactly the groups of the given categories, every
    one of them, and [general_group] in their place only when no category
    has a group. *)
Theorem map_categories_to_groups_members (cats : list string) (g : string) :
  g ∈ map_categories_to_groups cats
  ↔ (∃ cat, cat ∈ cats ∧ group_of CATEGORY_TO_GROUP cat = Some g)
    ∨ (g = general_group
       ∧ ∀ cat, cat ∈ cats → group_of CATEGORY_TO_GROUP cat = None).
Proof.
  rewrite map_categories_to_groups_unfold. cbv zeta.
  destruct (decide _) as [He|Hne].
  - rewrite list_elem_of_singleton. split.
    + intros ->. right. split; [done|]. intros cat Hcat.
      destruct (group_of CATEGORY_TO_GROUP cat) as [g'|] eqn:Hg; [|done].
      assert (g' ∈ (∅ : gset string)) as Hin; [|by apply elem_of_empty in Hin].
      rewrite <- He. apply elem_of_list_to_set, list_elem_of_omap. eauto.
    + intros [(cat & Hcat & Hg)|[-> _]]; [|done].
      assert (g ∈ (∅ : gset string)) as Hin; [|by apply elem_of_empty in Hin].
      rewrite <- He. apply elem_of_list_to_set, list_elem_of_omap. eauto.
  - rewrite elem_of_elements, elem_of_list_to_set, list_elem_of_omap. split.
    + intros (cat & Hcat & Hg). left. eauto.
    + intros [(cat & Hcat & Hg)|[-> Hnone]]; [eauto|].
      exfalso. apply Hne. apply set_eq. intros x.
      rewrite elem_of_list_to_set, list_elem_of_omap.
      split; [|by intros ?%elem_of_empty].
      intros (cat & Hcat & Hg). rewrite (Hnone cat Hcat) in Hg. done.
Qed.

Lemma map_categories_to_groups_NoDup (cats : list string) :
  NoDup (map_categories_to_groups cats).
Proof.
  rewrite map_categories_to_groups_unfold. cbv zeta.
  destruct (decide _); [apply NoDup_singleton|apply NoDup_elements].
Qed.

(** What is in the result depends on the categories as a set. *)
Lemma map_categories_to_groups_same_members (cats1 cats2 : list string) :
  (∀ cat, cat ∈ cats1 ↔ cat ∈ cats2) →
  ∀ g, g ∈ map_categories_to_groups cats1 ↔ g ∈ map_categories_to_groups cats2.
Proof.
  intros Hsame g. rewrite !map_categories_to_groups_unfold. cbv zeta.
  assert (Hgroups : ∀ x,
            x ∈ (list_to_set (omap (group_of CATEGORY_TO_GROUP) cats1) : gset string)
            ↔ x ∈ (list_to_set (omap (group_of CATEGORY_TO_GROUP) cats2) : gset string)).
  { intros x. rewrite !elem_of_list_to_set, !list_elem_of_omap.
    split; intros (cat & Hcat & Hg); exists cat; (split; [by apply Hsame|done]). }
  assert (Heq : (list_to_set (omap (group_of CATEGORY_TO_GROUP) cats1) : gset string)
                = list_to_set (omap (group_of CATEGORY_TO_GROUP) cats2))
    by (apply set_eq; exact Hgroups).
  by rewrite Heq.
Qed.

(** X2: the groups in the result depend on the categories as a set:
    neither their order nor repetitions change which groups are returned.
    The order of the result comes from [list(set)] and is not determined
    by the categories, so the two results agree up to the order of their
    items. *)
Theorem map_categories_to_groups_same_set (cats1 cats2 : list string) :
  (∀ cat, cat ∈ cats1 ↔ cat ∈ cats2) →
  map_categories_to_groups cats1 ≡ₚ map_categories_to_groups cats2.
Proof.
  intros Hsame. apply NoDup_Permutation.
  - apply map_categories_to_groups_NoDup.
  - apply map_categories_to_groups_NoDup.
  - by apply map_categories_to_groups_same_members.
Qed.

Lemma map_categories_to_groups_same_set_witness :
  map_categories_to_groups ["coal"; "steel"; "coal"]
  ≡ₚ map_categories_to_groups ["steel"; "coal"].
Proof.
  apply map_categories_to_groups_same_set. intros cat.
  rewrite !elem_of_cons, !elem_of_nil. tauto.
Defined.

Lemma lower_char_idemp (c : ascii) : lower_char (lower_char c) = lower_char c.
Proof. destruct c as [[] [] [] [] [] [] [] []]; reflexivity. Qed.

Lemma lower_idemp (s : string) : lower (lower s) = lower s.
Proof.
  induction s as [|c s IH]; [done|]. simpl. by rewrite lower_char_idemp, IH.
Qed.

Lemma group_of_lower table (cat : string) :
  group_of table (lower cat) = group_of table cat.
Proof.
  unfold group_of. rewrite lower_idemp.
  destruct cat; [done|]. done.
Qed.

(** X3: the mapping does not depend on the case of ASCII letters. *)
Theorem map_categories_to_groups_ignores_case (cats : list string) :
  map_categories_to_groups (lower <$> cats) = map_categories_to_groups cats.
Proof.
  rewrite !map_categories_to_groups_unfold. cbv zeta.
  assert (Heq : omap (group_of CATEGORY_TO_GROUP) (lower <$> cats)
                = omap (group_of CATEGORY_TO_GROUP) cats).
  { induction cats as [|cat cats IH]; [done|].
    rewrite fmap_cons. cbn [omap list_omap]. rewrite group_of_lower.
    change (list_omap _ _ ?f ?l) with (omap f l). by rewrite IH. }
  by rewrite Heq.
Qed.

(** X4: a category that is not empty but normalises to the empty string
    (blanks only) is taken for a substring of the first key of the table
    and so mapped to steel_export_group. *)
Theorem blank_category_maps_to_first_key (cat : string) :
  cat ≠ "" → strip (lower cat) = "" →
  group_of CATEGORY_TO_GROUP cat = Some steel_export_group
  ∧ map_categories_to_groups [cat] = [steel_export_group].
Proof.
  intros Hne Hblank.
  assert (Hg : group_of CATEGORY_TO_GROUP cat = Some steel_export_group).
  { unfold group_of. apply String.eqb_neq in Hne. rewrite Hne, Hblank.
    vm_compute. reflexivity. }
  split; [done|].
  rewrite map_categories_to_groups_unfold. cbn [omap list_omap]. rewrite Hg.
  cbv zeta. cbn [list_to_set]. rewrite (right_id_L ∅ (∪)).
  destruct (decide _) as [He|_]; [|apply elements_singleton].
  assert (steel_export_group ∈ (∅ : gset string)) as Hin
    by (rewrite <- He; by apply elem_of_singleton).
  by apply elem_of_empty in Hin.
Qed.

Lemma blank_category_maps_to_first_key_witness :
  map_categories_to_groups ["  "] = [steel_export_group].
Proof.
  apply (blank_category_maps_to_first_key "  "); [discriminate|].
  vm_compute. reflexivity.
Defined.

Lemma map_categories_to_groups_known (cats : list string) (g : string) :
  g ∈ map_categories_to_groups cats → g ∈ get_all_groups.
Proof.
  rewrite map_categories_to_groups_unfold. cbv zeta.
  destruct (decide _) as [_|_].
  - intros ->%list_elem_of_singleton. apply list_elem_of_In. simpl. tauto.
  - rewrite elem_of_elements, elem_of_list_to_set, list_elem_of_omap.
    intros (cat & _ & Hg). apply table_values_known. by eapply group_of_in.
Qed.

(** X5: every group the mapper returns has a description of its own in
    [get_group_description]; the text for unknown groups is never shown
    for a mapped group. *)
Theorem mapped_groups_are_described (cats : list string) (g : string) :
  g ∈ map_categories_to_groups cats →
  get_group_description g ≠ unknown_group
  ∧ ∃ text, lookup_key descriptions g = Some text.
Proof.
  intros Hg%map_categories_to_groups_known.
  apply list_elem_of_In in Hg. simpl in Hg.
  destruct Hg as [<-|[<-|[<-|[<-|[]]]]]; (split; [vm_compute; discriminate|]);
    eexists; vm_compute; reflexivity.
Qed.

Lemma mapped_groups_are_described_witness :
  get_group_description container_group ≠ unknown_group.
Proof.
  refine (proj1 (mapped_groups_are_described ["SCFI"; "teu"] container_group _)).
  vm_compute. left.
Defined.

End MapperMore.

(* ===================================================================== *)
(** * Further properties of ingestion *)
(* ===================================================================== *)

Section IngestionMore.
Import VectorStore.
Context {vec : Type}.
Implicit Types (E : env vec) (s : store vec) (doc : pydict).

Lemma add_batch_prefix E id_base i batch_docs (p : progress) :
  fst p `prefix_of` fst (add_batch E id_base i batch_docs p)
  ∧ default [] (snd p) `prefix_of` default [] (snd (add_batch E id_base i batch_docs p)).
Proof.
  unfold add_batch. destruct (process_batch _ _ _) as [|x b]; [done|].
  destruct (batch_faults E i); cbn [fst snd].
  - split; apply prefix_app_r; done.
  - done.
  - split; [by apply prefix_app_r|done].
Qed.

Lemma add_batches_prefix E id_base batch_size (fuel : nat) :
  ∀ i (rest : list pydict) (p : progress),
    fst p `prefix_of` fst (add_batches E id_base batch_size fuel i rest p)
    ∧ default [] (snd p)
      `prefix_of` default [] (snd (add_batches E id_base batch_size fuel i rest p)).
Proof.
  induction fuel as [|fuel IH]; intros i rest p; [done|].
  destruct rest as [|d rest]; [done|].
  cbn [add_batches].
  destruct (IH (i + batch_size)%nat (drop batch_size (d :: rest))
              (add_batch E id_base i (take batch_size (d :: rest)) p)) as [H1 H2].
  destruct (add_batch_prefix E id_base i (take batch_size (d :: rest)) p) as [H3 H4].
  split; etrans; done.
Qed.

Lemma splitlines_prefix (a b : list entry) :
  a `prefix_of` b → splitlines a `prefix_of` splitlines b.
Proof. intros [k ->]. rewrite splitlines_app. by apply prefix_app_r. Qed.

(** X6: [add_documents] only appends, whatever fails on the way: the
    metadata log it leaves starts with the log it found, the index it
    leaves starts with the vectors it could load, and the backup file is
    not touched. *)
Theorem add_documents_append_only E s (docs : list pyobj) (batch_size : nat) :
  let s' := fst (add_documents E s docs batch_size) in
  meta_lines_of s `prefix_of` meta_lines_of s'
  ∧ load_index E s `prefix_of` default [] (index_file s')
  ∧ backup_file s' = backup_file s.
Proof.
  assert (Hload : load_index E s `prefix_of` default [] (index_file s)).
  { unfold load_index. destruct (index_file s); [|done].
    destruct (read_index_fails E); [apply prefix_nil|done]. }
  cbv zeta. split; [|split; [|apply add_documents_backup]].
  - unfold add_documents, meta_lines_of.
    destruct docs as [|d docs]; [done|].
    destruct (valid_documents (d :: docs)) as [[|v valid]|]; [done| |done].
    destruct (match meta_file s with Some _ => read_meta E s | None => Ok [] end);
      [|done].
    destruct (batch_size =? 0)%nat; [done|].
    unfold save_index. destruct (save_index_fails E); cbn [fst meta_file].
    all: apply splitlines_prefix.
    all: apply (add_batches_prefix E _ _ _ _ _ (load_index E s, meta_file s)).
  - unfold add_documents.
    destruct docs as [|d docs]; [done|].
    destruct (valid_documents (d :: docs)) as [[|v valid]|]; [done| |done].
    destruct (match meta_file s with Some _ => read_meta E s | None => Ok [] end);
      [|done].
    destruct (batch_size =? 0)%nat; [done|].
    unfold save_index. destruct (save_index_fails E); cbn [fst index_file]; [done|].
    change (default [] (Some ?x)) with x.
    apply (add_batches_prefix E _ _ _ _ _ (load_index E s, meta_file s)).
Qed.

(** X7: with working storage, and when no record written holds a line
    separator (U+0085, U+2028, U+2029), a call adds as many vectors as
    metadata lines, also when documents are skipped; when moreover no
    validated document is skipped, an aligned store stays aligned: every
    new vector carries the position of its line as id. *)
Theorem add_documents_keeps_alignment E s (docs : list pydict) batch_size :
  batch_size ≠ 0%nat → storage_works E →
  Forall (on_one_line E) (List.filter validate_dict docs) →
  let s' := fst (add_documents E s (Dict <$> docs) batch_size) in
  (length (stored_ids s) = length (meta_lines_of s) →
   length (stored_ids s') = length (meta_lines_of s'))
  ∧ (Forall (embeddable E) (List.filter validate_dict docs) →
     aligned s → aligned s').
Proof.
  intros Hbs Hw Hone. cbv zeta. split.
  - by apply add_documents_counts.
  - intros Hemb. by apply add_documents_aligned.
Qed.

(** X8: when no document passes validation, [add_documents] returns
    normally and leaves every file as it was, whatever the batch size and
    whichever file operations would fail. *)
Theorem add_documents_nothing_valid E s (docs : list pydict) (batch_size : nat) :
  Forall (λ doc, validate_dict doc = false) docs →
  add_documents E s (Dict <$> docs) batch_size = (s, Ok tt).
Proof.
  intros Hbad. unfold add_documents. rewrite valid_documents_dicts.
  assert (Hnone : List.filter validate_dict docs = []).
  { induction Hbad as [|d l Hd _ IH]; [done|]. simpl. by rewrite Hd. }
  rewrite Hnone. by destruct docs.
Qed.

(** X9: when the metadata file cannot be written, the vectors of the
    batch still go into the index and are saved.  The call returns
    normally, the log is as before, and the index holds one vector more
    for every document of the batch. *)
Theorem metadata_write_failure_leaves_vectors E s (docs : list pydict)
    (batch_size : nat) :
  let valid := List.filter validate_dict docs in
  batch_faults E 0 = WriteFails →
  read_index_fails E = false → read_meta_fails E = false →
  save_index_fails E = false →
  valid ≠ [] → (length valid ≤ batch_size)%nat →
  Forall (embeddable E) valid →
  let r := add_documents E s (Dict <$> docs) batch_size in
  snd r = Ok tt
  ∧ meta_file (fst r) = meta_file s
  ∧ stored_ids (fst r)
    = stored_ids s
      ++ (Z.of_nat <$> seq (length (meta_lines_of s)) (length valid)).
Proof.
  intros valid Hwf Hri Hrm Hsv Hne Hlen Hemb. cbv zeta.
  unfold add_documents. rewrite valid_documents_dicts. fold valid.
  destruct docs as [|d0 docs0] eqn:Hdocs; [done|]. rewrite <- Hdocs.
  assert (Hdd : Dict <$> docs = Dict d0 :: (Dict <$> docs0)) by by rewrite Hdocs.
  rewrite Hdd. clear Hdd.
  destruct valid as [|v valid'] eqn:Hv; [done|].
  assert (Hmeta : match meta_file s with
                  | Some _ => read_meta E s
                  | None => Ok []
                  end = Ok (meta_lines_of s)).
  { unfold read_meta, meta_lines_of. rewrite Hrm. by destruct (meta_file s). }
  rewrite Hmeta.
  assert (Hbs : (batch_size =? 0)%nat = false).
  { apply Nat.eqb_neq. simpl in Hlen. lia. }
  rewrite Hbs. cbn [length add_batches].
  rewrite take_ge, drop_ge by done.
  assert (Hstop : ∀ fuel i p,
            add_batches E (length (meta_lines_of s)) batch_size fuel i [] p = p).
  { by intros [|fuel] i p. }
  rewrite Hstop. unfold add_batch. rewrite Nat.add_0_r, Hwf.
  destruct (process_batch_embeddable E (v :: valid') (length (meta_lines_of s)) Hemb)
    as [_ Hids].
  destruct (process_batch E _ (v :: valid')) as [|x b] eqn:Hpb; [done|].
  unfold save_index. rewrite Hsv. cbn [fst snd meta_file index_file].
  split; [done|]. split; [done|].
  unfold stored_ids. cbn [index_file]. change (default [] (Some ?x)) with x.
  rewrite fmap_app, Hids. f_equal.
  unfold load_index. rewrite Hri. by destruct (index_file s).
Qed.

End IngestionMore.

Section IngestionMoreExamples.
Import VectorStore Demo DemoWorlds.

Lemma add_documents_keeps_alignment_witness :
  aligned (fst (add_documents healthy one_doc_store (Dict <$> [na_doc; january]) 1)).
Proof.
  refine (proj2 (add_documents_keeps_alignment healthy one_doc_store
                   [na_doc; january] 1 _ _ _) _ _).
  - discriminate.
  - by repeat split.
  - apply on_one_line_forallb. vm_compute. reflexivity.
  - apply embeddable_forallb. vm_compute. reflexivity.
  - unfold aligned. vm_compute. reflexivity.
Defined.

Lemma add_documents_nothing_valid_witness :
  add_documents all_failing one_doc_store
    (Dict <$> [article "" "No title."; article "No summary" "None"]) 0
  = (one_doc_store, Ok tt).
Proof.
  apply add_documents_nothing_valid.
  repeat constructor.
Defined.

Lemma metadata_write_failure_leaves_vectors_witness :
  let r := add_documents meta_write_failing one_doc_store
             (Dict <$> [na_doc; january]) 50 in
  snd r = Ok tt
  ∧ meta_file (fst r) = meta_file one_doc_store
  ∧ stored_ids (fst r)
    = stored_ids one_doc_store
      ++ (Z.of_nat <$> seq (length (meta_lines_of one_doc_store))
                           (length (List.filter validate_dict [na_doc; january]))).
Proof.
  apply (metadata_write_failure_leaves_vectors meta_write_failing one_doc_store
           [na_doc; january] 50); try reflexivity.
  - discriminate.
  - vm_compute. lia.
  - apply embeddable_forallb. vm_compute. reflexivity.
Defined.

(** What a line separator does: a validated, embeddable document with
    U+2028 in its title leaves one vector beside two lines, and the next
    document is given the id 2. *)
Lemma line_separator_splits_the_record :
  let s1 := fst (add_documents healthy empty_store [Dict separator_doc] 50) in
  let s2 := fst (add_documents healthy s1 [Dict rates_doc] 50) in
  validate_dict separator_doc = true
  ∧ record_one_line (clean_meta healthy separator_doc) = false
  ∧ stored_ids s1 = [0%Z]
  ∧ length (meta_lines_of s1) = 2%nat
  ∧ stored_ids s2 = [0%Z; 2%Z].
Proof. repeat split; vm_compute; reflexivity. Qed.

End IngestionMoreExamples.

(* ===================================================================== *)
(** * Further properties of retrieval *)
(* ===================================================================== *)

Section RetrievalMore.
Import VectorStore CandidateLoop.
Context {vec : Type}.
Implicit Types (E : env vec) (s : store vec) (meta : pydict)
  (filters : filters_t) (hits : list pydict).

(** The loop of [search_articles] is a filter over the candidates that
    stops at [top_k] hits. *)
Lemma collect_hits_take E filters top_k threshold (meta_lines : list line)
    (candidates : list (Z * Q)) : ∀ hits,
  (Z.of_nat (length hits) < top_k)%Z →
  collect_hits E filters top_k threshold meta_lines candidates hits
  = take (Z.to_nat top_k)
      (hits ++ omap (candidate_hit E filters threshold meta_lines) candidates).
Proof.
  induction candidates as [|[doc_id score] rest IH]; intros hits Hlen.
  { simpl. rewrite app_nil_r, take_ge; [done|lia]. }
  pose proof (eq_refl (candidate_hit E filters threshold meta_lines (doc_id, score)))
    as Hcand.
  unfold candidate_hit at 1 in Hcand. cbn [fst snd] in Hcand.
  cbn [collect_hits omap list_omap].
  change (list_omap _ _ ?f ?l) with (omap f l).
  destruct ((doc_id =? -1)%Z || score_below E score threshold);
    [rewrite <- Hcand; by apply IH|].
  destruct (Z.of_nat (length meta_lines) <=? doc_id)%Z;
    [rewrite <- Hcand; by apply IH|].
  assert (Hgo : (top_k <=? Z.of_nat (length hits))%Z = false)
    by (apply Z.leb_gt; lia).
  destruct (py_index meta_lines doc_id) as [[raw| |meta]|];
    try (rewrite <- Hcand; by apply IH).
  { rewrite Hgo, <- Hcand. destruct (any_filter_active filters); by apply IH. }
  destruct (_apply_filters E meta filters); rewrite <- Hcand;
    [|rewrite Hgo; by apply IH].
  destruct (Z.leb_spec top_k (Z.of_nat (length (hits ++ [annotate meta score doc_id]))))
    as [Hfull|Hmore].
  - rewrite length_app in Hfull. simpl in Hfull.
    set (r := omap _ rest).
    replace (hits ++ annotate meta score doc_id :: r)
      with ((hits ++ [annotate meta score doc_id]) ++ r)
      by (by rewrite <- app_assoc).
    symmetry. apply take_app_length'. rewrite length_app. simpl. lia.
  - rewrite IH by done. by rewrite <- app_assoc.
Qed.

(** X10: for [top_k] of one or more, the loop collects exactly the first
    [top_k] acceptable candidates, in the order the index returned
    them. *)
Theorem collect_hits_first_top_k E filters top_k threshold
    (meta_lines : list line) (candidates : list (Z * Q)) :
  (1 ≤ top_k)%Z →
  collect_hits E filters top_k threshold meta_lines candidates []
  = take (Z.to_nat top_k)
      (omap (candidate_hit E filters threshold meta_lines) candidates).
Proof.
  intros Hk. rewrite collect_hits_take by (simpl; lia). done.
Qed.

Lemma candidate_hit_Some E filters threshold (meta_lines : list line) c x :
  candidate_hit E filters threshold meta_lines c = Some x →
  ∃ meta, x = annotate meta (snd c) (fst c)
    ∧ py_index meta_lines (fst c) = Some (Rec meta)
    ∧ score_below E (snd c) threshold = false
    ∧ fst c ≠ (-1)%Z
    ∧ (fst c < Z.of_nat (length meta_lines))%Z
    ∧ _apply_filters E meta filters = true.
Proof.
  unfold candidate_hit. destruct c as [doc_id score]. cbn [fst snd].
  destruct (Z.eqb_spec doc_id (-1)); [done|]. cbn [orb].
  destruct (score_below E score threshold) eqn:Hlt; [done|].
  destruct (Z.leb_spec (Z.of_nat (length meta_lines)) doc_id); [done|].
  destruct (py_index meta_lines doc_id) as [[raw| |meta]|]; try done.
  destruct (_apply_filters E meta filters) eqn:Hf; [|done].
  intros [= <-]. exists meta. repeat split; done.
Qed.

Lemma collect_hits_origin E filters top_k threshold (meta_lines : list line)
    (candidates : list (Z * Q)) : ∀ hits x,
  x ∈ collect_hits E filters top_k threshold meta_lines candidates hits →
  x ∈ hits
  ∨ ∃ c, c ∈ candidates
         ∧ candidate_hit E filters threshold meta_lines c = Some x.
Proof.
  induction candidates as [|[doc_id score] rest IH]; intros hits x.
  { by left. }
  assert (Hrest : x ∈ collect_hits E filters top_k threshold meta_lines rest hits →
                  x ∈ hits
                  ∨ ∃ c, c ∈ (doc_id, score) :: rest
                         ∧ candidate_hit E filters threshold meta_lines c = Some x).
  { intros [Hx|(c & Hc & Hx)]%IH; [by left|]. right. exists c.
    split; [by right|done]. }
  cbn [collect_hits].
  pose proof (eq_refl (candidate_hit E filters threshold meta_lines (doc_id, score)))
    as Hcand.
  unfold candidate_hit at 1 in Hcand. cbn [fst snd] in Hcand.
  destruct ((doc_id =? -1)%Z || score_below E score threshold); [done|].
  destruct (Z.of_nat (length meta_lines) <=? doc_id)%Z; [done|].
  destruct (py_index meta_lines doc_id) as [[raw| |meta]|]; try done.
  { destruct (any_filter_active filters); [|done].
    destruct (top_k <=? Z.of_nat (length hits))%Z; [by left|done]. }
  destruct (_apply_filters E meta filters).
  - assert (Hnew : ∀ y, y ∈ hits ++ [annotate meta score doc_id] →
              y ∈ hits
              ∨ ∃ c, c ∈ (doc_id, score) :: rest
                     ∧ candidate_hit E filters threshold meta_lines c = Some y).
    { intros y [Hy|Hy%list_elem_of_singleton]%elem_of_app; [by left|].
      right. exists (doc_id, score). split; [left|]. by rewrite Hy. }
    destruct (top_k <=? Z.of_nat (length (hits ++ _)))%Z; [apply Hnew|].
    intros [Hx|(c & Hc & Hx)]%IH; [by apply Hnew|].
    right. exists c. split; [by right|done].
  - destruct (top_k <=? Z.of_nat (length hits))%Z; [by left|done].
Qed.

(** The shape of a result, with the log the lines were read from. *)
Lemma search_articles_from_log E s query filters top_k threshold hits x :
  search_articles E s query filters top_k threshold = Ok hits →
  x ∈ hits →
  ∃ c, candidate_hit E filters threshold (meta_lines_of s) c = Some x.
Proof.
  unfold search_articles, search_body.
  destruct (ntotal (load_index E s) =? 0)%nat; simpl;
    [intros [= <-] Hx; by apply elem_of_nil in Hx|].
  destruct (embed_query E query) as [qv|]; simpl;
    [|intros [= <-] Hx; by apply elem_of_nil in Hx].
  destruct (index_search E _ _ _) as [candidates|]; simpl;
    [|intros [= <-] Hx; by apply elem_of_nil in Hx].
  destruct (meta_file s) as [lines|] eqn:Hmf; simpl;
    [|intros [= <-] Hx; by apply elem_of_nil in Hx].
  unfold read_meta. destruct (read_meta_fails E); simpl;
    [intros [= <-] Hx; by apply elem_of_nil in Hx|].
  unfold sort_hits.
  destruct (sort_keyed _) as [r|] eqn:Hs; simpl;
    [|intros [= <-] Hx; by apply elem_of_nil in Hx].
  intros [= <-] Hx. apply slice_upto_elem in Hx.
  destruct (sort_keyed_spec _ _ Hs) as (_ & Hp & _).
  rewrite Hp in Hx. rewrite Hmf in Hx. change (default [] (Some ?x)) with x in Hx.
  apply collect_hits_origin in Hx as [Hx|(c & _ & Hx)];
    [by apply elem_of_nil in Hx|].
  exists c. unfold meta_lines_of. by rewrite Hmf.
Qed.

(** X11: every hit of [search_articles] is a record of the metadata log
    as [splitlines] reads it, the one at the position the hit's [doc_id]
    names, with the candidate's score added; all other fields are those
    of the log's record.  The comparison the code makes did not find the
    score below the threshold, and where that comparison is exact the
    score is not below the threshold. *)
Theorem search_hits_come_from_the_log E s query filters top_k threshold hits :
  search_articles E s query filters top_k threshold = Ok hits →
  ∀ hit, hit ∈ hits →
    ∃ meta score doc_id,
      py_index (meta_lines_of s) doc_id = Some (Rec meta)
      ∧ hit !! "doc_id" = Some (PNum (inject_Z doc_id))
      ∧ hit !! "score" = Some (PNum score)
      ∧ score_below E score threshold = false
      ∧ ((∀ a, score_below E a threshold = float_lt a threshold) →
         (threshold <= score)%Q)
      ∧ (∀ key, key ≠ "score" → key ≠ "doc_id" → hit !! key = meta !! key).
Proof.
  intros Hs hit Hin.
  destruct (search_articles_from_log _ _ _ _ _ _ _ _ Hs Hin) as [[doc_id score] Hc].
  apply candidate_hit_Some in Hc as (meta & -> & Hline & Hthr & _ & _ & _).
  exists meta, score, doc_id. cbn [fst snd] in *.
  split; [done|]. split; [apply lookup_insert_eq|]. split; [apply annotate_score|].
  split; [done|]. split.
  { intros Hexact. rewrite Hexact in Hthr. unfold float_lt in Hthr.
    apply negb_false_iff in Hthr. by apply Qle_bool_iff in Hthr. }
  intros key H1 H2. by apply annotate_lookup.
Qed.

Lemma apply_filters_passes E meta filters :
  _apply_filters E meta filters = true →
  list_filter meta filters "events" = Ok true
  ∧ list_filter meta filters "category" = Ok true
  ∧ list_filter meta filters "assigned_group" = Ok true
  ∧ date_filter E meta filters = true.
Proof.
  unfold _apply_filters, apply_filters_body.
  destruct (list_filter meta filters "events") as [[]|]; simpl; try done.
  destruct (list_filter meta filters "category") as [[]|]; simpl; try done.
  destruct (list_filter meta filters "assigned_group") as [[]|]; simpl; try done.
Qed.

(** X12: the filters on events and on assigned groups work like the one
    on categories: under a non-empty list, every hit holds under that key
    a list that shares an element with the filter's. *)
Theorem group_and_event_filters_correct E s query filters top_k threshold hits
    (key : string) (wanted : list string) :
  key = "events" ∨ key = "assigned_group" →
  filters !! key = Some (FVal (PList wanted)) →
  wanted ≠ [] →
  search_articles E s query filters top_k threshold = Ok hits →
  ∀ hit, hit ∈ hits →
    ∃ l, hit !! key = Some (PList l) ∧ ∃ x, x ∈ l ∧ x ∈ wanted.
Proof.
  intros Hkey Hf Hne Hs hit Hin.
  destruct (search_articles_hit _ _ _ _ _ _ _ _ Hs Hin)
    as (meta & score & doc_id & -> & Hpass).
  apply apply_filters_passes in Hpass as (Hev & _ & Hgr & _).
  destruct Hkey as [->| ->]; rewrite annotate_lookup by done;
    by eapply list_filter_true.
Qed.

(** X13: under a date range, every hit has a date string that the date
    parser accepts and that lies within the range, both ends included; a
    record without a date, or with one that does not parse, is no hit. *)
Theorem date_range_filter_correct E s query filters top_k threshold hits
    (start_date end_date : Z) :
  filters !! "date_range" = Some (FDateRange start_date end_date) →
  search_articles E s query filters top_k threshold = Ok hits →
  ∀ hit, hit ∈ hits →
    ∃ d day, hit !! "date" = Some (PStr d)
             ∧ strptime E d = Some day
             ∧ (start_date ≤ day ≤ end_date)%Z.
Proof.
  intros Hf Hs hit Hin.
  destruct (search_articles_hit _ _ _ _ _ _ _ _ Hs Hin)
    as (meta & score & doc_id & -> & Hpass).
  apply apply_filters_passes in Hpass as (_ & _ & _ & Hd).
  rewrite annotate_lookup by done.
  unfold date_filter, filter_active in Hd. rewrite Hf in Hd.
  destruct (meta !! "date") as [v|]; [|done].
  change (default (PStr "") (Some v)) with v in Hd.
  destruct (truthy v); [|done]. destruct v as [|q|d|l]; try done.
  destruct (strptime E d) as [day|] eqn:Hday; [|done].
  exists d, day. split; [done|]. split; [done|]. lia.
Qed.

Lemma filter_inactive_passes meta filters key :
  filter_active filters key = false → list_filter meta filters key = Ok true.
Proof.
  unfold list_filter. intros ->. by destruct (filters !! key).
Qed.

(** X14: a filter whose value is falsy (an empty list, an empty string,
    None) is no filter: when none of the four filters is active, every
    record passes [_apply_filters]. *)
Theorem inactive_filters_pass_everything E meta filters :
  any_filter_active filters = false →
  _apply_filters E meta filters = true.
Proof.
  unfold any_filter_active. cbn [existsb]. rewrite orb_false_r.
  intros (Hev & (Hcat & (Hgr & Hdt)%orb_false_elim)%orb_false_elim)%orb_false_elim.
  unfold _apply_filters, apply_filters_body.
  rewrite !filter_inactive_passes by done. simpl.
  unfold date_filter. rewrite Hdt. by destruct (filters !! "date_range").
Qed.

End RetrievalMore.

Section RetrievalMoreExamples.
Import VectorStore CandidateLoop Demo DemoWorlds.

Lemma collect_hits_first_top_k_witness :
  collect_hits healthy ∅ 2 (1 # 10) (meta_lines_of grouped_store)
    three_candidates []
  = take (Z.to_nat 2)
      (omap (candidate_hit healthy ∅ (1 # 10) (meta_lines_of grouped_store))
            three_candidates).
Proof.
  apply (collect_hits_first_top_k healthy ∅ 2 (1 # 10)). lia.
Defined.

(** Above a threshold of 0.8 two of the three candidates remain; both are
    records of the log. *)
Lemma search_hits_come_from_the_log_witness :
  ∃ hits,
    search_articles (answering three_candidates) grouped_store "coal" ∅ 5 (8 # 10)
    = Ok hits
    ∧ hits = [annotate coal_group_meta (8 # 10) 1;
              annotate steel_group_meta (9 # 10) 0]
    ∧ Forall (λ hit, ∃ meta score doc_id,
                py_index (meta_lines_of grouped_store) doc_id = Some (Rec meta)
                ∧ hit !! "doc_id" = Some (PNum (inject_Z doc_id))
                ∧ hit !! "score" = Some (PNum score)
                ∧ (8 # 10 <= score)%Q) hits.
Proof.
  exists [annotate coal_group_meta (8 # 10) 1; annotate steel_group_meta (9 # 10) 0].
  assert (Hs : search_articles (answering three_candidates) grouped_store "coal"
                 ∅ 5 (8 # 10)
               = Ok [annotate coal_group_meta (8 # 10) 1;
                     annotate steel_group_meta (9 # 10) 0])
    by (vm_compute; reflexivity).
  split; [exact Hs|]. split; [reflexivity|].
  apply Forall_forall. intros hit Hin.
  destruct (search_hits_come_from_the_log _ _ _ _ _ _ _ Hs hit Hin)
    as (meta & score & doc_id & Hline & Hid & Hsc & _ & Hexact & _).
  exists meta, score, doc_id. repeat split; try done.
  apply Hexact. reflexivity.
Defined.

(** Filtered on the coal group, the search returns the coal record alone. *)
Lemma group_and_event_filters_correct_witness :
  ∃ hits,
    search_articles (answering three_candidates) grouped_store "coal"
      coal_group_filter 5 (1 # 10)
    = Ok hits
    ∧ hits = [annotate coal_group_meta (8 # 10) 1]
    ∧ Forall (λ hit, ∃ l, hit !! "assigned_group" = Some (PList l)
                          ∧ ∃ x, x ∈ l ∧ x ∈ ["coal_import_group"]) hits.
Proof.
  exists [annotate coal_group_meta (8 # 10) 1].
  assert (Hs : search_articles (answering three_candidates) grouped_store "coal"
                 coal_group_filter 5 (1 # 10)
               = Ok [annotate coal_group_meta (8 # 10) 1])
    by (vm_compute; reflexivity).
  split; [exact Hs|]. split; [reflexivity|].
  apply Forall_forall. intros hit Hin.
  refine (group_and_event_filters_correct _ _ _ coal_group_filter _ _ _
            "assigned_group" ["coal_import_group"] _ _ _ Hs hit Hin).
  - by right.
  - reflexivity.
  - discriminate.
Defined.

(** Of records dated the first, second and third of July, a range from
    the second to the third keeps the last two. *)
Lemma date_range_filter_correct_witness :
  ∃ hits,
    search_articles (calendar three_candidates) grouped_store "coal"
      july_filter 5 (1 # 10)
    = Ok hits
    ∧ hits = [annotate odd_meta (7 # 10) 2; annotate coal_group_meta (8 # 10) 1]
    ∧ Forall (λ hit, ∃ d day, hit !! "date" = Some (PStr d)
                              ∧ strptime (calendar three_candidates) d = Some day
                              ∧ (183 ≤ day ≤ 184)%Z) hits.
Proof.
  exists [annotate odd_meta (7 # 10) 2; annotate coal_group_meta (8 # 10) 1].
  assert (Hs : search_articles (calendar three_candidates) grouped_store "coal"
                 july_filter 5 (1 # 10)
               = Ok [annotate odd_meta (7 # 10) 2;
                     annotate coal_group_meta (8 # 10) 1])
    by (vm_compute; reflexivity).
  split; [exact Hs|]. split; [reflexivity|].
  apply Forall_forall. intros hit Hin.
  refine (date_range_filter_correct _ _ _ july_filter _ _ _ 183 184 _ Hs hit Hin).
  reflexivity.
Defined.

Lemma inactive_filters_pass_everything_witness :
  _apply_filters healthy odd_meta idle_filter = true.
Proof.
  apply inactive_filters_pass_everything. vm_compute. reflexivity.
Defined.

End RetrievalMoreExamples.

(* ===================================================================== *)
(** * Rebuilding a log that [add_documents] wrote *)
(* ===================================================================== *)

Section RebuildMore.
Import VectorStore.
Context {vec : Type}.
Implicit Types (E : env vec) (s : store vec) (doc : pydict).

Lemma clean_meta_title E doc :
  clean_meta E doc !! "title"
  = Some (PStr (py_str E (default (PStr "") (doc !! "title")))).
Proof. reflexivity. Qed.

Lemma clean_meta_summary E doc :
  clean_meta E doc !! "summary"
  = Some (PStr (py_str E (default (PStr "") (doc !! "summary")))).
Proof. reflexivity. Qed.

Lemma clean_meta_category E doc :
  clean_meta E doc !! "category" = Some (default (PList []) (doc !! "category")).
Proof. reflexivity. Qed.

Lemma clean_meta_assigned_group E doc :
  clean_meta E doc !! "assigned_group"
  = Some (default (PList []) (doc !! "assigned_group")).
Proof. reflexivity. Qed.

Lemma clean_meta_events E doc :
  clean_meta E doc !! "events" = Some (default (PList []) (doc !! "events")).
Proof. reflexivity. Qed.

Lemma clean_meta_source_url E doc :
  clean_meta E doc !! "source_url"
  = Some (PStr (py_str E (default (PStr "") (doc !! "source_url")))).
Proof. reflexivity. Qed.

Lemma clean_meta_source E doc :
  clean_meta E doc !! "source"
  = Some (PStr (py_str E (default (PStr "") (doc !! "source")))).
Proof. reflexivity. Qed.

Lemma clean_meta_date E doc :
  clean_meta E doc !! "date" = Some (default (PStr (today E)) (doc !! "date")).
Proof. reflexivity. Qed.

Lemma clean_meta_keywords E doc :
  clean_meta E doc !! "keywords" = Some (default (PList []) (doc !! "keywords")).
Proof. reflexivity. Qed.

(** Cleaning a cleaned record changes nothing. *)
Lemma clean_meta_idemp E doc : clean_meta E (clean_meta E doc) = clean_meta E doc.
Proof.
  unfold clean_meta at 1.
  rewrite clean_meta_title, clean_meta_summary, clean_meta_category,
    clean_meta_assigned_group, clean_meta_events, clean_meta_source_url,
    clean_meta_source, clean_meta_date, clean_meta_keywords.
  reflexivity.
Qed.

(** A validated document that is not skipped has a [str] title and a
    [str] summary. *)
Lemma valid_embeddable_strs E doc :
  validate_dict doc = true → embeddable E doc →
  ∃ t su, doc !! "title" = Some (PStr t) ∧ doc !! "summary" = Some (PStr su).
Proof.
  intros Hv [[[i v] l] Hp].
  apply process_doc_normalizes in Hp as (text & _ & Htext & _).
  unfold validate_dict in Hv. cbn [forallb] in Hv.
  rewrite andb_true_r in Hv. apply andb_true_iff in Hv as [Ht Hs].
  apply negb_true_iff, orb_false_elim in Ht as [Ht _].
  apply negb_true_iff, orb_false_elim in Hs as [Hs _].
  apply negb_false_iff in Ht, Hs. unfold get_truthy in Ht, Hs.
  unfold text_for_embed in Htext.
  destruct (doc !! "title") as [vt|]; [|done].
  destruct (doc !! "summary") as [vs|]; [|done].
  change (default (PStr "") (Some ?x)) with x in Htext.
  destruct (join_val " " (default (PList []) (doc !! "events"))) as [ev|];
    [|done].
  destruct (join_val " " (default (PList []) (doc !! "category"))) as [ca|];
    [|done].
  cbn [bind List.filter] in Htext. rewrite Ht, Hs in Htext.
  destruct vt as [|qt|t|lt]; try done.
  destruct vs as [|qs|su|ls]; try done.
  by exists t, su.
Qed.

Lemma clean_meta_text E doc t su :
  doc !! "title" = Some (PStr t) → doc !! "summary" = Some (PStr su) →
  text_for_embed (clean_meta E doc) = text_for_embed doc.
Proof.
  intros Ht Hs. unfold text_for_embed.
  rewrite clean_meta_title, clean_meta_summary, clean_meta_events,
    clean_meta_category, Ht, Hs.
  reflexivity.
Qed.

Lemma clean_meta_valid E doc t su :
  doc !! "title" = Some (PStr t) → doc !! "summary" = Some (PStr su) →
  validate_dict (clean_meta E doc) = validate_dict doc.
Proof.
  intros Ht Hs. unfold validate_dict, field_rejected, get_truthy.
  cbn [forallb].
  rewrite clean_meta_title, clean_meta_summary, Ht, Hs. reflexivity.
Qed.

Lemma clean_meta_embeddable E doc t su :
  doc !! "title" = Some (PStr t) → doc !! "summary" = Some (PStr su) →
  embeddable E doc → embeddable E (clean_meta E doc).
Proof.
  intros Ht Hs. unfold embeddable, process_doc.
  rewrite (clean_meta_text E doc t su Ht Hs).
  destruct (text_for_embed doc) as [text|]; [|done].
  destruct (String.eqb (strip text) ""); [done|].
  destruct (embed_query E text); [|done]. intros _. eauto.
Qed.

Lemma restore_records (metas : list pydict) :
  restore_documents (Rec <$> metas) = Dict <$> metas.
Proof.
  unfold restore_documents. induction metas as [|m metas IH]; [done|].
  rewrite !fmap_cons. cbn [omap list_omap]. f_equal. exact IH.
Qed.

Lemma filter_all {A} (f : A → bool) (l : list A) :
  Forall (λ x, f x = true) l → List.filter f l = l.
Proof.
  induction 1 as [|x l Hx _ IH]; [done|]. simpl. by rewrite Hx, IH.
Qed.

Lemma whole_written E (lines : list line) :
  whole <$> (written E <$> lines) = lines.
Proof.
  induction lines as [|l lines IH]; [done|].
  rewrite !fmap_cons, IH. by destruct l.
Qed.

(** X15: write, then rebuild.  A log of records that [add_documents]
    wrote for validated documents it could embed, none of them with a
    line separator in it, is restored by [rebuild_index] line for line
    when nothing fails, whatever the index was before: the rebuild reports
    success, the file is what it was, the new store is aligned, and no
    backup is left. *)
Theorem rebuild_restores_written_log E s (docs : list pydict) :
  storage_works E →
  unlink_index_fails E = false → rename_meta_fails E = false →
  unlink_backup_fails E = false →
  docs ≠ [] →
  Forall (λ doc, validate_dict doc = true) docs →
  Forall (embeddable E) docs →
  Forall (on_one_line E) docs →
  meta_file s = Some ((λ doc, written E (Rec (clean_meta E doc))) <$> docs) →
  ∃ s', rebuild_index E s = (s', true)
        ∧ meta_file s' = meta_file s
        ∧ meta_lines_of s' = (λ doc, Rec (clean_meta E doc)) <$> docs
        ∧ aligned s'
        ∧ length (stored_ids s') = length docs
        ∧ backup_file s' = None.
Proof.
  intros Hw Hul Hrn Hub Hne Hvalid Hemb Hone Hmeta.
  set (cleaned := clean_meta E <$> docs).
  assert (Hlines : (λ doc, written E (Rec (clean_meta E doc))) <$> docs
                   = written E <$> (Rec <$> cleaned)).
  { unfold cleaned. rewrite <- !list_fmap_compose. done. }
  assert (Hstrs : Forall (λ doc, ∃ t su, doc !! "title" = Some (PStr t)
                                        ∧ doc !! "summary" = Some (PStr su)) docs).
  { apply Forall_forall. intros doc Hin. rewrite Forall_forall in Hvalid, Hemb.
    eapply valid_embeddable_strs; eauto. }
  assert (Hcvalid : List.filter validate_dict cleaned = cleaned).
  { apply filter_all. unfold cleaned. apply Forall_fmap, Forall_forall.
    intros doc Hin. rewrite Forall_forall in Hvalid, Hstrs.
    destruct (Hstrs doc Hin) as (t & su & Ht & Hs). simpl.
    rewrite (clean_meta_valid E doc t su Ht Hs). by apply Hvalid. }
  assert (Hcemb : Forall (embeddable E) cleaned).
  { unfold cleaned. apply Forall_fmap, Forall_forall.
    intros doc Hin. rewrite Forall_forall in Hemb, Hstrs.
    destruct (Hstrs doc Hin) as (t & su & Ht & Hs). simpl.
    apply (clean_meta_embeddable E doc t su Ht Hs). by apply Hemb. }
  assert (Hcone : Forall (on_one_line E) cleaned).
  { unfold cleaned. apply Forall_fmap, Forall_forall.
    intros doc Hin. rewrite Forall_forall in Hone. simpl.
    unfold on_one_line. rewrite clean_meta_idemp. by apply Hone. }
  assert (Hagain : (λ doc, Rec (clean_meta E doc)) <$> cleaned = Rec <$> cleaned).
  { unfold cleaned. rewrite <- !list_fmap_compose. apply list_fmap_ext.
    intros i doc _. simpl. by rewrite clean_meta_idemp. }
  assert (Hrecs : Rec <$> cleaned = (λ doc, Rec (clean_meta E doc)) <$> docs).
  { unfold cleaned. by rewrite <- list_fmap_compose. }
  destruct (process_batch_embeddable E cleaned 0 Hcemb) as [Hm Hi].
  rewrite Hagain in Hm.
  pose proof (process_batch_one_line E cleaned 0 Hcone) as Hsplit.
  rewrite Hm in Hsplit.
  assert (Hcne : cleaned ≠ []) by (unfold cleaned; by destruct docs).
  assert (Hclen : length cleaned = length docs) by (unfold cleaned; apply length_fmap).
  unfold rebuild_index. rewrite Hmeta, Hlines.
  assert (Hunlink : match index_file s with
                    | Some _ => unlink_index_fails E
                    | None => false
                    end = false) by (rewrite Hul; by destruct (index_file s)).
  rewrite Hunlink. destruct Hw as (Hri & Hrm & Hsv & Hbf).
  unfold iter_meta at 1. rewrite Hrm. cbn [meta_file].
  change (default [] (Some ?x)) with x.
  rewrite whole_written, restore_records.
  destruct (Dict <$> cleaned) as [|d0 ds] eqn:Hd;
    [by apply fmap_nil_inv in Hd|]. rewrite <- Hd. clear Hd d0 ds.
  rewrite Hrn.
  rewrite add_documents_no_fault by (done || by repeat split).
  rewrite Hcvalid. destruct cleaned as [|c0 cs] eqn:Hc; [done|]. rewrite <- Hc in *.
  change (length (meta_lines_of
            (Store None None (Some (written E <$> (Rec <$> cleaned))))))
    with 0%nat.
  rewrite Hub. eexists. split; [reflexivity|].
  unfold aligned, stored_ids, meta_lines_of. cbn [meta_file index_file backup_file].
  destruct (process_batch E 0 cleaned) as [|x b] eqn:Hpb.
  { rewrite Hc in Hm. done. }
  unfold appended. cbn [fst snd]. change (default [] (Some ?x)) with x.
  cbn [from_option]. rewrite !app_nil_l, Hm, Hsplit, Hi, <- Hrecs.
  rewrite !length_fmap, Hclen, length_seq.
  done.
Qed.

End RebuildMore.

Section RebuildMoreExamples.
Import VectorStore Demo.

(** The store that a skipped document left misaligned (one vector with id
    1 beside one line) is aligned again by a rebuild. *)
Lemma rebuild_restores_written_log_witness :
  let broken :=
    fst (add_documents healthy empty_store [Dict blank_doc; Dict rates_doc] 50) in
  ¬ aligned broken
  ∧ ∃ s', rebuild_index healthy broken = (s', true)
          ∧ meta_file s' = meta_file broken
          ∧ meta_lines_of s'
            = (λ doc, Rec (clean_meta healthy doc)) <$> [rates_doc]
          ∧ aligned s'
          ∧ length (stored_ids s') = length [rates_doc]
          ∧ backup_file s' = None.
Proof.
  split; [unfold aligned; vm_compute; discriminate|].
  apply (rebuild_restores_written_log healthy _ [rates_doc]).
  - by repeat split.
  - reflexivity.
  - reflexivity.
  - reflexivity.
  - discriminate.
  - repeat constructor.
  - apply embeddable_forallb. vm_compute. reflexivity.
  - apply on_one_line_forallb. vm_compute. reflexivity.
  - vm_compute. reflexivity.
Defined.

End RebuildMoreExamples.

(* ===================================================================== *)
(** * Further properties of the answer chain *)
(* ===================================================================== *)

Section RelevanceProps.
Import VectorStore RagChain.

(** The order [sorted(..., reverse=True)] establishes on numeric keys. *)
Definition not_less (a b : Q * pydict) : Prop := (fst b <= fst a)%Q.

Lemma float_lt_spec (a b : Q) :
  if float_lt a b then (a < b)%Q else (b <= a)%Q.
Proof.
  unfold float_lt. destruct (Qle_bool b a) eqn:H; simpl.
  - by apply Qle_bool_iff.
  - apply Qnot_le_lt. intros Hle. apply Qle_bool_iff in Hle. congruence.
Qed.

Lemma insert_by_score_spec (kx : Q) (x : pydict) (l : list (Q * pydict)) :
  StronglySorted not_less l →
  StronglySorted not_less (insert_by_score kx x l)
  ∧ insert_by_score kx x l ≡ₚ (kx, x) :: l.
Proof.
  induction l as [|[ky y] l IH]; intros Hs; simpl.
  { split; [|done]. repeat constructor. }
  apply StronglySorted_inv in Hs as [Hs Hy].
  pose proof (float_lt_spec kx ky) as Hc.
  destruct (float_lt kx ky).
  - destruct (IH Hs) as [Hs' Hp]. split.
    + constructor; [done|]. rewrite Hp. constructor; [|done].
      unfold not_less. simpl. by apply Qlt_le_weak.
    + rewrite Hp. apply perm_swap.
  - split; [|done]. constructor; [by constructor|].
    constructor; [done|].
    eapply Forall_impl; [exact Hy|]. intros z Hz. unfold not_less in *.
    simpl in *. by eapply Qle_trans.
Qed.

(** X16: the hits of a search can always be ranked for a user whose
    groups are a list, and [build_context_from_search] ranks them by
    relevance: the ranking is a rearrangement of the hits, each with its
    relevance score (the similarity score plus 0.1 for every group shared
    with the user), and no hit stands before one of higher relevance. *)
Theorem context_ranks_by_relevance (groups : list string) (hits : list pydict) :
  (∀ x, x ∈ hits → ∃ sc, x !! "score" = Some (PNum sc)) →
  ∃ r, sort_by_relevance (PList groups) hits = Ok r
       ∧ snd <$> r ≡ₚ hits
       ∧ Forall (λ p, relevance_score (PList groups) (snd p) = Ok (fst p)) r
       ∧ StronglySorted not_less r.
Proof.
  induction hits as [|x hits IH]; intros Hsc.
  { exists []. split; [done|]. split; [done|]. split; constructor. }
  destruct (Hsc x) as [sc Hx]; [left|].
  destruct (relevance_score_ok groups x sc Hx) as [q Hq].
  destruct IH as (r & Hr & Hp & Hk & Hs). { intros y Hy. apply Hsc. by right. }
  destruct (insert_by_score_spec q x r Hs) as [Hs' Hp'].
  exists (insert_by_score q x r). simpl. rewrite Hq, Hr. simpl.
  split; [done|]. split; [by rewrite Hp', <- Hp|].
  split; [|done]. rewrite Hp'. by constructor.
Qed.

End RelevanceProps.

Section AnswerMore.
Import VectorStore RagChain Warnings.
Context {vec : Type}.
Variable E : env vec.
Variable svc : services.
Implicit Types (s : store vec) (user_meta : pyobj).

Lemma search_without_embedding s query filters top_k threshold e :
  embed_query E query = Raise e →
  search_articles E s query filters top_k threshold = Ok [].
Proof.
  intros He. unfold search_articles, search_body.
  destruct (ntotal (load_index E s) =? 0)%nat; [done|]. by rewrite He.
Qed.

(** X17: retrieval failing is no failure of the answer.  When the
    embedding service is down and the LLM answers, [build_answer] returns
    the LLM's text, stripped, followed by the warning that no related news
    was found; no source list and no error text. *)
Theorem build_answer_without_retrieval s query user_meta e (content : string) :
  groups_listed user_meta →
  embed_query E query = Raise e →
  (∀ system_message user_message,
     chat_completion svc system_message user_message = Ok (Some content)) →
  build_answer E svc s query user_meta
  = Ok (strip content +:+ nl +:+ nl
        +:+ "⚠️ *관련 최신 뉴스가 없어 일반적인 지식을 바탕으로 답변했습니다.*").
Proof.
  intros (m & -> & Hg) He Hllm. unfold build_answer, build_answer_body.
  unfold analyze_query_intent, meta_get. cbn [bind].
  set (groups := default (PList []) (m !! "groups")).
  assert (Hgl : ∃ g, groups = PList g).
  { subst groups. destruct Hg as [->|[g ->]]; simpl; eauto. }
  destruct Hgl as [g Hgl].
  rewrite (search_without_embedding s query _ _ _ e He). cbn [bind].
  unfold build_context_from_search. cbn [bind].
  unfold build_system_message, meta_get. cbn [bind]. fold groups. rewrite Hgl.
  cbn [join_val bind]. rewrite Hllm. cbn [bind].
  unfold format_sources, quality_warnings. cbn [length Nat.eqb].
  rewrite andb_false_r, app_nil_r, append_empty_r. reflexivity.
Qed.

Lemma latest_date_cons (r : pydict) (rest : list pydict) :
  latest_date E (r :: rest)
  = match rest with
    | [] => result_date E r
    | _ => let! d := result_date E r in
           let! m := latest_date E rest in
           Ok (Z.max d m)
    end.
Proof. by destruct rest. Qed.

(** The latest date exists when every date parses, and is then the
    greatest of them. *)
Lemma latest_date_ok (results : list pydict) (m : Z) :
  latest_date E results = Ok m →
  results ≠ []
  ∧ (∀ r, r ∈ results → ∃ d, result_date E r = Ok d ∧ (d ≤ m)%Z)
  ∧ ∃ r, r ∈ results ∧ result_date E r = Ok m.
Proof.
  revert m. induction results as [|r rest IH]; intros m; [done|].
  rewrite latest_date_cons. destruct rest as [|r' rest'].
  - intros Hr. split; [done|]. split.
    + intros x ->%list_elem_of_singleton. exists m. split; [done|lia].
    + exists r. split; [left|done].
  - destruct (result_date E r) as [d|] eqn:Hd; [|done]. cbn [bind].
    destruct (latest_date E (r' :: rest')) as [m'|] eqn:Hm; [|done]. cbn [bind].
    intros [= <-]. destruct (IH m' eq_refl) as (_ & Hall & (x & Hx & Hxm)).
    split; [done|]. split.
    + intros y [->|Hy]%elem_of_cons.
      * exists d. split; [done|lia].
      * destruct (Hall y Hy) as (dy & Hdy & Hle). exists dy. split; [done|lia].
    + destruct (Z.max_spec d m') as [[_ ->]|[_ ->]].
      * exists x. split; [by right|done].
      * exists r. split; [left|done].
Qed.

Lemma latest_date_fails (results : list pydict) e :
  latest_date E results = Raise e →
  results = [] ∨ ∃ r e', r ∈ results ∧ result_date E r = Raise e'.
Proof.
  revert e. induction results as [|r rest IH]; intros e; [by left|].
  rewrite latest_date_cons. intros Hl. right. destruct rest as [|r' rest'].
  - exists r, e. split; [left|done].
  - destruct (result_date E r) as [d|e1] eqn:Hd.
    + cbn [bind] in Hl.
      destruct (latest_date E (r' :: rest')) as [m'|e2] eqn:Hm; [done|].
      destruct (IH e2 eq_refl) as [|(x & e' & Hx & Hxe)]; [done|].
      exists x, e'. split; [by right|done].
    + exists r, e1. split; [left|done].
Qed.

(** The freshness check of [build_answer], lines 276-285: it warns
    exactly when every date parses and every result is more than seven
    days old. *)
Lemma stale_warning_cases (results : list pydict) :
  (stale_warning E svc results = [stale_text]
   ∨ stale_warning E svc results = [])
  ∧ (stale_warning E svc results ≠ []
     ↔ results ≠ []
       ∧ ∀ r, r ∈ results →
           ∃ d, result_date E r = Ok d
                ∧ (7 * day_us < now_us svc - d * day_us)%Z).
Proof.
  unfold stale_warning.
  destruct (latest_date E results) as [m|e] eqn:Hl.
  - destruct (latest_date_ok results m Hl) as (Hne & Hall & (x & Hx & Hxm)).
    destruct (Z.ltb_spec (7 * day_us) (now_us svc - m * day_us)) as [Hold|Hnew].
    + split; [by left|]. split; [|done]. intros _. split; [done|].
      intros r Hr. destruct (Hall r Hr) as (d & Hd & Hle). exists d.
      split; [done|]. unfold day_us in *. lia.
    + split; [by right|]. split; [done|]. intros (_ & Hevery).
      destruct (Hevery x Hx) as (d & Hd & Hlt). rewrite Hxm in Hd.
      injection Hd as <-. lia.
  - split; [by right|]. split; [done|]. intros (Hne & Hevery).
    destruct (latest_date_fails results e Hl) as [|(x & e' & Hx & Hxe)]; [done|].
    destruct (Hevery x Hx) as (d & Hd & _). rewrite Hxe in Hd. done.
Qed.

(** X27: among the quality warnings that [build_answer] adds to an
    answer, the staleness warning occurs exactly when the query asks for
    recent information, there are results, every result has a date that
    parses, and every result is more than seven days old.  One result
    whose date does not parse silences the warning, however old the
    others are. *)
Theorem stale_warning_spec (query_intent : intent) (results : list pydict) :
  stale_text ∈ quality_warnings E svc query_intent results
  ↔ requires_recent_data query_intent = true
    ∧ results ≠ []
    ∧ ∀ r, r ∈ results →
        ∃ d, result_date E r = Ok d
             ∧ (7 * day_us < now_us svc - d * day_us)%Z.
Proof.
  destruct (stale_warning_cases results) as [Hcases Hiff].
  unfold quality_warnings. rewrite elem_of_app.
  assert (Hcount : ¬ stale_text ∈
            (if (length results =? 0)%nat
             then ["⚠️ *관련 최신 뉴스가 없어 일반적인 지식을 바탕으로 답변했습니다.*"]
             else if (length results <? 3)%nat
             then ["⚠️ *제한적인 정보를 바탕으로 작성된 답변입니다.*"]
             else [])).
  { destruct (length results =? 0)%nat; [|destruct (length results <? 3)%nat].
    - intros H%list_elem_of_singleton. vm_compute in H. discriminate.
    - intros H%list_elem_of_singleton. vm_compute in H. discriminate.
    - by intros ?%elem_of_nil. }
  split.
  - intros [H|H]; [done|].
    destruct (requires_recent_data query_intent); cbn [andb] in H;
      [|by apply elem_of_nil in H].
    destruct results as [|r0 rest]; [by apply elem_of_nil in H|].
    split; [done|]. apply Hiff. intros Hnil. rewrite Hnil in H.
    by apply elem_of_nil in H.
  - intros (Hrecent & Hne & Hall). right. rewrite Hrecent. cbn [andb].
    destruct results as [|r0 rest]; [done|].
    destruct Hcases as [->|Hnil]; [left|].
    exfalso. by apply (proj2 Hiff).
Qed.

End AnswerMore.

Section AnswerMoreExamples.
Import VectorStore RagChain Warnings Demo DemoWorlds.

(** For a user of the coal group, the coal record (similarity 0.85) is
    ranked before the steel record (similarity 0.9). *)
Lemma context_ranks_by_relevance_witness :
  ∃ r, sort_by_relevance (PList ["coal_import_group"])
         [annotate steel_group_meta (9 # 10) 0; annotate coal_group_meta (85 # 100) 1]
       = Ok r
       ∧ snd <$> r = [annotate coal_group_meta (85 # 100) 1;
                      annotate steel_group_meta (9 # 10) 0].
Proof.
  destruct (context_ranks_by_relevance ["coal_import_group"]
              [annotate steel_group_meta (9 # 10) 0;
               annotate coal_group_meta (85 # 100) 1]) as (r & Hr & _).
  - intros x [->|[->|[]%elem_of_nil]%elem_of_cons]%elem_of_cons;
      eexists; apply annotate_score.
  - exists r. split; [exact Hr|].
    assert (Hc : sort_by_relevance (PList ["coal_import_group"])
                   [annotate steel_group_meta (9 # 10) 0;
                    annotate coal_group_meta (85 # 100) 1]
                 = Ok [((85 # 100) + inject_Z 1 * (1 # 10),
                         annotate coal_group_meta (85 # 100) 1);
                       ((9 # 10) + inject_Z 0 * (1 # 10),
                         annotate steel_group_meta (9 # 10) 0)]%Q)
      by (vm_compute; reflexivity).
    rewrite Hc in Hr. injection Hr as <-. reflexivity.
Defined.

Lemma build_answer_without_retrieval_witness :
  build_answer embedding_down llm_up one_doc_store "What is BDI?" analyst
  = Ok ("BDI is the Baltic Dry Index." +:+ nl +:+ nl
        +:+ "⚠️ *관련 최신 뉴스가 없어 일반적인 지식을 바탕으로 답변했습니다.*").
Proof.
  rewrite (build_answer_without_retrieval embedding_down llm_up one_doc_store
             "What is BDI?" analyst
             (Exn "APIConnectionError" "Connection error.")
             " BDI is the Baltic Dry Index. ").
  - vm_compute. reflexivity.
  - eexists. split; [reflexivity|]. right. eexists. vm_compute. reflexivity.
  - reflexivity.
  - intros. reflexivity.
Defined.

(** Two records of the first days of July, seen on the 200th day of the
    year by a query that asks for recent news, are stale. *)
Lemma stale_warning_spec_witness :
  stale_text ∈ quality_warnings (calendar []) late_clock
                 (Intent "general" "normal" "general" true "high")
                 [steel_group_meta; coal_group_meta].
Proof.
  apply (proj2 (stale_warning_spec (calendar []) late_clock
                  (Intent "general" "normal" "general" true "high")
                  [steel_group_meta; coal_group_meta])).
  split; [reflexivity|]. split; [discriminate|].
  intros r [->|[->|[]%elem_of_nil]%elem_of_cons]%elem_of_cons.
  - exists 182%Z. split; [vm_compute; reflexivity|]. vm_compute. reflexivity.
  - exists 183%Z. split; [vm_compute; reflexivity|]. vm_compute. reflexivity.
Defined.

End AnswerMoreExamples.

(* ===================================================================== *)
(** * Properties of the article analyzer *)
(* ===================================================================== *)

Section AnalyzerProps.
Import CategoryMapper Analyzer.
Implicit Types (svc : services) (article result : jdict).

Lemma map_categories_to_groups_nonempty (cats : list string) :
  map_categories_to_groups cats ≠ [].
Proof.
  rewrite map_categories_to_groups_unfold. cbv zeta.
  destruct (decide _) as [|Hne]; [done|].
  intros He. apply Hne. apply elements_empty_iff in He. by apply leibniz_equiv.
Qed.

Lemma str_list_truthy (l : list string) : l ≠ [] → jtruthy (str_list l) = true.
Proof. by destruct l. Qed.

Lemma result_of_lookups title cats group evs summ article :
  let r := result_of title cats group evs summ article in
  r !! "title" = Some title
  ∧ r !! "category" = Some cats
  ∧ r !! "assigned_group" = Some group
  ∧ r !! "events" = Some evs
  ∧ r !! "summary" = Some summ
  ∧ r !! "source_url" = Some (default (JStr "") (article !! "url"))
  ∧ r !! "source" = Some (default (JStr "") (article !! "source"))
  ∧ r !! "date" = Some (default (JStr "") (article !! "date"))
  ∧ r !! "keywords" = Some (default (JList []) (article !! "keywords")).
Proof. repeat split; reflexivity. Qed.

(** The shape of what the [try] block returns. *)
Lemma analyze_article_body_shape svc article r :
  analyze_article_body svc article = Ok r →
  ∃ a group,
    r = result_of (default (JStr "") (article !! "title"))
          (str_list (category a)) group (str_list (events a))
          (JStr (summary a)) article
    ∧ jtruthy group = true
    ∧ (analyze_article_with_retry svc article = Some a
       ∨ analyze_article_with_retry svc article = None
         ∧ create_fallback_result article = Ok a).
Proof.
  unfold analyze_article_body.
  destruct (negb (validate_article_input svc article)); [done|].
  destruct (negb (sliceable _)); [done|].
  assert (Hsrc : (∃ a,
    match analyze_article_with_retry svc article with
    | Some r => Ok r
    | None => create_fallback_result article
    end = Ok a
    ∧ (analyze_article_with_retry svc article = Some a
       ∨ analyze_article_with_retry svc article = None
         ∧ create_fallback_result article = Ok a))
    ∨ ∃ e, match analyze_article_with_retry svc article with
           | Some r => Ok r
           | None => create_fallback_result article
           end = Raise e).
  { destruct (analyze_article_with_retry svc article) as [a|].
    - left. exists a. split; [done|by left].
    - destruct (create_fallback_result article) as [a|e].
      + left. exists a. split; [done|by right].
      + right. by exists e. }
  destruct Hsrc as [(a & -> & Hsrc)|(e & ->)]; [|done].
  cbn [bind]. intros [= <-]. exists a. eexists. split; [reflexivity|].
  split; [|done].
  destruct (jtruthy (assigned_group a)) eqn:Hg; cbn [negb].
  - by destruct (assigned_group a).
  - apply str_list_truthy, map_categories_to_groups_nonempty.
Qed.

(** The shape of what the [except] branch returns. *)
Lemma minimal_result_shape article r :
  minimal_result article = Ok r →
  ∃ shown,
    r = result_of (default (JStr "") (article !! "title")) (JList [])
          (str_list [general_group]) (JList []) shown article
    ∧ ∃ n, py_len shown = Ok n.
Proof.
  unfold minimal_result.
  destruct (default (JStr "") (article !! "content")) as [|b|q|c|l|m] eqn:Hc;
    cbn [py_len bind]; try done.
  - destruct (200 <? length (chars c))%nat; cbn [bind]; intros [= <-];
      eexists; (split; [reflexivity|]); cbn [py_len]; eauto.
  - destruct (200 <? length l)%nat; cbn [bind]; [done|]. intros [= <-].
    eexists; (split; [reflexivity|]); cbn [py_len]; eauto.
  - destruct (200 <? length m)%nat; cbn [bind]; [done|]. intros [= <-].
    eexists; (split; [reflexivity|]); cbn [py_len]; eauto.
Qed.

Lemma analyze_article_on_str_content svc article :
  (article !! "content" = None ∨ ∃ c, article !! "content" = Some (JStr c)) →
  ∃ r, analyze_article svc article = Ok r.
Proof.
  intros Hc. unfold analyze_article.
  destruct (analyze_article_body svc article) as [r|e]; [eauto|].
  unfold minimal_result.
  assert (Hstr : ∃ c, default (JStr "") (article !! "content") = JStr c).
  { destruct Hc as [->|[c ->]]; simpl; eauto. }
  destruct Hstr as [c ->]. cbn [py_len bind].
  destruct (200 <? length (chars c))%nat; cbn [bind]; eauto.
Qed.

(** X18: [analyze_article] returns a result, whatever the LLM and the
    JSON decoder do, for every article whose content is a [str] or is
    missing. *)
Theorem analyze_article_returns svc article :
  (article !! "content" = None ∨ ∃ c, article !! "content" = Some (JStr c)) →
  ∃ r, analyze_article svc article = Ok r.
Proof. apply analyze_article_on_str_content. Qed.

(** X19: the last resort can fail.  For an article whose content is
    present but falsy and has no length ([None], 0, [False]),
    [analyze_article] raises the TypeError of [len]: validation fails, and
    the handler that builds the minimal result measures the content. *)
Theorem analyze_article_raises_on_unsized_content svc article v e :
  article !! "content" = Some v →
  jtruthy v = false →
  py_len v = Raise e →
  analyze_article svc article = Raise e.
Proof.
  intros Hc Hf Hlen. unfold analyze_article, analyze_article_body.
  assert (Hval : validate_article_input svc article = false).
  { unfold validate_article_input. cbn [forallb].
    unfold field_ok at 2. rewrite Hc, Hf. cbn [andb]. by rewrite andb_false_r. }
  rewrite Hval. cbn [negb]. unfold minimal_result. rewrite Hc.
  change (default (JStr "") (Some v)) with v. by rewrite Hlen.
Qed.

(** X20: every result of [analyze_article] carries the article's own
    title, URL, source, date and keywords (the defaults when missing), and
    an assigned group that is never empty. *)
Theorem analyze_article_result_shape svc article r :
  analyze_article svc article = Ok r →
  r !! "title" = Some (default (JStr "") (article !! "title"))
  ∧ r !! "source_url" = Some (default (JStr "") (article !! "url"))
  ∧ r !! "source" = Some (default (JStr "") (article !! "source"))
  ∧ r !! "date" = Some (default (JStr "") (article !! "date"))
  ∧ r !! "keywords" = Some (default (JList []) (article !! "keywords"))
  ∧ ∃ group, r !! "assigned_group" = Some group ∧ jtruthy group = true.
Proof.
  unfold analyze_article.
  destruct (analyze_article_body svc article) as [r'|e] eqn:Hb.
  - intros [= <-].
    apply analyze_article_body_shape in Hb as (a & group & -> & Hg & _).
    destruct (result_of_lookups (default (JStr "") (article !! "title"))
                (str_list (category a)) group (str_list (events a))
                (JStr (summary a)) article)
      as (H1 & _ & H3 & _ & _ & H6 & H7 & H8 & H9).
    repeat (split; [done|]). eauto.
  - intros (shown & -> & _)%minimal_result_shape.
    destruct (result_of_lookups (default (JStr "") (article !! "title"))
                (JList []) (str_list [general_group]) (JList []) shown article)
      as (H1 & _ & H3 & _ & _ & H6 & H7 & H8 & H9).
    repeat (split; [done|]). eauto.
Qed.

Lemma keep_names_kept (l : list jval) : Forall kept_name (keep_names l).
Proof.
  unfold keep_names. induction l as [|v l IH]; [constructor|].
  cbn [omap list_omap]. change (list_omap _ _ ?f ?l) with (omap f l).
  destruct v as [|b|q|x|l'|m]; try exact IH.
  destruct (negb (String.eqb (strip x) "")) eqn:Hne; cbn [andb]; [|exact IH].
  destruct (bool_decide (lower (strip x) ∈ ["none"; ""])) eqn:Hin;
    cbn [negb]; [exact IH|].
  constructor; [|exact IH]. split.
  - apply negb_true_iff in Hne. by apply String.eqb_neq in Hne.
  - apply bool_decide_eq_false in Hin. intros Heq. apply Hin.
    rewrite Heq. left.
Qed.

(** X21: what [parse_gpt_output] accepts is clean: the summary has at
    least ten characters and is none of the placeholder texts, and no
    category or event is blank or the word none in whatever case. *)
Theorem parse_gpt_output_clean svc (gpt_output : string) (a : analysis) :
  parse_gpt_output svc gpt_output = Some a →
  (10 ≤ length (chars (summary a)))%nat
  ∧ (lower (summary a) ∉ ["none"; "n/a"; "not available"])
  ∧ Forall kept_name (category a)
  ∧ Forall kept_name (events a).
Proof.
  unfold parse_gpt_output.
  destruct (json_loads svc (clean_gpt_response gpt_output)) as [[result|]|];
    try done.
  set (cleaned := strip (to_str svc (default (JStr "") (result !! "summary")))).
  destruct (Nat.ltb_spec (length (chars cleaned)) 10) as [|Hlen]; [done|].
  cbn [orb].
  destruct (bool_decide (lower cleaned ∈ ["none"; "n/a"; "not available"]))
    eqn:Hin; [done|].
  intros [= <-]. cbn [summary category events].
  split; [done|]. split; [by apply bool_decide_eq_false in Hin|].
  split; apply keep_names_kept.
Qed.

(** X22: the retry loop makes at most three attempts and returns the
    result of the first that succeeds. *)
Theorem analyze_article_with_retry_first_success svc article (a : analysis) :
  analyze_article_with_retry svc article = Some a
  ↔ ∃ k, (k < 3)%nat
         ∧ attempt_once svc article k = Some a
         ∧ ∀ j, (j < k)%nat → attempt_once svc article j = None.
Proof.
  unfold analyze_article_with_retry, MAX_RETRIES. cbn [retry_from]. split.
  - destruct (attempt_once svc article 0) as [a0|] eqn:H0.
    { intros [= <-]. exists 0%nat. split; [lia|]. split; [done|]. lia. }
    destruct (attempt_once svc article 1) as [a1|] eqn:H1.
    { intros [= <-]. exists 1%nat. split; [lia|]. split; [done|].
      intros j Hj. by replace j with 0%nat by lia. }
    destruct (attempt_once svc article 2) as [a2|] eqn:H2; [|done].
    intros [= <-]. exists 2%nat. split; [lia|]. split; [done|].
    intros j Hj. destruct j as [|[|j]]; [done|done|lia].
  - intros (k & Hk & Ha & Hbefore).
    destruct k as [|[|[|k]]]; [| | |lia].
    + by rewrite Ha.
    + rewrite (Hbefore 0%nat) by lia. by rewrite Ha.
    + rewrite (Hbefore 0%nat), (Hbefore 1%nat) by lia. by rewrite Ha.
Qed.

Lemma lead_bytes_app (a b : string) :
  lead_bytes (a +:+ b) = (lead_bytes a + lead_bytes b)%nat.
Proof.
  induction a as [|c a IH]; [done|]. rewrite append_cons. simpl.
  rewrite IH. lia.
Qed.

Lemma starts_inside_app (a b : string) :
  (starts_inside (a +:+ b) ≤ starts_inside a + starts_inside b)%nat.
Proof.
  destruct a as [|c a]; [done|]. rewrite append_cons. simpl. lia.
Qed.

Lemma char_count_app (a b : string) :
  (char_count (a +:+ b) ≤ char_count a + char_count b)%nat.
Proof.
  unfold char_count. rewrite lead_bytes_app.
  pose proof (starts_inside_app a b). lia.
Qed.

Lemma chars_aux_length (s cur : string) :
  length (chars_aux cur s)
  = (lead_bytes s
     + match cur with EmptyString => starts_inside s | _ => 1 end)%nat.
Proof.
  revert cur. induction s as [|c s IH]; intros cur.
  { by destruct cur. }
  cbn [chars_aux lead_bytes starts_inside].
  destruct (is_continuation c) eqn:Hc.
  - rewrite IH. destruct cur; rewrite ?append_cons; simpl; lia.
  - destruct cur; simpl; rewrite IH; lia.
Qed.

(** [len(s)] counts the characters. *)
Lemma chars_length (s : string) : length (chars s) = char_count s.
Proof. unfold chars. by rewrite chars_aux_length. Qed.

Lemma char_count_extend (cur : string) (c : ascii) :
  cur ≠ "" → is_continuation c = true →
  char_count (cur +:+ String c "") = char_count cur.
Proof.
  intros Hne Hc. unfold char_count. rewrite lead_bytes_app. simpl. rewrite Hc.
  destruct cur as [|x cur]; [done|]. rewrite append_cons. simpl. lia.
Qed.

(** Every item of [chars s] is one character. *)
Lemma chars_aux_items (s cur : string) :
  cur = "" ∨ char_count cur = 1%nat →
  Forall (λ x, char_count x = 1%nat) (chars_aux cur s).
Proof.
  revert cur. induction s as [|c s IH]; intros cur Hcur.
  { destruct cur as [|x cur]; [constructor|].
    destruct Hcur as [|Hcur]; [done|]. by repeat constructor. }
  cbn [chars_aux]. destruct (is_continuation c) eqn:Hc.
  - apply IH. right. destruct Hcur as [->|Hcur].
    + unfold char_count. simpl. by rewrite Hc.
    + destruct cur as [|x cur].
      * unfold char_count. simpl. by rewrite Hc.
      * by rewrite char_count_extend.
  - assert (Hone : char_count (String c "") = 1%nat).
    { unfold char_count. simpl. by rewrite Hc. }
    destruct cur as [|x cur].
    + apply IH. by right.
    + constructor; [by destruct Hcur|]. apply IH. by right.
Qed.

Lemma char_count_concat (l : list string) :
  Forall (λ x, char_count x = 1%nat) l →
  (char_count (String.concat "" l) ≤ length l)%nat.
Proof.
  induction 1 as [|x l Hx _ IH]; [done|].
  destruct l as [|y l].
  - simpl. lia.
  - rewrite concat_cons_nonempty. change ("" +:+ ?s) with s.
    etrans; [apply char_count_app|]. simpl in *. lia.
Qed.

(** [len(s[:n]) <= n] *)
Lemma slice_to_length (n : nat) (s : string) :
  (length (chars (slice_to n s)) ≤ n)%nat.
Proof.
  rewrite chars_length. unfold slice_to.
  etrans; [apply char_count_concat|].
  - apply Forall_take. apply chars_aux_items. by left.
  - rewrite length_take. lia.
Qed.

(** X28: the summary of the keyword fallback never has more than 200
    characters, the ellipsis included. *)
Theorem fallback_summary_bounded (content : string) :
  (length (chars (fallback_summary content)) ≤ 200)%nat.
Proof.
  unfold fallback_summary.
  destruct (Nat.ltb_spec 197 (length (chars (strip (slice_to 200 content)))))
    as [Hlong|Hshort]; [|lia].
  rewrite chars_length.
  etrans; [apply char_count_app|].
  rewrite <- chars_length.
  pose proof (slice_to_length 197 (strip (slice_to 200 content))).
  change (char_count "...") with 3%nat. lia.
Qed.

Lemma basic_categories_keywords (title content : string) :
  Forall (λ k, k ∈ keywords
               ∧ contains k (lower (title +:+ " " +:+ content)) = true)
         (basic_categories title content).
Proof.
  apply Forall_forall. intros k Hk. unfold basic_categories in Hk.
  apply list_elem_of_In, filter_In in Hk as [Hk Hc].
  split; [by apply list_elem_of_In|done].
Qed.

(** X23: when the LLM gives no usable analysis of a valid article with a
    [str] title and content, the result is the keyword fallback: at most
    five categories, each a keyword found in the lowered title and
    content, but groups for all the keywords found, also those beyond the
    fifth; every group is one of the four known ones. *)
Theorem analyze_article_keyword_fallback svc article (title content : string) :
  validate_article_input svc article = true →
  article !! "title" = Some (JStr title) →
  article !! "content" = Some (JStr content) →
  analyze_article_with_retry svc article = None →
  let found := basic_categories title content in
  ∃ r, analyze_article svc article = Ok r
       ∧ r !! "category" = Some (str_list (take 5 found))
       ∧ r !! "assigned_group" = Some (str_list (map_categories_to_groups found))
       ∧ r !! "summary" = Some (JStr (fallback_summary content))
       ∧ r !! "events" = Some (JList [])
       ∧ (length (take 5 found) ≤ 5)%nat
       ∧ Forall (λ k, k ∈ keywords
                      ∧ contains k (lower (title +:+ " " +:+ content)) = true)
                found
       ∧ Forall (λ g, g ∈ get_all_groups) (map_categories_to_groups found).
Proof.
  intros Hval Ht Hc Hretry found.
  unfold analyze_article, analyze_article_body.
  rewrite Hval, Ht, Hretry. cbn [negb default from_option id sliceable].
  unfold create_fallback_result. rewrite Ht, Hc.
  cbn [default from_option id bind assigned_group category events summary].
  fold found.
  rewrite (str_list_truthy _ (map_categories_to_groups_nonempty found)).
  cbn [negb]. eexists. split; [reflexivity|].
  split; [reflexivity|]. split.
  { unfold str_list. destruct (map_categories_to_groups found); reflexivity. }
  split; [reflexivity|]. split; [reflexivity|].
  split; [rewrite length_take; lia|].
  split; [apply basic_categories_keywords|].
  apply Forall_forall. intros g Hg. by eapply map_categories_to_groups_known.
Qed.

(** X24: the quality score is 25 points for every check that raised no
    issue, so score and issues always add up to 100, and the grade is A
    with at most one issue, B with two, C with three or four. *)
Theorem analyze_article_quality_score result (q : quality) :
  analyze_article_quality result = Ok q →
  (quality_score q + 25 * Z.of_nat (length (issues q)) = 100)%Z
  ∧ (length (issues q) ≤ 4)%nat
  ∧ grade q = (if (length (issues q) <=? 1)%nat then "A"
               else if (length (issues q) =? 2)%nat then "B" else "C").
Proof.
  unfold analyze_article_quality.
  destruct (py_len (default (JStr "") (result !! "summary"))) as [n1|]; [|done].
  destruct (py_len (default (JList []) (result !! "category"))) as [n2|]; [|done].
  destruct (py_len (default (JList []) (result !! "events"))) as [n3|]; [|done].
  unfold bind. cbv beta iota zeta.
  set (groups := default (JList []) (result !! "assigned_group")).
  generalize (50 <=? n1)%nat, (1 <=? n2)%nat, (1 <=? n3)%nat,
    (jtruthy groups && negb (only_general groups)).
  intros b1 b2 b3 b4 [= <-].
  destruct b1, b2, b3, b4;
    (split; [reflexivity|]; split; [cbn; lia|reflexivity]).
Qed.

Lemma quality_of_result title cats group evs summ article :
  analyze_article_quality (result_of title cats group evs summ article)
  = (let! summary_len := py_len summ in
     let q := check (50 <=? summary_len)%nat "요약이 너무 짧음" (0%Z, []) in
     let! category_len := py_len cats in
     let q := check (1 <=? category_len)%nat "카테고리 없음" q in
     let! events_len := py_len evs in
     let q := check (1 <=? events_len)%nat "이벤트 없음" q in
     let q := check (jtruthy group && negb (only_general group))
                    "일반 그룹으로만 분류됨" q in
     Ok (Quality (fst q) (snd q)
           (if (75 <=? fst q)%Z then "A"
            else if (50 <=? fst q)%Z then "B" else "C"))).
Proof.
  unfold analyze_article_quality.
  destruct (result_of_lookups title cats group evs summ article)
    as (_ & -> & -> & -> & -> & _).
  reflexivity.
Qed.

(** X25: every result of [analyze_article] can be graded: on it
    [analyze_article_quality] does not raise.  A result that was built
    after a failure inside [analyze_article] (invalid input, or an error
    on the way) has no category, no event and the general group only, and
    is graded C with at most 25 points. *)
Theorem analyze_article_result_is_gradable svc article r :
  analyze_article svc article = Ok r →
  ∃ q, analyze_article_quality r = Ok q
       ∧ (∀ e, analyze_article_body svc article = Raise e →
               grade q = "C" ∧ (quality_score q ≤ 25)%Z).
Proof.
  unfold analyze_article.
  destruct (analyze_article_body svc article) as [r'|e] eqn:Hb.
  - intros [= <-].
    apply analyze_article_body_shape in Hb as (a & group & -> & _ & _).
    rewrite quality_of_result. unfold str_list. cbn [py_len bind].
    eexists. split; [reflexivity|]. intros e He. discriminate.
  - intros (shown & -> & n & Hn)%minimal_result_shape.
    rewrite quality_of_result, Hn. cbn [py_len bind length].
    eexists. split; [reflexivity|]. intros _ _.
    cbn [quality_score grade].
    destruct (50 <=? n)%nat; vm_compute; split; (reflexivity || discriminate).
Qed.

Lemma analyze_batch_shift svc_of (l : list jdict) : ∀ n k,
  omap (λ ja, match analyze_article (svc_of (n + fst ja)) (snd ja) with
              | Ok result => Some result
              | Raise _ => None
              end)
       (imap (λ j article, (k + j, article)) l)
  = analyze_batch svc_of (n + k) l.
Proof.
  induction l as [|d l IH]; intros n k; [done|].
  unfold analyze_batch. rewrite !imap_cons.
  rewrite (imap_ext _ (λ j article, (S k + j, article)) l)
    by (intros; simpl; f_equal; lia).
  rewrite (imap_ext ((λ j article, (j, article)) ∘ S)
            (λ j article, (1 + j, article)) l)
    by (intros; simpl; f_equal; lia).
  cbn [omap list_omap fst snd].
  change (list_omap _ _ ?f ?l) with (omap f l).
  rewrite (IH n (S k)), (IH (n + k) 1).
  replace (n + (k + 0)) with (n + k) by lia.
  replace (n + k + 0) with (n + k) by lia.
  replace (n + S k) with (n + k + 1) by lia.
  done.
Qed.

Lemma analyze_batch_cons svc_of n d (l : list jdict) :
  analyze_batch svc_of n (d :: l)
  = option_list (analyzed svc_of n d) ++ analyze_batch svc_of (S n) l.
Proof.
  unfold analyze_batch at 1. rewrite imap_cons.
  rewrite (imap_ext ((λ j article, (j, article)) ∘ S)
            (λ j article, (1 + j, article)) l)
    by (intros; simpl; f_equal; lia).
  cbn [omap list_omap fst snd].
  change (list_omap _ _ ?f ?l) with (omap f l).
  rewrite analyze_batch_shift.
  replace (n + 0) with n by lia. replace (n + 1) with (S n) by lia.
  unfold analyzed. by destruct (analyze_article (svc_of n) d).
Qed.

Lemma analyze_batch_app svc_of (l1 l2 : list jdict) : ∀ n,
  analyze_batch svc_of n (l1 ++ l2)
  = analyze_batch svc_of n l1 ++ analyze_batch svc_of (n + length l1) l2.
Proof.
  induction l1 as [|d l1 IH]; intros n; simpl.
  - by rewrite Nat.add_0_r.
  - rewrite !analyze_batch_cons, IH, <- app_assoc.
    by replace (S n + length l1) with (n + S (length l1)) by lia.
Qed.

Lemma analyze_batches_all svc_of batch_size :
  batch_size ≠ 0%nat →
  ∀ (fuel i : nat) (rest results : list jdict),
    (length rest ≤ fuel)%nat →
    analyze_batches svc_of batch_size fuel i rest results
    = results ++ analyze_batch svc_of i rest.
Proof.
  intros Hbs. induction fuel as [|fuel IH]; intros i rest results Hlen.
  - destruct rest; [by rewrite app_nil_r|simpl in Hlen; lia].
  - destruct rest as [|d rest]; [by rewrite app_nil_r|].
    cbn [analyze_batches]. rewrite IH.
    2:{ rewrite length_drop. simpl in *. lia. }
    rewrite <- app_assoc. f_equal.
    rewrite <- (take_drop batch_size (d :: rest)) at 3.
    rewrite analyze_batch_app.
    destruct (decide (batch_size ≤ length (d :: rest))%nat) as [Hle|Hgt].
    + by rewrite length_take, Nat.min_l by done.
    + rewrite (drop_ge (d :: rest)) by lia. done.
Qed.

Lemma omap_shorter {A B} (f : A → option B) (l : list A) :
  (length (omap f l) ≤ length l)%nat.
Proof.
  induction l as [|x l IH]; [done|]. cbn [omap list_omap].
  change (list_omap _ _ ?f ?l) with (omap f l).
  destruct (f x); simpl; lia.
Qed.

(** X26: with a batch size of one or more, [batch_analyze_articles] does
    not raise, and the batching leaves no trace in its result: it is the
    results of the articles whose analysis returned, in the order of the
    articles, whatever the batch size; an article whose analysis raises is
    dropped without a word to the caller. *)
Theorem batch_analyze_articles_result svc_of (articles : list jdict)
    (batch_size : nat) :
  batch_size ≠ 0%nat →
  batch_analyze_articles svc_of articles batch_size
  = Ok (omap (λ ka, analyzed svc_of (fst ka) (snd ka))
             (imap (λ k article, (k, article)) articles))
  ∧ (length (omap (λ ka, analyzed svc_of (fst ka) (snd ka))
                  (imap (λ k article, (k, article)) articles))
     ≤ length articles)%nat.
Proof.
  intros Hbs. split.
  - unfold batch_analyze_articles. apply Nat.eqb_neq in Hbs as Hz. rewrite Hz.
    rewrite analyze_batches_all by done. reflexivity.
  - etrans; [apply omap_shorter|]. by rewrite length_imap.
Qed.

End AnalyzerProps.

Section AnalyzerExamples.
Import CategoryMapper Analyzer DemoArticles.

Lemma analyze_article_returns_witness :
  ∃ r, analyze_article gpt_down news = Ok r.
Proof.
  apply analyze_article_returns. right. eexists. reflexivity.
Defined.

Lemma analyze_article_raises_on_unsized_content_witness :
  analyze_article gpt_flaky no_content = Raise (TypeError "object has no len()").
Proof.
  apply (analyze_article_raises_on_unsized_content gpt_flaky no_content JNone);
    reflexivity.
Defined.

Lemma analyze_article_result_shape_witness :
  ∃ r, analyze_article gpt_flaky news = Ok r
       ∧ r !! "title" = Some (JStr "Bulk and container markets")
       ∧ r !! "keywords" = Some (JList [])
       ∧ ∃ group, r !! "assigned_group" = Some group ∧ jtruthy group = true.
Proof.
  destruct (analyze_article_on_str_content gpt_flaky news) as [r Hr].
  { right. eexists. reflexivity. }
  exists r. split; [exact Hr|].
  destruct (analyze_article_result_shape gpt_flaky news r Hr)
    as (Ht & _ & _ & _ & Hk & Hg).
  split; [exact Ht|]. split; [exact Hk|exact Hg].
Defined.

(** The decoded answer loses its blank, its [None] and its None entries,
    and its events, which were no list. *)
Lemma parse_gpt_output_clean_witness :
  ∃ a, parse_gpt_output gpt_flaky "Here it is: ```json {analysis} ``` Done."
       = Some a
       ∧ category a = ["rates"; "steel"]
       ∧ events a = []
       ∧ (10 ≤ length (chars (summary a)))%nat
       ∧ Forall kept_name (category a).
Proof.
  eexists. split; [vm_compute; reflexivity|].
  split; [reflexivity|]. split; [reflexivity|].
  refine (let H := parse_gpt_output_clean gpt_flaky
                     "Here it is: ```json {analysis} ``` Done." _ _ in
          conj (proj1 H) (proj1 (proj2 (proj2 H)))).
  vm_compute. reflexivity.
Defined.

(** The first call fails, the second is used. *)
Lemma analyze_article_with_retry_first_success_witness :
  analyze_article_with_retry gpt_flaky news
  = Some {| summary := "Rates rose on strong steel demand.";
            category := ["rates"; "steel"];
            assigned_group := JStr "steel_export_group";
            events := [] |}.
Proof.
  apply analyze_article_with_retry_first_success. exists 1%nat.
  split; [lia|]. split; [vm_compute; reflexivity|].
  intros j Hj. replace j with 0%nat by lia. vm_compute. reflexivity.
Defined.

(** Six keywords are found; "container" is not among the five categories
    kept, yet the groups are those of all six. *)
Lemma analyze_article_keyword_fallback_witness :
  ∃ r, analyze_article gpt_down news = Ok r
       ∧ r !! "category"
         = Some (str_list ["bulk"; "handy"; "handymax"; "supramax"; "panamax"])
       ∧ r !! "assigned_group"
         = Some (str_list ["general_group"; "steel_export_group";
                           "coal_import_group"; "container_group"]).
Proof.
  destruct (analyze_article_keyword_fallback gpt_down news
              "Bulk and container markets"
              "Handy, Handymax, Supramax and Panamax owners and container lines met.")
    as (r & Hr & Hc & Hg & _); try (vm_compute; reflexivity).
  exists r. split; [exact Hr|]. split.
  - rewrite Hc. vm_compute. reflexivity.
  - rewrite Hg. vm_compute. reflexivity.
Defined.

Lemma analyze_article_quality_score_witness :
  ∃ q, analyze_article_quality decoded = Ok q
       ∧ (quality_score q + 25 * Z.of_nat (length (issues q)) = 100)%Z
       ∧ grade q = "A".
Proof.
  eexists. split; [vm_compute; reflexivity|].
  refine (let H := analyze_article_quality_score decoded _ _ in
          conj (proj1 H) (proj2 (proj2 H))).
  vm_compute. reflexivity.
Defined.

Lemma analyze_article_result_is_gradable_witness :
  ∃ r q, analyze_article gpt_down news = Ok r
         ∧ analyze_article_quality r = Ok q.
Proof.
  destruct (analyze_article_on_str_content gpt_down news) as [r Hr].
  { right. eexists. reflexivity. }
  destruct (analyze_article_result_is_gradable gpt_down news r Hr) as (q & Hq & _).
  exists r, q. split; [exact Hr|exact Hq].
Defined.

(** Of three articles, the one without content is dropped; a batch size
    of two gives what a batch size of one gives. *)
Lemma batch_analyze_articles_result_witness :
  batch_analyze_articles (λ _, gpt_down) [news; no_content; news] 2
  = batch_analyze_articles (λ _, gpt_down) [news; no_content; news] 1
  ∧ ∃ results,
      batch_analyze_articles (λ _, gpt_down) [news; no_content; news] 2
      = Ok results
      ∧ length results = 2%nat.
Proof.
  destruct (batch_analyze_articles_result (λ _, gpt_down)
              [news; no_content; news] 2) as [H2 _]; [discriminate|].
  destruct (batch_analyze_articles_result (λ _, gpt_down)
              [news; no_content; news] 1) as [H1 _]; [discriminate|].
  split; [by rewrite H1, H2|].
  eexists. split; [exact H2|]. vm_compute. reflexivity.
Defined.

End AnalyzerExamples.
